(** * Clockity: the stopwatch and countdown engines of [Clockity.py]

    A shallow embedding of the timer logic of the two tkinter frames
    [Stopwatch] and [CountDown].  The instance attributes of each frame and
    the widget properties the code reads or writes (label texts, button
    texts and commands) are fields of a record; the closures defined in
    [__init__] are functions on that record.  The two [while] loops call
    [self.update()] once per iteration (twice per alarm pulse): those calls
    are the only places where a button press can be served while a loop is
    running, so each loop is cut there, into the code from one [update()]
    call to the next.

    Each frame has two machines.  [tk_run] is the frame as Tk runs it: an
    [update()] call serves any number of presses, and a press of Start or
    Cont. served inside it calls the loop function again, as a nested call
    on top of the suspended loop; the suspended loops are kept on a stack.
    [run] is the part of it in which every [update()] call serves at most
    one press and no loop is started inside a loop; [run_is_tk_run] and
    [run_is_tk_run_cd] show that its runs are runs of [tk_run].

    Of the frame [Home] the text of the time and date is embedded, as a
    function of the five texts [strftime] returns.

    Not modelled: fonts, colours other than the red alarm flash, widget
    geometry, the wall clock and the thread of [Home], and the real duration
    of [time.sleep]. *)

From Stdlib Require Import ZArith String Ascii List Lia Bool DecimalString.
Import ListNotations.

Open Scope string_scope.
Open Scope Z_scope.

(** ** Python primitives *)

Module Py.

(** [str(z)] for an [int]. *)
Definition str (z : Z) : string := NilZero.string_of_int (Z.to_int z).

(** [int(s)] restricted to an optional minus sign followed by decimal
    digits; [None] stands for [ValueError].  (Python also accepts blanks,
    a plus sign and underscores; such strings answer [None] here.) *)
Definition int (s : string) : option Z :=
  option_map Z.of_int (NilZero.int_of_string s).

Definition len (s : string) : Z := Z.of_nat (String.length s).

(** [s[a:b]] for constants [0 <= a <= b]; out of range indices clamp. *)
Definition slice (a b : nat) (s : string) : string := substring a (b - a) s.

Fixpoint zeros (n : nat) : string :=
  match n with
  | O => ""
  | S k => String "0" (zeros k)
  end.

(** [s.zfill(w)]: zeros go after a leading sign. *)
Definition zfill (w : nat) (s : string) : string :=
  let pad := zeros (w - String.length s) in
  match s with
  | String c r =>
      if (Ascii.eqb c "-" || Ascii.eqb c "+")%bool
      then String c (pad ++ r)
      else pad ++ s
  | EmptyString => pad
  end.

End Py.

(** ** An error monad for handlers that can raise *)

Inductive Failure : Set :=
| ValueError   (* [int()] applied to a string that is not a number *)
| Reentrant.   (* a loop started inside a running loop: where [run] ends and [tk_run] goes on *)

Inductive Result (A : Type) : Type :=
| Ok (a : A)
| Raise (f : Failure).
Arguments Ok {A} a.
Arguments Raise {A} f.

Definition bind {A B : Type} (r : Result A) (k : A -> Result B) : Result B :=
  match r with
  | Ok a => k a
  | Raise f => Raise f
  end.

Notation "x <- r ;; k" := (bind r (fun x => k))
  (at level 61, r at next level, right associativity).

Definition py_int (s : string) : Result Z :=
  match Py.int s with
  | Some z => Ok z
  | None => Raise ValueError
  end.

(** ** Time values: the loop variables [hours], [minutes], [seconds], [deci_sec] *)

Record TimeCode : Set := mkTime {
  hours : Z;
  minutes : Z;
  seconds : Z;
  deci_sec : Z
}.

(** [str(hours).zfill(2) + ':' + str(minutes).zfill(2) + ':' + str(seconds).zfill(2)] *)
Definition hms (h m s : Z) : string :=
  Py.zfill 2 (Py.str h) ++ ":" ++ Py.zfill 2 (Py.str m) ++ ":" ++ Py.zfill 2 (Py.str s).

Definition time_text (t : TimeCode) : string := hms (hours t) (minutes t) (seconds t).

(** The carry at the end of the stopwatch loop body. *)
Definition increment (t : TimeCode) : TimeCode :=
  let d := deci_sec t + 1 in
  if d =? 10 then
    let s := seconds t + 1 in
    if s =? 60 then
      let m := minutes t + 1 in
      if m =? 60 then mkTime (hours t + 1) 0 0 0
      else mkTime (hours t) m 0 0
    else mkTime (hours t) (minutes t) s 0
  else mkTime (hours t) (minutes t) (seconds t) d.

(** The borrow at the end of the countdown loop body.  In the middle of it
    the code compares [self.updated_time] with ['00:00:00'] and leaves for
    the alarm; [ReachedZero] is that exit. *)
Inductive Decrement : Set :=
| Continue (t : TimeCode)
| ReachedZero.

Definition decrement (updated_time : string) (t : TimeCode) : Decrement :=
  let d := deci_sec t - 1 in
  if d =? -1 then
    let s := seconds t - 1 in
    if String.eqb updated_time "00:00:00" then ReachedZero
    else if s =? -1 then
      let m := minutes t - 1 in
      if m =? -1 then Continue (mkTime (hours t - 1) 59 59 9)
      else Continue (mkTime (hours t) m 59 9)
    else Continue (mkTime (hours t) (minutes t) s 9)
  else Continue (mkTime (hours t) (minutes t) (seconds t) d).

(** What the spec calls a normalized value. *)
Definition normalized (t : TimeCode) : Prop :=
  0 <= hours t /\ 0 <= minutes t <= 59 /\ 0 <= seconds t <= 59 /\ 0 <= deci_sec t <= 9.

Definition deciseconds (t : TimeCode) : Z :=
  ((hours t * 60 + minutes t) * 60 + seconds t) * 10 + deci_sec t.

(** Effects sent to the sound device and the alarm flash. *)
Inductive Effect : Set :=
| Sound (n : Z)        (* [controller.sounds(n)] *)
| Flash (red : bool).  (* the three labels turn red / back to the default colour *)

(** A button: its caption and the closure bound to it. *)
Record Button (C : Set) : Set := mkButton {
  text : string;
  command : C
}.
Arguments mkButton {C} text command.
Arguments text {C} b.
Arguments command {C} b.

(** The ten number buttons call [number_buttons(0)] ... [number_buttons(9)]. *)
Inductive Key : Set := K0 | K1 | K2 | K3 | K4 | K5 | K6 | K7 | K8 | K9.

Definition key_num (k : Key) : Z :=
  match k with
  | K0 => 0 | K1 => 1 | K2 => 2 | K3 => 3 | K4 => 4
  | K5 => 5 | K6 => 6 | K7 => 7 | K8 => 8 | K9 => 9
  end.

(** ** Vocabulary of the statements *)

(** The character of a decimal digit [0 <= z <= 9]. *)
Definition digit_char (z : Z) : ascii := ascii_of_nat (48 + Z.to_nat z).

(** The two-character text of [0 <= n <= 99]. *)
Definition two_digits (n : Z) : string :=
  String (digit_char (n / 10)) (String (digit_char (n mod 10)) "").

Fixpoint upto (lo : Z) (n : nat) : list Z :=
  match n with
  | O => []
  | S k => lo :: upto (lo + 1) k
  end.

(** A digit buffer padded with zeros on the left to six characters, and a
    six-character text cut into [HH:MM:SS]. *)
Definition pad6 (buffer : string) : string :=
  Py.zeros (6 - String.length buffer) ++ buffer.

Definition colons (p : string) : string :=
  Py.slice 0 2 p ++ ":" ++ Py.slice 2 4 p ++ ":" ++ Py.slice 4 6 p.

(** The text typed with a sequence of number buttons. *)
Fixpoint keys_text (ks : list Key) : string :=
  match ks with
  | [] => ""
  | k :: ks' => Py.str (key_num k) ++ keys_text ks'
  end.

(** The number typed with a sequence of number buttons, and the seconds it
    stands for when its last two digits are read as seconds, the two before
    as minutes and the rest as hours. *)
Definition key_value (ks : list Key) : Z :=
  fold_left (fun acc k => 10 * acc + key_num k) ks 0.

Definition typed_seconds (ks : list Key) : Z :=
  (key_value ks / 10000) * 3600 + ((key_value ks / 100) mod 100) * 60
  + key_value ks mod 100.

(** ** The countdown frame *)

Module CountDown.

(** The closures [set_countdown_button] is configured with. *)
Inductive SetCommand : Set :=
| cmd_set_countdown
| cmd_start_countdown
| cmd_pause_countdown
| cmd_nothing.          (* [lambda: None], during the alarm *)

Record State : Set := mkState {
  number_key : bool;
  countdown_key : bool;
  time_update : string;
  updated_time : string;
  updated_deci : Z;
  alarm_key : Z;
  countdown_time_label : string;
  countdown_mini_time_label : string;
  set_countdown_button : Button SetCommand;
  log : list Effect                 (* newest first *)
}.

Definition with_number_key v s :=
  mkState v (countdown_key s) (time_update s) (updated_time s) (updated_deci s)
    (alarm_key s) (countdown_time_label s) (countdown_mini_time_label s)
    (set_countdown_button s) (log s).
Definition with_countdown_key v s :=
  mkState (number_key s) v (time_update s) (updated_time s) (updated_deci s)
    (alarm_key s) (countdown_time_label s) (countdown_mini_time_label s)
    (set_countdown_button s) (log s).
Definition with_time_update v s :=
  mkState (number_key s) (countdown_key s) v (updated_time s) (updated_deci s)
    (alarm_key s) (countdown_time_label s) (countdown_mini_time_label s)
    (set_countdown_button s) (log s).
Definition with_updated_time v s :=
  mkState (number_key s) (countdown_key s) (time_update s) v (updated_deci s)
    (alarm_key s) (countdown_time_label s) (countdown_mini_time_label s)
    (set_countdown_button s) (log s).
Definition with_updated_deci v s :=
  mkState (number_key s) (countdown_key s) (time_update s) (updated_time s) v
    (alarm_key s) (countdown_time_label s) (countdown_mini_time_label s)
    (set_countdown_button s) (log s).
Definition with_alarm_key v s :=
  mkState (number_key s) (countdown_key s) (time_update s) (updated_time s)
    (updated_deci s) v (countdown_time_label s) (countdown_mini_time_label s)
    (set_countdown_button s) (log s).
Definition with_time_label v s :=
  mkState (number_key s) (countdown_key s) (time_update s) (updated_time s)
    (updated_deci s) (alarm_key s) v (countdown_mini_time_label s)
    (set_countdown_button s) (log s).
Definition with_mini_label v s :=
  mkState (number_key s) (countdown_key s) (time_update s) (updated_time s)
    (updated_deci s) (alarm_key s) (countdown_time_label s) v
    (set_countdown_button s) (log s).
Definition with_set_button v s :=
  mkState (number_key s) (countdown_key s) (time_update s) (updated_time s)
    (updated_deci s) (alarm_key s) (countdown_time_label s)
    (countdown_mini_time_label s) v (log s).
Definition emit (e : Effect) s :=
  mkState (number_key s) (countdown_key s) (time_update s) (updated_time s)
    (updated_deci s) (alarm_key s) (countdown_time_label s)
    (countdown_mini_time_label s) (set_countdown_button s) (e :: log s).

(** [controller.sounds(n)] *)
Definition sounds (n : Z) (s : State) : State := emit (Sound n) s.

(** The frame as [__init__] leaves it. *)
Definition init : State :=
  mkState true false "" "" 0 0 "00:00:00" ".0"
    (mkButton "Set" cmd_set_countdown) [].

Definition format_number_inputs (s : State) : State :=
  let tu := time_update s in
  let s1 :=
    if Py.len tu =? 1 then with_updated_time ("00:00:0" ++ tu) s
    else if Py.len tu =? 2 then with_updated_time ("00:00:" ++ tu) s
    else if Py.len tu =? 3 then
      with_updated_time ("00:0" ++ Py.slice 0 1 tu ++ ":" ++ Py.slice 1 3 tu) s
    else if Py.len tu =? 4 then
      with_updated_time ("00:" ++ Py.slice 0 2 tu ++ ":" ++ Py.slice 2 4 tu) s
    else if Py.len tu =? 5 then
      with_updated_time
        ("0" ++ Py.slice 0 1 tu ++ ":" ++ Py.slice 1 3 tu ++ ":" ++ Py.slice 3 5 tu) s
    else if Py.len tu =? 6 then
      with_updated_time
        (Py.slice 0 2 tu ++ ":" ++ Py.slice 2 4 tu ++ ":" ++ Py.slice 4 6 tu) s
    else s in
  with_time_label (updated_time s1) s1.

Definition number_buttons (num : Z) (s : State) : State :=
  if number_key s then
    if num =? 0 then
      if Py.len (time_update s) =? 0 then s
      else if Py.len (time_update s) <? 6 then
        format_number_inputs
          (with_time_update (time_update s ++ Py.str num) (sounds 2 s))
      else s
    else
      if Py.len (time_update s) <? 6 then
        format_number_inputs
          (with_time_update (time_update s ++ Py.str num) (sounds 2 s))
      else s
  else s.

Definition clear_countdown (s : State) : State :=
  let s := sounds 2 s in
  let s := with_countdown_key false s in
  let s := with_time_update "" s in
  let s := with_updated_deci 0 s in
  let s := with_number_key true s in
  let s := with_alarm_key 14 s in
  let s := with_set_button (mkButton "Set" cmd_set_countdown) s in
  let s := with_time_label "00:00:00" s in
  with_mini_label ".0" s.

Definition pause_countdown (s : State) : State :=
  let s := sounds 2 s in
  let s := with_countdown_key false s in
  with_set_button (mkButton "Cont." cmd_start_countdown) s.

(** The fold of [set_countdown], on the three parsed fields. *)
Definition fold_overflow (h m s : Z) : string :=
  Py.zfill 2 (Py.str (h + m / 60)) ++ ":" ++
  Py.zfill 2 (Py.str (m mod 60 + s / 60)) ++ ":" ++
  Py.zfill 2 (Py.str (s mod 60)).

Definition set_countdown (s : State) : Result State :=
  if String.eqb (time_update s) "" then Ok s
  else
    let s := sounds 2 s in
    let s := with_time_update "" s in
    let s := with_number_key false s in
    h <- py_int (Py.slice 0 2 (updated_time s)) ;;
    m <- py_int (Py.slice 3 5 (updated_time s)) ;;
    sec <- py_int (Py.slice 6 8 (updated_time s)) ;;
    if ((sec >? 59) || (m >? 59))%bool then
      let s := with_updated_time (fold_overflow h m sec) s in
      (* both branches on [len(self.updated_time) == 9] show the text and
         bind the button alike; only the font differs *)
      let s := with_time_label (updated_time s) s in
      Ok (with_set_button (mkButton "Start" cmd_start_countdown) s)
    else
      Ok (with_set_button (mkButton "Start" cmd_start_countdown) s).

(** The conversion [set_countdown] applies to a text [HH:MM:SS] (the spec's
    normalizeOverflow): its three [int()] calls, its test and its fold. *)
Definition normalize_overflow (updated_time : string) : Result string :=
  h <- py_int (Py.slice 0 2 updated_time) ;;
  m <- py_int (Py.slice 3 5 updated_time) ;;
  sec <- py_int (Py.slice 6 8 updated_time) ;;
  if ((sec >? 59) || (m >? 59))%bool
  then Ok (fold_overflow h m sec)
  else Ok updated_time.

(** *** [start_countdown], cut at its [self.update()] calls *)

(** Where the interpreter stands when [update()] serves the next event. *)
Inductive Control : Set :=
| Main                     (* in the tk main loop, no closure running *)
| Tick (t : TimeCode)      (* in the countdown loop, holding its local variables *)
| AlarmOn                  (* in the alarm loop, labels red *)
| AlarmOff.                (* in the alarm loop, labels back to normal *)

Definition Config : Set := (State * Control)%type.

Inductive Event : Set :=
| Number (k : Key)
| SetButton
| ClearButton
| BackButton.              (* [r_frame(Home)] then [clear_countdown()] *)

(** The head of the [while self.countdown_key is True] loop and the part of
    its body that stores and shows the time, up to [self.update()]. *)
Definition countdown_loop (s : State) (t : TimeCode) : Config :=
  if countdown_key s then
    let s := with_updated_time (time_text t) s in
    let s := with_updated_deci (deci_sec t) s in
    let s := with_mini_label ("." ++ Py.str (updated_deci s)) s in
    let s := with_time_label (updated_time s) s in
    (s, Tick t)
  else (s, Main).

(** The head of [while self.alarm_key < 14] and the first half of a pulse;
    when the guard fails, the three statements after the alarm loop. *)
Definition alarm_loop (s : State) : Config :=
  if alarm_key s <? 14 then
    let s := sounds 3 s in
    let s := emit (Flash true) s in
    (s, AlarmOn)
  else
    let s := with_number_key true s in
    let s := with_set_button (mkButton "Set" cmd_set_countdown) s in
    (s, Main).

(** The rest of the loop body, after [self.update()] and the sleep. *)
Definition after_update (s : State) (t : TimeCode) : Config :=
  match decrement (updated_time s) t with
  | ReachedZero =>
      let s := with_alarm_key 0 s in
      let s := with_set_button (mkButton "" cmd_nothing) s in
      alarm_loop s
  | Continue t' => countdown_loop s t'
  end.

Definition start_countdown (s : State) : Result Config :=
  let s := sounds 2 s in
  let s := with_countdown_key true s in
  let s := with_set_button (mkButton "Pause" cmd_pause_countdown) s in
  if Py.len (updated_time s) <? 9 then
    h <- py_int (Py.slice 0 2 (updated_time s)) ;;
    m <- py_int (Py.slice 3 5 (updated_time s)) ;;
    sec <- py_int (Py.slice 6 8 (updated_time s)) ;;
    Ok (countdown_loop s (mkTime h m sec (updated_deci s)))
  else
    h <- py_int (Py.slice 0 3 (updated_time s)) ;;
    m <- py_int (Py.slice 4 6 (updated_time s)) ;;
    sec <- py_int (Py.slice 7 9 (updated_time s)) ;;
    Ok (countdown_loop s (mkTime h m sec (updated_deci s))).

(** The runs in which every [update()] call serves at most one press and no
    loop is started inside a loop.  [serve] is the one press, if any, of an
    [update()] call in a loop; where the press would call [start_countdown]
    on top of the suspended loop the run ends with [Reentrant] ([tk_run]
    below has these runs too). *)
Definition serve (e : option Event) (s : State) : Result State :=
  match e with
  | None => Ok s
  | Some (Number k) => Ok (number_buttons (key_num k) s)
  | Some ClearButton | Some BackButton => Ok (clear_countdown s)
  | Some SetButton =>
      match command (set_countdown_button s) with
      | cmd_set_countdown => set_countdown s
      | cmd_pause_countdown => Ok (pause_countdown s)
      | cmd_nothing => Ok s
      | cmd_start_countdown => Raise Reentrant
      end
  end.

(** From one served event to the next [update()] call (or back to the
    main loop). *)
Definition step (c : Config) (e : option Event) : Result Config :=
  let (s, ctl) := c in
  match ctl with
  | Main =>
      match e, command (set_countdown_button s) with
      | Some SetButton, cmd_start_countdown => start_countdown s
      | _, _ => s' <- serve e s ;; Ok (s', Main)
      end
  | Tick t =>
      s' <- serve e s ;; Ok (after_update s' t)
  | AlarmOn =>
      s' <- serve e s ;;
      let s' := emit (Flash false) s' in
      let s' := with_alarm_key (alarm_key s' + 1) s' in
      Ok (s', AlarmOff)
  | AlarmOff =>
      s' <- serve e s ;; Ok (alarm_loop s')
  end.

Fixpoint run (c : Config) (es : list (option Event)) : Result Config :=
  match es with
  | [] => Ok c
  | e :: es' => c' <- step c e ;; run c' es'
  end.

(** [n] iterations with no button pressed. *)
Definition idle (n : nat) : list (option Event) := repeat None n.

(** The number of alarm pulses sounded so far. *)
Definition pulses (s : State) : nat :=
  List.length (filter (fun e => match e with Sound 3 => true | _ => false end) (log s)).

(** *** The configurations the frame can be in *)

(** The times the countdown can hold: the fold of [set_countdown] yields at
    most 100 hours and at most 60 minutes. *)
Definition holds (t : TimeCode) : Prop :=
  0 <= hours t <= 100 /\ 0 <= minutes t <= 60 /\
  0 <= seconds t <= 59 /\ 0 <= deci_sec t <= 9.

(** [self.updated_time] and [self.updated_deci] hold the time [t]. *)
Definition stored (s : State) (t : TimeCode) : Prop :=
  updated_time s = time_text t /\ updated_deci s = deci_sec t.

(** The buffer was typed with at most six number buttons, not starting
    with 0, and the preview is its right-justified text. *)
Definition buffer_ok (s : State) : Prop :=
  exists ks : list Key,
    time_update s = keys_text ks /\
    (List.length ks <= 6)%nat /\
    hd K1 ks <> K0 /\
    (ks <> [] -> updated_time s = colons (pad6 (keys_text ks))).

Inductive Inv : Config -> Prop :=
| inv_entering (s : State) :
    command (set_countdown_button s) = cmd_set_countdown ->
    number_key s = true -> updated_deci s = 0 -> buffer_ok s ->
    Inv (s, Main)
| inv_ready (s : State) (t : TimeCode) :     (* armed or paused *)
    command (set_countdown_button s) = cmd_start_countdown ->
    number_key s = false -> time_update s = "" ->
    holds t -> stored s t -> 0 < deciseconds t ->
    (text (set_countdown_button s) = "Start" ->
     deci_sec t = 0 /\ 10 <= deciseconds t) ->
    Inv (s, Main)
| inv_running (s : State) (t : TimeCode) :
    command (set_countdown_button s) = cmd_pause_countdown ->
    countdown_key s = true -> number_key s = false -> time_update s = "" ->
    holds t -> stored s t ->
    Inv (s, Tick t)
| inv_alarm_on (s : State) :
    command (set_countdown_button s) = cmd_nothing ->
    0 <= alarm_key s < 14 -> updated_deci s = 0 -> buffer_ok s ->
    Inv (s, AlarmOn)
| inv_alarm_off (s : State) :
    command (set_countdown_button s) = cmd_nothing ->
    1 <= alarm_key s <= 14 -> updated_deci s = 0 -> buffer_ok s ->
    Inv (s, AlarmOff)
| inv_alarm_cleared (s : State) :
    command (set_countdown_button s) = cmd_set_countdown ->
    14 <= alarm_key s -> number_key s = true -> time_update s = "" ->
    updated_deci s = 0 ->
    Inv (s, AlarmOff).

(** No field below zero. *)
Definition non_negative (t : TimeCode) : Prop :=
  0 <= hours t /\ 0 <= minutes t /\ 0 <= seconds t /\ 0 <= deci_sec t.

(** How often the labels were turned red ([true]) or back ([false]). *)
Definition flashes (red : bool) (s : State) : nat :=
  List.length
    (filter (fun e => match e with Flash r => Bool.eqb r red | _ => false end) (log s)).

(** The claim that the text shown after an accepted digit is the parsed
    buffer after [normalize_overflow]. *)
Definition preview_is_folded (k : Key) (s : State) : Prop :=
  normalize_overflow (colons (pad6 (time_update (number_buttons (key_num k) s))))
  = Ok (countdown_time_label (number_buttons (key_num k) s)).

(** The claim that the loop is only ever entered with at least one second
    (ten deciseconds) to go. *)
Definition enters_running_with_a_second : Prop :=
forall (es : list (option Event)) (s s' : State) (t : TimeCode),
  run (init, Main) es = Ok (s, Main) ->
  step (s, Main) (Some SetButton) = Ok (s', Tick t) ->
  10 <= deciseconds t.

(** The big label shows the stored text, or the 00:00:00 that Clear and
    [__init__] put there while no time is typed or armed. *)
Definition label_ok (s : State) : Prop :=
  countdown_time_label s = updated_time s \/
  (countdown_time_label s = "00:00:00" /\ time_update s = "" /\
   (command (set_countdown_button s) = cmd_set_countdown \/
    command (set_countdown_button s) = cmd_nothing)).

(** The small label shows the stored deciseconds. *)
Definition mini_ok (s : State) : Prop :=
  countdown_mini_time_label s = "." ++ Py.str (updated_deci s).

(** *** The frame under Tk's [update()] *)

(** [self.update()] serves every press that is pending, one handler call
    after the other, and returns when none is left.  [start_countdown] is
    such a handler: when the button is bound to it while a loop is suspended
    in [update()] (after Pause, or after Clear, digits and Set, in the same
    call), it runs as a nested call with a loop of its own, and the
    suspended loop goes on only when the nested call has returned.  A [Nest]
    is the frame together with the loops suspended in [update()], the
    innermost first. *)
Inductive Input : Set :=
| Press (e : Event)        (* the [update()] call in progress, or the main loop, serves a press *)
| Return.                  (* the innermost [update()] call finds nothing pending and returns *)

Definition Nest : Set := (State * list Control)%type.

(** A call of [start_countdown] that has reached [self.update()] stays on
    the call stack; one that has left its loop has returned. *)
Definition push (c : Config) (stk : list Control) : Nest :=
  match snd c with
  | Main => (fst c, stk)
  | ctl => (fst c, ctl :: stk)
  end.

(** The handler bound to the button is called. *)
Definition press (e : Event) (n : Nest) : Result Nest :=
  let (s, stk) := n in
  match e with
  | Number k => Ok (number_buttons (key_num k) s, stk)
  | ClearButton | BackButton => Ok (clear_countdown s, stk)
  | SetButton =>
      match command (set_countdown_button s) with
      | cmd_set_countdown => s' <- set_countdown s ;; Ok (s', stk)
      | cmd_start_countdown => c <- start_countdown s ;; Ok (push c stk)
      | cmd_pause_countdown => Ok (pause_countdown s, stk)
      | cmd_nothing => Ok (s, stk)
      end
  end.

(** The innermost [update()] returns: the code after it runs up to the next
    [update()] call, or to the end of [start_countdown], which returns to
    the [update()] call (or the main loop) that served its press. *)
Definition resume (n : Nest) : Nest :=
  let (s, stk) := n in
  match stk with
  | [] => (s, [])
  | Tick t :: stk' => push (after_update s t) stk'
  | AlarmOn :: stk' =>
      let s := emit (Flash false) s in
      let s := with_alarm_key (alarm_key s + 1) s in
      (s, AlarmOff :: stk')
  | AlarmOff :: stk' => push (alarm_loop s) stk'
  | Main :: stk' => (s, stk')
  end.

Definition tk_step (n : Nest) (i : Input) : Result Nest :=
  match i with
  | Press e => press e n
  | Return => Ok (resume n)
  end.

Fixpoint tk_run (n : Nest) (ins : list Input) : Result Nest :=
  match ins with
  | [] => Ok n
  | i :: ins' => n' <- tk_step n i ;; tk_run n' ins'
  end.

(** [k] iterations of the innermost loop with nothing pressed, and a
    sequence of presses. *)
Definition returns (k : nat) : list Input := repeat Return k.

Definition presses (es : list Event) : list Input := map Press es.

(** Successive [update()] calls of the innermost loop: each one serves the
    presses pending for it and returns. *)
Definition updates (ess : list (list Event)) : list Input :=
  flat_map (fun es => (presses es ++ [Return])%list) ess.

(** A press of Set (under whatever caption), Clear or Back: any button of
    the frame but the number buttons. *)
Definition control_press (e : Event) : Prop :=
  e = SetButton \/ e = ClearButton \/ e = BackButton.

(** A press other than Clear and Back. *)
Definition keeps_alarm (e : Event) : Prop :=
  e <> ClearButton /\ e <> BackButton.

(** The suspended loops of a configuration of [step], and the inputs that
    make one of its events: in a loop the press, if any, is followed by the
    return of [update()]. *)
Definition frames (ctl : Control) : list Control :=
  match ctl with
  | Main => []
  | _ => [ctl]
  end.

Definition inputs_of (ctl : Control) (e : option Event) : list Input :=
  match ctl, e with
  | Main, Some e => [Press e]
  | Main, None => []
  | _, Some e => [Press e; Return]
  | _, None => [Return]
  end.

(** A press that calls [start_countdown] while a loop of the frame is
    suspended in [update()].  The docstring of [start_countdown] has it that
    the function can only be called after Set or after a pause; called this
    way it runs a second loop inside the first. *)
Definition nested_start (n : Nest) (i : Input) : bool :=
  match i, snd n with
  | Press SetButton, _ :: _ =>
      match command (set_countdown_button (fst n)) with
      | cmd_start_countdown => true
      | _ => false
      end
  | _, _ => false
  end.

(** The runs in which no loop is started inside a loop. *)
Fixpoint flat (n : Nest) (ins : list Input) : bool :=
  match ins with
  | [] => true
  | i :: ins' =>
      negb (nested_start n i) &&
      match tk_step n i with
      | Ok n' => flat n' ins'
      | Raise _ => true
      end
  end.

(** *** What holds of the frame in every run that starts no loop inside a loop *)

(** Where the frame can be while no loop counts for it: in the main loop,
    under a loop that has been stopped and leaves at its next test, or under
    an alarm that Clear has cut short. *)
Definition stopped_under (s : State) (stk : list Control) : Prop :=
  stk = [] \/
  (exists t, stk = [Tick t] /\ holds t /\ countdown_key s = false) \/
  ((stk = [AlarmOn] \/ stk = [AlarmOff]) /\ 14 <= alarm_key s).

Inductive tk_inv : Nest -> Prop :=
| tk_entering (s : State) (stk : list Control) :
    command (set_countdown_button s) = cmd_set_countdown ->
    number_key s = true -> updated_deci s = 0 -> buffer_ok s ->
    stopped_under s stk ->
    tk_inv (s, stk)
| tk_armed (s : State) (stk : list Control) (t : TimeCode) :
    set_countdown_button s = mkButton "Start" cmd_start_countdown ->
    number_key s = false -> time_update s = "" ->
    holds t -> stored s t -> deci_sec t = 0 -> 10 <= deciseconds t ->
    stopped_under s stk ->
    tk_inv (s, stk)
| tk_paused (s : State) (t : TimeCode) :
    set_countdown_button s = mkButton "Cont." cmd_start_countdown ->
    number_key s = false -> time_update s = "" ->
    holds t -> stored s t -> 0 < deciseconds t ->
    tk_inv (s, [])
| tk_pausing (s : State) (t : TimeCode) :     (* Pause served, the loop not yet left *)
    set_countdown_button s = mkButton "Cont." cmd_start_countdown ->
    number_key s = false -> time_update s = "" -> countdown_key s = false ->
    holds t -> stored s t ->
    tk_inv (s, [Tick t])
| tk_running (s : State) (t : TimeCode) :
    command (set_countdown_button s) = cmd_pause_countdown ->
    countdown_key s = true -> number_key s = false -> time_update s = "" ->
    holds t -> stored s t ->
    tk_inv (s, [Tick t])
| tk_alarm_on (s : State) :
    command (set_countdown_button s) = cmd_nothing ->
    0 <= alarm_key s < 14 -> updated_deci s = 0 -> buffer_ok s ->
    tk_inv (s, [AlarmOn])
| tk_alarm_off (s : State) :
    command (set_countdown_button s) = cmd_nothing ->
    1 <= alarm_key s <= 14 -> updated_deci s = 0 -> buffer_ok s ->
    tk_inv (s, [AlarmOff]).

End CountDown.

(** ** The stopwatch frame *)

Module Stopwatch.

Inductive StartCommand : Set :=
| cmd_start_stopwatch
| cmd_pause_stopwatch.

Inductive LapCommand : Set :=
| cmd_unbound            (* the button as created, with no [command] *)
| cmd_record_lap.

Record State : Set := mkState {
  stopwatch_key : bool;
  HMS_key : bool;
  recorded_laps : Z;
  new_time : string;
  new_deci : string;
  old_time : string;
  old_deci : string;
  stopwatch_time_label : string;
  stopwatch_mini_time_label : string;
  lap_display : string;
  start_stopwatch_button : Button StartCommand;
  lap_button : Button LapCommand;
  log : list Effect                 (* newest first *)
}.

Definition with_stopwatch_key v s :=
  mkState v (HMS_key s) (recorded_laps s) (new_time s) (new_deci s) (old_time s)
    (old_deci s) (stopwatch_time_label s) (stopwatch_mini_time_label s)
    (lap_display s) (start_stopwatch_button s) (lap_button s) (log s).
Definition with_HMS_key v s :=
  mkState (stopwatch_key s) v (recorded_laps s) (new_time s) (new_deci s)
    (old_time s) (old_deci s) (stopwatch_time_label s)
    (stopwatch_mini_time_label s) (lap_display s) (start_stopwatch_button s)
    (lap_button s) (log s).
Definition with_recorded_laps v s :=
  mkState (stopwatch_key s) (HMS_key s) v (new_time s) (new_deci s) (old_time s)
    (old_deci s) (stopwatch_time_label s) (stopwatch_mini_time_label s)
    (lap_display s) (start_stopwatch_button s) (lap_button s) (log s).
Definition with_new v d s :=
  mkState (stopwatch_key s) (HMS_key s) (recorded_laps s) v d (old_time s)
    (old_deci s) (stopwatch_time_label s) (stopwatch_mini_time_label s)
    (lap_display s) (start_stopwatch_button s) (lap_button s) (log s).
Definition with_old v d s :=
  mkState (stopwatch_key s) (HMS_key s) (recorded_laps s) (new_time s)
    (new_deci s) v d (stopwatch_time_label s) (stopwatch_mini_time_label s)
    (lap_display s) (start_stopwatch_button s) (lap_button s) (log s).
Definition with_labels v m s :=
  mkState (stopwatch_key s) (HMS_key s) (recorded_laps s) (new_time s)
    (new_deci s) (old_time s) (old_deci s) v m (lap_display s)
    (start_stopwatch_button s) (lap_button s) (log s).
Definition with_lap_display v s :=
  mkState (stopwatch_key s) (HMS_key s) (recorded_laps s) (new_time s)
    (new_deci s) (old_time s) (old_deci s) (stopwatch_time_label s)
    (stopwatch_mini_time_label s) v (start_stopwatch_button s) (lap_button s)
    (log s).
Definition with_start_button v s :=
  mkState (stopwatch_key s) (HMS_key s) (recorded_laps s) (new_time s)
    (new_deci s) (old_time s) (old_deci s) (stopwatch_time_label s)
    (stopwatch_mini_time_label s) (lap_display s) v (lap_button s) (log s).
Definition with_lap_button v s :=
  mkState (stopwatch_key s) (HMS_key s) (recorded_laps s) (new_time s)
    (new_deci s) (old_time s) (old_deci s) (stopwatch_time_label s)
    (stopwatch_mini_time_label s) (lap_display s) (start_stopwatch_button s) v
    (log s).
Definition sounds (n : Z) s :=
  mkState (stopwatch_key s) (HMS_key s) (recorded_laps s) (new_time s)
    (new_deci s) (old_time s) (old_deci s) (stopwatch_time_label s)
    (stopwatch_mini_time_label s) (lap_display s) (start_stopwatch_button s)
    (lap_button s) (Sound n :: log s).

(** [lap_button.configure(text=..., command=None)]: tkinter drops options
    whose value is [None], so only the caption changes. *)
Definition lap_caption (caption : string) (s : State) : State :=
  with_lap_button (mkButton caption (command (lap_button s))) s.

(** The frame as [__init__] leaves it. *)
Definition init : State :=
  mkState true true 0 "" "" "" "" "00:00:00" ".0" ""
    (mkButton "Start" cmd_start_stopwatch) (mkButton "" cmd_unbound) [].

Definition clear_stopwatch (s : State) : State :=
  let s := sounds 2 s in
  let s := with_stopwatch_key false s in
  let s := with_HMS_key true s in
  let s := with_recorded_laps 0 s in
  let s := lap_caption " " s in
  let s := with_lap_display "" s in
  let s := with_labels "00:00:00" ".0" s in
  with_start_button (mkButton "Start" cmd_start_stopwatch) s.

Definition pause_stopwatch (s : State) : State :=
  let s := sounds 2 s in
  let s := with_stopwatch_key false s in
  let s := with_HMS_key false s in
  let s := lap_caption " " s in
  with_start_button (mkButton "Cont." cmd_start_stopwatch) s.

(** The borrow arithmetic of [record_lap] on the eight parsed numbers. *)
Definition difference (current previous : TimeCode) : TimeCode :=
  let diff_d := deci_sec current - deci_sec previous in
  let diff_s := seconds current - seconds previous in
  let diff_m := minutes current - minutes previous in
  let diff_h := hours current - hours previous in
  let '(diff_d, diff_s) :=
    if diff_d <? 0 then (10 - - diff_d, diff_s - 1) else (diff_d, diff_s) in
  let '(diff_s, diff_m) :=
    if diff_s <? 0 then (60 - - diff_s, diff_m - 1) else (diff_s, diff_m) in
  let '(diff_m, diff_h) :=
    if diff_m <? 0 then (60 - - diff_m, diff_h - 1) else (diff_m, diff_h) in
  mkTime diff_h diff_m diff_s diff_d.

(** [str(h).zfill(2) + ':' + ... + '.' + str(d)] *)
Definition lap_text (t : TimeCode) : string :=
  time_text t ++ "." ++ Py.str (deci_sec t).

Definition newline : string := String (ascii_of_nat 10) "".

Definition record_lap (s : State) : Result State :=
  if stopwatch_key s then
    let s := sounds 2 s in
    let s := with_recorded_laps (recorded_laps s + 1) s in
    if recorded_laps s =? 1 then
      let difference := new_time s ++ "." ++ new_deci s in
      let s :=
        with_lap_display
          (lap_display s ++ Py.str (recorded_laps s) ++ "|     " ++ difference ++
           "     |     " ++ difference ++ newline) s in
      Ok (with_old (new_time s) (new_deci s) s)
    else
      nd <- py_int (new_deci s) ;;
      od <- py_int (old_deci s) ;;
      ns <- py_int (Py.slice 6 8 (new_time s)) ;;
      os <- py_int (Py.slice 6 8 (old_time s)) ;;
      nm <- py_int (Py.slice 3 5 (new_time s)) ;;
      om <- py_int (Py.slice 3 5 (old_time s)) ;;
      nh <- py_int (Py.slice 0 2 (new_time s)) ;;
      oh <- py_int (Py.slice 0 2 (old_time s)) ;;
      let diff := difference (mkTime nh nm ns nd) (mkTime oh om os od) in
      let s :=
        with_lap_display
          (lap_display s ++ Py.str (recorded_laps s) ++ "|     " ++ new_time s ++
           "." ++ new_deci s ++ "     |     " ++ lap_text diff ++ newline) s in
      Ok (with_old (new_time s) (new_deci s) s)
  else Ok s.

(** *** [start_stopwatch], cut at its [self.update()] call *)

Inductive Control : Set :=
| Main                     (* in the tk main loop, no closure running *)
| Tick (t : TimeCode).     (* in the stopwatch loop, holding its local variables *)

Definition Config : Set := (State * Control)%type.

Inductive Event : Set :=
| StartButton
| LapButton
| ClearButton
| BackButton.              (* [r_frame(Home)] then [clear_stopwatch()] *)

(** The head of [while self.stopwatch_key is True] and the body up to
    [self.update()], or up to the [break] of the overflow branch. *)
Definition stopwatch_loop (s : State) (t : TimeCode) : Config :=
  if stopwatch_key s then
    let s := with_new (time_text t) (Py.str (deci_sec t)) s in
    if String.eqb (new_time s) "99:59:59" then
      let s := with_labels "Overflow" "" s in
      let s := lap_caption "" s in
      (s, Main)
    else
      let s := with_labels (new_time s) ("." ++ new_deci s) s in
      (s, Tick t)
  else (s, Main).

Definition start_stopwatch (s : State) : Result Config :=
  let s := sounds 2 s in
  let s := with_stopwatch_key true s in
  let s := with_lap_button (mkButton "Lap" cmd_record_lap) s in
  let s := with_start_button (mkButton "Pause" cmd_pause_stopwatch) s in
  if HMS_key s then
    Ok (stopwatch_loop s (mkTime 0 0 0 0))
  else
    h <- py_int (Py.slice 0 2 (new_time s)) ;;
    m <- py_int (Py.slice 3 5 (new_time s)) ;;
    sec <- py_int (Py.slice 6 8 (new_time s)) ;;
    d <- py_int (new_deci s) ;;
    Ok (stopwatch_loop s (mkTime h m sec d)).

(** The runs in which every [update()] call serves at most one press and no
    loop is started inside a loop.  [serve] is the one press, if any, of an
    [update()] call in the loop; where the press would call
    [start_stopwatch] on top of the suspended loop the run ends with
    [Reentrant] ([tk_run] below has these runs too). *)
Definition serve (e : option Event) (s : State) : Result State :=
  match e with
  | None => Ok s
  | Some ClearButton | Some BackButton => Ok (clear_stopwatch s)
  | Some LapButton =>
      match command (lap_button s) with
      | cmd_record_lap => record_lap s
      | cmd_unbound => Ok s
      end
  | Some StartButton =>
      match command (start_stopwatch_button s) with
      | cmd_pause_stopwatch => Ok (pause_stopwatch s)
      | cmd_start_stopwatch => Raise Reentrant
      end
  end.

Definition step (c : Config) (e : option Event) : Result Config :=
  let (s, ctl) := c in
  match ctl with
  | Main =>
      match e, command (start_stopwatch_button s) with
      | Some StartButton, cmd_start_stopwatch => start_stopwatch s
      | _, _ => s' <- serve e s ;; Ok (s', Main)
      end
  | Tick t =>
      s' <- serve e s ;; Ok (stopwatch_loop s' (increment t))
  end.

Fixpoint run (c : Config) (es : list (option Event)) : Result Config :=
  match es with
  | [] => Ok c
  | e :: es' => c' <- step c e ;; run c' es'
  end.

Definition idle (n : nat) : list (option Event) := repeat None n.

(** *** The configurations the frame can be in *)

(** The time at which the loop stops: the first one whose text is
    [99:59:59]. *)
Definition ceiling : TimeCode := mkTime 99 59 59 0.

(** The times the stopwatch can hold: normalized, up to the ceiling. *)
Definition shows (t : TimeCode) : Prop :=
  normalized t /\ deciseconds t <= deciseconds ceiling.

(** [self.new_time], [self.new_deci] hold the time [t]; likewise for the
    time of the last lap in [self.old_time], [self.old_deci]. *)
Definition current (s : State) (t : TimeCode) : Prop :=
  new_time s = time_text t /\ new_deci s = Py.str (deci_sec t).

Definition previous (s : State) (t : TimeCode) : Prop :=
  old_time s = time_text t /\ old_deci s = Py.str (deci_sec t).

(** Once a lap is on display, the time of the last lap is stored and is not
    later than the current time [cur]. *)
Definition laps_ok (s : State) (cur : TimeCode) : Prop :=
  0 <= recorded_laps s /\
  (1 <= recorded_laps s ->
   exists prev, previous s prev /\ shows prev /\ deciseconds prev <= deciseconds cur).

Inductive Inv : Config -> Prop :=
| inv_idle (s : State) :                     (* never started, or cleared *)
    command (start_stopwatch_button s) = cmd_start_stopwatch ->
    HMS_key s = true -> recorded_laps s = 0 ->
    command (lap_button s) = cmd_unbound \/ stopwatch_key s = false ->
    Inv (s, Main)
| inv_paused (s : State) (cur : TimeCode) :
    command (start_stopwatch_button s) = cmd_start_stopwatch ->
    HMS_key s = false -> stopwatch_key s = false ->
    current s cur -> shows cur -> laps_ok s cur ->
    Inv (s, Main)
| inv_running (s : State) (t : TimeCode) :
    command (start_stopwatch_button s) = cmd_pause_stopwatch ->
    stopwatch_key s = true -> command (lap_button s) = cmd_record_lap ->
    current s t -> shows t -> deciseconds t < deciseconds ceiling ->
    laps_ok s t ->
    stopwatch_time_label s = time_text t ->
    Inv (s, Tick t)
| inv_overflowed (s : State) :
    command (start_stopwatch_button s) = cmd_pause_stopwatch ->
    stopwatch_key s = true -> command (lap_button s) = cmd_record_lap ->
    current s ceiling -> laps_ok s ceiling ->
    stopwatch_time_label s = "Overflow" ->
    Inv (s, Main).

(** The claim that the stopwatch overflows on the tick taken at the time
    [limit], and on no other tick. *)
Definition overflows_after (limit : TimeCode) : Prop :=
  forall (es : list (option Event)) (s : State) (t : TimeCode),
    run (init, Main) es = Ok (s, Tick t) ->
    (t = limit <->
     exists s', step (s, Tick t) None = Ok (s', Main) /\
                stopwatch_time_label s' = "Overflow").

(** The events that leave the loop running: no press, or the Lap button;
    and the number of Lap presses among some events. *)
Definition counting (e : option Event) : Prop :=
  e = None \/ e = Some LapButton.

Fixpoint lap_presses (es : list (option Event)) : Z :=
  match es with
  | [] => 0
  | Some LapButton :: es' => 1 + lap_presses es'
  | _ :: es' => lap_presses es'
  end.

(** What the two time labels read: in the loop the loop's time; outside it
    either the overflow display or a time below the ceiling. *)
Definition display_ok (c : Config) : Prop :=
  match snd c with
  | Tick t =>
      stopwatch_time_label (fst c) = time_text t /\
      stopwatch_mini_time_label (fst c) = "." ++ Py.str (deci_sec t)
  | Main =>
      (stopwatch_time_label (fst c) = "Overflow" /\
       stopwatch_mini_time_label (fst c) = "") \/
      (exists t, shows t /\ deciseconds t < deciseconds ceiling /\
                 stopwatch_time_label (fst c) = time_text t /\
                 stopwatch_mini_time_label (fst c) = "." ++ Py.str (deci_sec t))
  end.

(** *** The frame under Tk's [update()] *)

(** [self.update()] serves every press that is pending, one handler call
    after the other, and returns when none is left.  [start_stopwatch] is
    such a handler: when the button is bound to it while a loop is suspended
    in [update()] (after Pause in the same call), it runs as a nested call
    with a loop of its own, and the suspended loop goes on only when the
    nested call has returned.  A [Nest] is the frame together with the loops
    suspended in [update()], the innermost first. *)
Inductive Input : Set :=
| Press (e : Event)        (* the [update()] call in progress, or the main loop, serves a press *)
| Return.                  (* the innermost [update()] call finds nothing pending and returns *)

Definition Nest : Set := (State * list Control)%type.

(** A call of [start_stopwatch] that has reached [self.update()] stays on
    the call stack; one that has left its loop has returned. *)
Definition push (c : Config) (stk : list Control) : Nest :=
  match snd c with
  | Main => (fst c, stk)
  | Tick t => (fst c, Tick t :: stk)
  end.

(** The handler bound to the button is called. *)
Definition press (e : Event) (n : Nest) : Result Nest :=
  let (s, stk) := n in
  match e with
  | StartButton =>
      match command (start_stopwatch_button s) with
      | cmd_start_stopwatch => c <- start_stopwatch s ;; Ok (push c stk)
      | cmd_pause_stopwatch => Ok (pause_stopwatch s, stk)
      end
  | LapButton =>
      match command (lap_button s) with
      | cmd_record_lap => s' <- record_lap s ;; Ok (s', stk)
      | cmd_unbound => Ok (s, stk)
      end
  | ClearButton | BackButton => Ok (clear_stopwatch s, stk)
  end.

(** The innermost [update()] returns: the loop that called it sleeps, adds
    a decisecond and tests [self.stopwatch_key]; it reaches [update()]
    again, or it ends and its [start_stopwatch] returns to the [update()]
    call (or the main loop) that served its press. *)
Definition resume (n : Nest) : Nest :=
  let (s, stk) := n in
  match stk with
  | [] => (s, [])
  | Tick t :: stk' => push (stopwatch_loop s (increment t)) stk'
  | Main :: stk' => (s, stk')
  end.

Definition tk_step (n : Nest) (i : Input) : Result Nest :=
  match i with
  | Press e => press e n
  | Return => Ok (resume n)
  end.

Fixpoint tk_run (n : Nest) (ins : list Input) : Result Nest :=
  match ins with
  | [] => Ok n
  | i :: ins' => n' <- tk_step n i ;; tk_run n' ins'
  end.

(** [k] iterations of the innermost loop with nothing pressed. *)
Definition returns (k : nat) : list Input := repeat Return k.

(** The suspended loops of a configuration of [step], and the inputs that
    make one of its events: in a loop the press, if any, is followed by the
    return of [update()]. *)
Definition frames (ctl : Control) : list Control :=
  match ctl with
  | Main => []
  | Tick t => [Tick t]
  end.

Definition inputs_of (ctl : Control) (e : option Event) : list Input :=
  match ctl, e with
  | Main, Some e => [Press e]
  | Main, None => []
  | Tick _, Some e => [Press e; Return]
  | Tick _, None => [Return]
  end.

(** *** What holds of the frame in every run *)

(** A suspended loop holds a time below the ceiling. *)
Definition frame_ok (ctl : Control) : Prop :=
  match ctl with
  | Tick t => shows t /\ deciseconds t < deciseconds ceiling
  | Main => False
  end.

(** [start_stopwatch] has run at least once: it is what binds the Lap
    button. *)
Definition started (s : State) : Prop :=
  command (lap_button s) = cmd_record_lap.

(** The two time labels read the overflow display, or a time below the
    ceiling with its decisecond. *)
Definition shown (s : State) : Prop :=
  (stopwatch_time_label s = "Overflow" /\ stopwatch_mini_time_label s = "") \/
  (exists t, shows t /\ deciseconds t < deciseconds ceiling /\
             stopwatch_time_label s = time_text t /\
             stopwatch_mini_time_label s = "." ++ Py.str (deci_sec t)).

(** The lap list that [record_lap] builds from the times of the laps: one
    line per lap, numbered from [n], with the time of the lap and its
    difference to the time of the lap before; the first lap shows its time
    twice. *)
Fixpoint lap_lines (n : Z) (before : option TimeCode) (laps : list TimeCode) : string :=
  match laps with
  | [] => ""
  | cur :: rest =>
      Py.str n ++ "|     " ++ lap_text cur ++ "     |     " ++
      lap_text (match before with
                | None => cur
                | Some prev => difference cur prev
                end) ++ newline ++
      lap_lines (n + 1) (Some cur) rest
  end.

(** The lap list shows the laps recorded since the last clear, and the time
    of the last one is the stored one. *)
Definition laps_shown (s : State) : Prop :=
  exists laps : list TimeCode,
    lap_display s = lap_lines 1 None laps /\
    Z.of_nat (List.length laps) = recorded_laps s /\
    Forall shows laps /\
    (forall prev, last (map Some laps) None = Some prev -> previous s prev).

Definition tk_inv (n : Nest) : Prop :=
  Forall frame_ok (snd n) /\
  (HMS_key (fst n) = false -> started (fst n)) /\
  (command (start_stopwatch_button (fst n)) = cmd_pause_stopwatch -> started (fst n)) /\
  (started (fst n) -> exists cur, current (fst n) cur /\ shows cur) /\
  shown (fst n) /\ laps_shown (fst n) /\
  (snd n <> [] -> started (fst n)) /\
  (stopwatch_key (fst n) = true -> started (fst n) ->
   command (start_stopwatch_button (fst n)) = cmd_pause_stopwatch).

(** The overflow display is on and no loop is suspended. *)
Definition tk_overflowed (n : Nest) : Prop :=
  snd n = [] /\
  stopwatch_time_label (fst n) = "Overflow" /\
  stopwatch_mini_time_label (fst n) = "" /\
  current (fst n) ceiling /\
  (command (start_stopwatch_button (fst n)) = cmd_pause_stopwatch \/
   HMS_key (fst n) = false).

(** Anything but a press of Clear or Back. *)
Definition tk_quiet (i : Input) : Prop :=
  i <> Press ClearButton /\ i <> Press BackButton.

End Stopwatch.

(** ** The home frame: the text of the time and date *)

Module Home.

(** [s.replace('0', '')] *)
Fixpoint remove_zeros (s : string) : string :=
  match s with
  | EmptyString => EmptyString
  | String c r =>
      if Ascii.eqb c "0" then remove_zeros r else String c (remove_zeros r)
  end.

(** [if s[0] == '0': s = s.replace('0', '')]; [None] stands for the
    [IndexError] of [s[0]] on an empty text. *)
Definition strip (s : string) : option string :=
  match s with
  | EmptyString => None
  | String c _ => if Ascii.eqb c "0" then Some (remove_zeros s) else Some s
  end.

(** The text [home_timedate_update] builds in one iteration, from the five
    texts [strftime] gives it: ['%I'], [':%M %p'], ['%m'], ['%d'], ['/%Y']. *)
Definition timedate (hours minutes_pm months days year : string) : option string :=
  match strip hours with
  | None => None
  | Some home_dt_hours =>
      match strip months with
      | None => None
      | Some home_dt_months =>
          match strip days with
          | None => None
          | Some home_dt_days =>
              Some (home_dt_hours ++ minutes_pm ++ String (ascii_of_nat 10) "" ++
                    home_dt_months ++ "/" ++ home_dt_days ++ year)
          end
      end
  end.

End Home.

(** * Properties *)

(** Projections of the stopwatch record through its setters. *)
Ltac sw_fields :=
  cbn [Stopwatch.stopwatch_key Stopwatch.HMS_key Stopwatch.recorded_laps
       Stopwatch.new_time Stopwatch.new_deci Stopwatch.old_time Stopwatch.old_deci
       Stopwatch.stopwatch_time_label Stopwatch.stopwatch_mini_time_label
       Stopwatch.lap_display Stopwatch.start_stopwatch_button Stopwatch.lap_button
       Stopwatch.log Stopwatch.with_stopwatch_key Stopwatch.with_HMS_key
       Stopwatch.with_recorded_laps Stopwatch.with_new Stopwatch.with_old
       Stopwatch.with_labels Stopwatch.with_lap_display Stopwatch.with_start_button
       Stopwatch.with_lap_button Stopwatch.sounds Stopwatch.lap_caption
       Stopwatch.clear_stopwatch Stopwatch.pause_stopwatch
       command text fst snd hours minutes seconds deci_sec] in *.

(** Projections of the countdown record through its setters. *)
Ltac fields :=
  cbn [CountDown.number_key CountDown.countdown_key CountDown.time_update
       CountDown.updated_time CountDown.updated_deci CountDown.alarm_key
       CountDown.countdown_time_label CountDown.countdown_mini_time_label
       CountDown.set_countdown_button CountDown.log
       CountDown.with_number_key CountDown.with_countdown_key
       CountDown.with_time_update CountDown.with_updated_time
       CountDown.with_updated_deci CountDown.with_alarm_key
       CountDown.with_time_label CountDown.with_mini_label
       CountDown.with_set_button CountDown.emit CountDown.sounds
       CountDown.clear_countdown CountDown.pause_countdown
       command text fst snd hours minutes seconds deci_sec] in *.

(** ** Decimal texts of small numbers *)

Section Digits.

Lemma upto_In (n : nat) : forall lo z, lo <= z < lo + Z.of_nat n -> In z (upto lo n).
Proof.
  induction n as [|n IH]; intros lo z Hz; [lia|].
  cbn [upto]. destruct (Z.eq_dec z lo) as [->|Hne]; [now left|].
  right. apply IH. lia.
Qed.

Lemma upto_forallb (P : Z -> bool) (lo : Z) (n : nat) :
  forallb P (upto lo n) = true ->
  forall z, lo <= z < lo + Z.of_nat n -> P z = true.
Proof.
  intros H z Hz. rewrite forallb_forall in H. apply H, upto_In, Hz.
Qed.

Lemma zfill_two_digits (n : Z) :
  0 <= n <= 99 -> Py.zfill 2 (Py.str n) = two_digits n.
Proof.
  intros Hn.
  pose (P := fun z => String.eqb (Py.zfill 2 (Py.str z)) (two_digits z)).
  assert (H : P n = true)
    by (apply (upto_forallb P 0 100); [vm_compute; reflexivity | lia]).
  now apply String.eqb_eq in H.
Qed.

Lemma int_two_digits (n : Z) : 0 <= n <= 99 -> Py.int (two_digits n) = Some n.
Proof.
  intros Hn.
  pose (P := fun z => match Py.int (two_digits z) with
                      | Some v => v =? z
                      | None => false
                      end).
  assert (H : P n = true)
    by (apply (upto_forallb P 0 100); [vm_compute; reflexivity | lia]).
  unfold P in H. destruct (Py.int (two_digits n)); [|discriminate].
  apply Z.eqb_eq in H. now subst.
Qed.

Lemma two_digits_inj (n m : Z) :
  0 <= n <= 99 -> 0 <= m <= 99 -> two_digits n = two_digits m -> n = m.
Proof.
  intros Hn Hm E. apply int_two_digits in Hn, Hm. congruence.
Qed.

Lemma str_digit (n : Z) : 0 <= n <= 9 -> Py.str n = String (digit_char n) "".
Proof.
  intros Hn.
  pose (P := fun z => String.eqb (Py.str z) (String (digit_char z) "")).
  assert (H : P n = true)
    by (apply (upto_forallb P 0 10); [vm_compute; reflexivity | lia]).
  now apply String.eqb_eq in H.
Qed.

Lemma hms_two_digits (h m s : Z) :
  0 <= h <= 99 -> 0 <= m <= 99 -> 0 <= s <= 99 ->
  hms h m s = two_digits h ++ ":" ++ two_digits m ++ ":" ++ two_digits s.
Proof.
  intros Hh Hm Hs. unfold hms. now rewrite !zfill_two_digits.
Qed.

Lemma colon_text_inj (a c e a' c' e' : string) :
  String.length a = 2%nat -> String.length a' = 2%nat ->
  String.length c = 2%nat -> String.length c' = 2%nat ->
  a ++ ":" ++ c ++ ":" ++ e = a' ++ ":" ++ c' ++ ":" ++ e' ->
  a = a' /\ c = c' /\ e = e'.
Proof.
  destruct a as [|a1 [|a2 [|? ?]]]; try discriminate.
  destruct a' as [|a1' [|a2' [|? ?]]]; try discriminate.
  destruct c as [|c1 [|c2 [|? ?]]]; try discriminate.
  destruct c' as [|c1' [|c2' [|? ?]]]; try discriminate.
  intros _ _ _ _. cbn. intros E. injection E as -> -> -> -> ->. auto.
Qed.

Lemma hms_inj (h m s h' m' s' : Z) :
  0 <= h <= 99 -> 0 <= m <= 99 -> 0 <= s <= 99 ->
  0 <= h' <= 99 -> 0 <= m' <= 99 -> 0 <= s' <= 99 ->
  hms h m s = hms h' m' s' -> h = h' /\ m = m' /\ s = s'.
Proof.
  intros Hh Hm Hs Hh' Hm' Hs' E.
  rewrite !hms_two_digits in E by assumption.
  apply colon_text_inj in E; try reflexivity.
  destruct E as (E1 & E2 & E3).
  repeat split; apply two_digits_inj; assumption.
Qed.

End Digits.

(** ** The tick arithmetic *)

Lemma increment_normalized (t : TimeCode) : normalized t -> normalized (increment t).
Proof.
  unfold normalized, increment. destruct t as [h m s d]; cbn.
  intros (Hh & Hm & Hs & Hd).
  destruct (Z.eqb_spec (d + 1) 10); cbn; [|lia].
  destruct (Z.eqb_spec (s + 1) 60); cbn; [|lia].
  destruct (Z.eqb_spec (m + 1) 60); cbn; lia.
Qed.

Lemma increment_deciseconds (t : TimeCode) :
  deciseconds (increment t) = deciseconds t + 1.
Proof.
  unfold deciseconds, increment. destruct t as [h m s d]; cbn.
  destruct (Z.eqb_spec (d + 1) 10); cbn; [|lia].
  destruct (Z.eqb_spec (s + 1) 60); cbn; [|lia].
  destruct (Z.eqb_spec (m + 1) 60); cbn; lia.
Qed.

(** C9. For every normalized time value with at most 99 hours (so for all
    values below the stopwatch ceiling), the stopwatch's carry followed by the
    countdown's borrow, run on the text the countdown loop has stored for the
    value it decrements, gives the value back. *)
Theorem increment_then_decrement (t : TimeCode) :
  normalized t -> hours t <= 99 ->
  decrement (time_text (increment t)) (increment t) = Continue t.
Proof.
  intros Hn Hh.
  pose proof (increment_normalized t Hn) as Hn'.
  pose proof (increment_deciseconds t) as Hd.
  destruct (Z.eq_dec (deci_sec (increment t)) 0) as [Hd0|Hd0].
  - assert (Hz : String.eqb (time_text (increment t)) "00:00:00" = false).
    { apply String.eqb_neq. intros E.
      destruct (Z.le_gt_cases (hours (increment t)) 99) as [Hle|Hgt].
      - change "00:00:00" with (hms 0 0 0) in E. unfold time_text in E.
        unfold normalized in Hn'.
        apply hms_inj in E; try lia.
        unfold normalized in Hn. unfold deciseconds in Hd.
        destruct E as (E1 & E2 & E3). rewrite E1, E2, E3, Hd0 in Hd. lia.
      - assert (E100 : hours (increment t) = 100).
        { revert Hgt. unfold increment. destruct t as [h m s d]; cbn in *.
          repeat (destruct (_ =? _); cbn); lia. }
        unfold time_text, hms in E. rewrite E100 in E.
        unfold normalized in Hn'.
        rewrite !(zfill_two_digits (minutes _)), !(zfill_two_digits (seconds _)) in E by lia.
        discriminate E. }
    unfold decrement. rewrite Hz. clear Hz Hn' Hd.
    unfold normalized in Hn. revert Hd0. unfold increment.
    destruct t as [h m s d]; cbn in *.
    destruct (Z.eqb_spec (d + 1) 10); cbn; [|lia]. intros _.
    repeat (match goal with
            | |- context [?a =? ?b] => destruct (Z.eqb_spec a b)
            end; cbn in *; try lia);
      repeat f_equal; lia.
  - unfold decrement.
    destruct (Z.eqb_spec (deci_sec (increment t) - 1) (-1)); [lia|].
    clear Hn' Hd n. unfold normalized in Hn. revert Hd0. unfold increment.
    destruct t as [h m s d]; cbn in *.
    destruct (Z.eqb_spec (d + 1) 10); cbn.
    + destruct (Z.eqb_spec (s + 1) 60); cbn;
        [destruct (Z.eqb_spec (m + 1) 60); cbn|]; lia.
    + intros _. repeat f_equal; lia.
Qed.

Lemma increment_then_decrement_witness :
  decrement (time_text (increment (mkTime 12 59 59 9))) (increment (mkTime 12 59 59 9))
  = Continue (mkTime 12 59 59 9).
Proof.
  apply increment_then_decrement; unfold normalized; cbn; lia.
Defined.

(** ** Entering digits *)

Section Entering.
Import CountDown.

Lemma format_number_inputs_text (s : State) :
  1 <= Py.len (time_update s) <= 6 ->
  updated_time (format_number_inputs s) = colons (pad6 (time_update s)).
Proof.
  unfold format_number_inputs, Py.len.
  destruct (time_update s) as [|a [|b [|c [|d [|e [|f [|g r]]]]]]];
    cbn [String.length]; intros H; try lia; reflexivity.
Qed.

Lemma format_number_inputs_label (s : State) :
  countdown_time_label (format_number_inputs s) = updated_time (format_number_inputs s).
Proof. reflexivity. Qed.

(** C6. For every buffer of one to six characters, [format_number_inputs]
    stores and shows the buffer right-justified in [HH:MM:SS]: padded with
    zeros on the left to six characters and cut in pairs, so that the
    seconds are filled first, then the minutes, then the hours. *)
Theorem format_number_inputs_right_justifies (s : State) :
  1 <= Py.len (time_update s) <= 6 ->
  updated_time (format_number_inputs s) = colons (pad6 (time_update s)) /\
  countdown_time_label (format_number_inputs s) = colons (pad6 (time_update s)).
Proof.
  intros H. rewrite format_number_inputs_label.
  split; apply format_number_inputs_text, H.
Qed.

Lemma format_number_inputs_right_justifies_witness :
  countdown_time_label (format_number_inputs (with_time_update "7" init)) = "00:00:07" /\
  countdown_time_label (format_number_inputs (with_time_update "1234" init)) = "00:12:34" /\
  countdown_time_label (format_number_inputs (with_time_update "123456" init)) = "12:34:56".
Proof.
  split; [|split].
  - apply (format_number_inputs_right_justifies (with_time_update "7" init)).
    cbn; lia.
  - apply (format_number_inputs_right_justifies (with_time_update "1234" init)).
    cbn; lia.
  - apply (format_number_inputs_right_justifies (with_time_update "123456" init)).
    cbn; lia.
Defined.

(** The preview after the six buttons 1 2 3 4 5 6. *)
Example preview_123456 :
  exists s,
    run (init, Main)
      (map Some [Number K1; Number K2; Number K3; Number K4; Number K5; Number K6])
    = Ok (s, Main) /\
    time_update s = "123456" /\ countdown_time_label s = "12:34:56".
Proof. eexists. split; [vm_compute; reflexivity|]. split; reflexivity. Qed.

End Entering.

(** ** Accepting and refusing digits *)

Section NumberButtons.
Import CountDown.

Lemma str_key (k : Key) : Py.str (key_num k) = String (digit_char (key_num k)) "".
Proof. destruct k; reflexivity. Qed.

Lemma key_num_zero (k : Key) : (key_num k =? 0) = true <-> k = K0.
Proof. destruct k; cbn; split; congruence. Qed.

Lemma format_number_inputs_frame (s : State) :
  number_key (format_number_inputs s) = number_key s /\
  countdown_key (format_number_inputs s) = countdown_key s /\
  time_update (format_number_inputs s) = time_update s /\
  updated_deci (format_number_inputs s) = updated_deci s /\
  alarm_key (format_number_inputs s) = alarm_key s /\
  countdown_mini_time_label (format_number_inputs s) = countdown_mini_time_label s /\
  set_countdown_button (format_number_inputs s) = set_countdown_button s /\
  log (format_number_inputs s) = log s.
Proof.
  unfold format_number_inputs.
  repeat match goal with
         | |- context [if ?b then _ else _] => destruct b
         end; cbn; auto 10.
Qed.

Lemma append_length (a b : string) :
  String.length (a ++ b) = (String.length a + String.length b)%nat.
Proof. induction a as [|c a IH]; cbn; [reflexivity | now rewrite IH]. Qed.

(** What an accepted digit does. *)
Lemma number_buttons_accept (k : Key) (s : State) :
  number_key s = true -> Py.len (time_update s) < 6 ->
  k <> K0 \/ time_update s <> "" ->
  number_buttons (key_num k) s =
  format_number_inputs (with_time_update (time_update s ++ Py.str (key_num k)) (sounds 2 s)).
Proof.
  intros Hk Hl Hz. unfold number_buttons. rewrite Hk.
  apply Z.ltb_lt in Hl. rewrite Hl.
  destruct (key_num k =? 0) eqn:E; [|reflexivity].
  apply key_num_zero in E. destruct Hz as [Hz|Hz]; [contradiction|].
  destruct (time_update s); [contradiction|]. reflexivity.
Qed.

(** C7, as the code has it. A number button does nothing while the number buttons are
    locked, nothing for 0 on an empty buffer, and nothing once the buffer
    holds six digits.  Every other press appends the digit, sounds the
    confirmation beep, and stores and shows the right-justified text of the
    new buffer as it is: no minutes or seconds are folded at this point. *)
Theorem number_buttons_accepts_or_ignores (k : Key) (s : State) :
  (number_key s = false -> number_buttons (key_num k) s = s) /\
  (k = K0 -> time_update s = "" -> number_buttons (key_num k) s = s) /\
  (6 <= Py.len (time_update s) -> number_buttons (key_num k) s = s) /\
  (number_key s = true -> Py.len (time_update s) < 6 ->
   k <> K0 \/ time_update s <> "" ->
   let s' := number_buttons (key_num k) s in
   time_update s' = time_update s ++ String (digit_char (key_num k)) "" /\
   updated_time s' = colons (pad6 (time_update s')) /\
   countdown_time_label s' = colons (pad6 (time_update s')) /\
   log s' = Sound 2 :: log s /\
   number_key s' = true).
Proof.
  split; [|split; [|split]].
  - intros H. unfold number_buttons. now rewrite H.
  - intros -> H. unfold number_buttons. rewrite H.
    change (key_num K0 =? 0) with true. change (Py.len "" =? 0) with true.
    now destruct (number_key s).
  - intros H. unfold number_buttons.
    assert (E : (Py.len (time_update s) <? 6) = false) by (apply Z.ltb_ge; lia).
    assert (E0 : (Py.len (time_update s) =? 0) = false) by (apply Z.eqb_neq; lia).
    rewrite E, E0. now destruct (number_key s), (key_num k =? 0).
  - intros Hk Hl Hz s'. subst s'.
    rewrite (number_buttons_accept k s Hk Hl Hz).
    set (s1 := with_time_update _ _).
    destruct (format_number_inputs_frame s1) as (F1 & _ & F3 & _ & _ & _ & _ & F8).
    assert (Htu : time_update s1 = time_update s ++ String (digit_char (key_num k)) "")
      by (unfold s1; rewrite str_key; reflexivity).
    assert (Hlen : 1 <= Py.len (time_update s1) <= 6).
    { rewrite Htu. unfold Py.len in *. rewrite append_length.
      cbn [String.length]. lia. }
    pose proof (format_number_inputs_text s1 Hlen) as R1.
    pose proof (format_number_inputs_label s1) as R2. rewrite R1 in R2.
    rewrite F3, R1, R2, F8, F1, Htu.
    split; [reflexivity|]. split; [reflexivity|]. split; [reflexivity|].
    split; [reflexivity|]. exact Hk.
Qed.

Lemma number_buttons_accepts_or_ignores_witness :
  let s := number_buttons 7 init in
  time_update (number_buttons 5 s) = "75" /\
  updated_time (number_buttons 5 s) = "00:00:75" /\
  countdown_time_label (number_buttons 5 s) = "00:00:75" /\
  log (number_buttons 5 s) = [Sound 2; Sound 2] /\
  number_key (number_buttons 5 s) = true.
Proof.
  intros s.
  destruct (number_buttons_accepts_or_ignores K5 s) as (_ & _ & _ & H).
  apply H; [reflexivity | cbn; lia | left; discriminate].
Defined.

(** After 7 then 5 the label reads 00:00:75, whereas the fold of that text
    is 00:01:15. *)
Lemma preview_is_not_folded : ~ preview_is_folded K5 (number_buttons 7 init).
Proof. unfold preview_is_folded. vm_compute. discriminate. Qed.

(** C1. The digits 5 9 6 0 followed by Set leave 00:60:00 as the time to
    count down from: sixty minutes, outside 0..59. *)
Theorem set_countdown_leaves_sixty_minutes :
  exists s,
    run (init, Main)
      (map Some [Number K5; Number K9; Number K6; Number K0; SetButton])
    = Ok (s, Main) /\
    updated_time s = hms 0 60 0 /\
    countdown_time_label s = "00:60:00" /\
    command (set_countdown_button s) = cmd_start_countdown.
Proof. eexists. split; [vm_compute; reflexivity|]. repeat split. Qed.

End NumberButtons.

(** ** Texts of times and their slices *)

Section TimeTexts.

Lemma slices_short (a c e : string) :
  String.length a = 2%nat -> String.length c = 2%nat -> String.length e = 2%nat ->
  Py.len (a ++ ":" ++ c ++ ":" ++ e) = 8 /\
  Py.slice 0 2 (a ++ ":" ++ c ++ ":" ++ e) = a /\
  Py.slice 3 5 (a ++ ":" ++ c ++ ":" ++ e) = c /\
  Py.slice 6 8 (a ++ ":" ++ c ++ ":" ++ e) = e.
Proof.
  destruct a as [|a1 [|a2 [|? ?]]]; try discriminate.
  destruct c as [|c1 [|c2 [|? ?]]]; try discriminate.
  destruct e as [|e1 [|e2 [|? ?]]]; try discriminate.
  intros _ _ _. repeat split.
Qed.

Lemma slices_long (a c e : string) :
  String.length a = 3%nat -> String.length c = 2%nat -> String.length e = 2%nat ->
  Py.len (a ++ ":" ++ c ++ ":" ++ e) = 9 /\
  Py.slice 0 3 (a ++ ":" ++ c ++ ":" ++ e) = a /\
  Py.slice 4 6 (a ++ ":" ++ c ++ ":" ++ e) = c /\
  Py.slice 7 9 (a ++ ":" ++ c ++ ":" ++ e) = e.
Proof.
  destruct a as [|a1 [|a2 [|a3 [|? ?]]]]; try discriminate.
  destruct c as [|c1 [|c2 [|? ?]]]; try discriminate.
  destruct e as [|e1 [|e2 [|? ?]]]; try discriminate.
  intros _ _ _. repeat split.
Qed.

Lemma py_int_two_digits (n : Z) : 0 <= n <= 99 -> py_int (two_digits n) = Ok n.
Proof. intros H. unfold py_int. now rewrite int_two_digits. Qed.

Lemma py_int_digit (d : Z) : 0 <= d <= 9 -> py_int (Py.str d) = Ok d.
Proof.
  intros H.
  pose (P := fun z => match Py.int (Py.str z) with
                      | Some v => v =? z
                      | None => false
                      end).
  assert (E : P d = true)
    by (apply (upto_forallb P 0 10); [vm_compute; reflexivity | lia]).
  unfold P in E. unfold py_int. destruct (Py.int (Py.str d)); [|discriminate].
  apply Z.eqb_eq in E. now subst.
Qed.

(** The three numbers read back from the text of a time below 100 hours. *)
Lemma hms_slices (h m s : Z) :
  0 <= h <= 99 -> 0 <= m <= 99 -> 0 <= s <= 99 ->
  Py.len (hms h m s) = 8 /\
  py_int (Py.slice 0 2 (hms h m s)) = Ok h /\
  py_int (Py.slice 3 5 (hms h m s)) = Ok m /\
  py_int (Py.slice 6 8 (hms h m s)) = Ok s.
Proof.
  intros Hh Hm Hs. rewrite hms_two_digits by assumption.
  destruct (slices_short (two_digits h) (two_digits m) (two_digits s))
    as (L & A & B & C); try reflexivity.
  rewrite L, A, B, C, !py_int_two_digits by assumption. auto.
Qed.

(** The same at 100 hours, where the text is nine characters long. *)
Lemma hms_slices_100 (m s : Z) :
  0 <= m <= 99 -> 0 <= s <= 99 ->
  Py.len (hms 100 m s) = 9 /\
  py_int (Py.slice 0 3 (hms 100 m s)) = Ok 100 /\
  py_int (Py.slice 4 6 (hms 100 m s)) = Ok m /\
  py_int (Py.slice 7 9 (hms 100 m s)) = Ok s.
Proof.
  intros Hm Hs. unfold hms. rewrite !(zfill_two_digits m), !(zfill_two_digits s) by assumption.
  change (Py.zfill 2 (Py.str 100)) with "100".
  destruct (slices_long "100" (two_digits m) (two_digits s))
    as (L & A & B & C); try reflexivity.
  rewrite L, A, B, C, !py_int_two_digits by assumption. auto.
Qed.

Lemma hms_zero (h m s : Z) :
  0 <= h <= 100 -> 0 <= m <= 99 -> 0 <= s <= 99 ->
  String.eqb (hms h m s) "00:00:00" = true <-> h = 0 /\ m = 0 /\ s = 0.
Proof.
  intros Hh Hm Hs. rewrite String.eqb_eq. split.
  - intros E. destruct (Z.eq_dec h 100) as [->|Hne].
    + destruct (hms_slices_100 m s Hm Hs) as (L & _). rewrite E in L. discriminate L.
    + change "00:00:00" with (hms 0 0 0) in E. apply hms_inj in E; lia.
  - intros (-> & -> & ->). reflexivity.
Qed.

End TimeTexts.

(** ** The countdown: buffers, arming, starting *)

Section Arming.
Import CountDown.

Lemma key_num_range (k : Key) : 0 <= key_num k <= 9.
Proof. destruct k; cbn; lia. Qed.

Lemma two_digits_keys (a b : Key) :
  two_digits (10 * key_num a + key_num b)
  = String (digit_char (key_num a)) (String (digit_char (key_num b)) "").
Proof. destruct a, b; reflexivity. Qed.

Lemma keys_text_length (ks : list Key) :
  String.length (keys_text ks) = List.length ks.
Proof.
  induction ks as [|k ks IH]; [reflexivity|].
  cbn [keys_text List.length]. rewrite str_key. cbn [append String.length].
  now rewrite IH.
Qed.

Lemma append_assoc (a b c : string) : (a ++ b) ++ c = a ++ (b ++ c).
Proof. induction a as [|x a IH]; cbn; [reflexivity | now rewrite IH]. Qed.

Lemma append_empty (a : string) : a ++ "" = a.
Proof. induction a as [|x a IH]; cbn; [reflexivity | now rewrite IH]. Qed.

Lemma keys_text_app (ks ks' : list Key) :
  keys_text (ks ++ ks') = keys_text ks ++ keys_text ks'.
Proof.
  induction ks as [|k ks IH]; [reflexivity|].
  cbn [keys_text app]. now rewrite IH, append_assoc.
Qed.

Lemma keys_text_zeros (n : nat) : keys_text (repeat K0 n) = Py.zeros n.
Proof. induction n as [|n IH]; [reflexivity|]. cbn [repeat keys_text Py.zeros]. now rewrite IH. Qed.

Lemma pad6_keys (ks : list Key) :
  pad6 (keys_text ks) = keys_text (repeat K0 (6 - List.length ks) ++ ks).
Proof.
  unfold pad6. now rewrite keys_text_app, keys_text_zeros, keys_text_length.
Qed.

Lemma colons_six_keys (k1 k2 k3 k4 k5 k6 : Key) :
  colons (keys_text [k1; k2; k3; k4; k5; k6])
  = hms (10 * key_num k1 + key_num k2) (10 * key_num k3 + key_num k4)
        (10 * key_num k5 + key_num k6).
Proof.
  pose proof (key_num_range k1). pose proof (key_num_range k2).
  pose proof (key_num_range k3). pose proof (key_num_range k4).
  pose proof (key_num_range k5). pose proof (key_num_range k6).
  rewrite hms_two_digits by lia. rewrite !two_digits_keys.
  cbn [keys_text]. rewrite !str_key.
  generalize (digit_char (key_num k1)) (digit_char (key_num k2))
             (digit_char (key_num k3)) (digit_char (key_num k4))
             (digit_char (key_num k5)) (digit_char (key_num k6)).
  reflexivity.
Qed.

(** The preview of a buffer is the text of three numbers below 100; they
    are not all zero when the buffer starts with a digit other than 0. *)
Lemma preview_fields (ks : list Key) :
  (List.length ks <= 6)%nat ->
  exists h m s,
    0 <= h <= 99 /\ 0 <= m <= 99 /\ 0 <= s <= 99 /\
    colons (pad6 (keys_text ks)) = hms h m s /\
    (ks <> [] -> hd K1 ks <> K0 -> 1 <= (h * 60 + m) * 60 + s).
Proof.
  intros Hlen. rewrite pad6_keys.
  assert (Hpos : forall k, k <> K0 -> 1 <= key_num k)
    by (intros []; cbn; intros; lia || congruence).
  destruct ks as [|a [|b [|c [|d [|e [|f [|g r]]]]]]];
    cbn [List.length] in Hlen; try lia;
    cbn [List.length Nat.sub repeat app]; rewrite colons_six_keys;
    refine (ex_intro _ _ (ex_intro _ _ (ex_intro _ _
              (conj _ (conj _ (conj _ (conj eq_refl _)))))));
    try pose proof (key_num_range a); try pose proof (key_num_range b);
    try pose proof (key_num_range c); try pose proof (key_num_range d);
    try pose proof (key_num_range e); try pose proof (key_num_range f);
    change (key_num K0) with 0; try lia;
    intros Hnil Hne; try congruence;
    cbn [hd] in Hne; apply Hpos in Hne; lia.
Qed.

Lemma set_countdown_empty (s : State) : time_update s = "" -> set_countdown s = Ok s.
Proof. intros H. unfold set_countdown. now rewrite H. Qed.

(** Set on a typed buffer: the folded time is stored, with at most 100
    hours and 60 minutes, and it is at least one second. *)
Lemma set_countdown_arms (s : State) :
  buffer_ok s -> time_update s <> "" -> 0 <= updated_deci s <= 9 ->
  exists s' t,
    set_countdown s = Ok s' /\ holds t /\ stored s' t /\
    deci_sec t = updated_deci s /\ 10 <= deciseconds t - deci_sec t /\
    number_key s' = false /\ time_update s' = "" /\
    set_countdown_button s' = mkButton "Start" cmd_start_countdown /\
    countdown_key s' = countdown_key s /\ alarm_key s' = alarm_key s /\
    log s' = Sound 2 :: log s.
Proof.
  intros (ks & Hk & Hlen & Hhd & Hprev) Hne Hd.
  assert (Hks : ks <> []) by (intros ->; now apply Hne).
  destruct (preview_fields ks Hlen) as (h & m & sec & Hh & Hm & Hs & E & Hpos).
  specialize (Hprev Hks). rewrite E in Hprev. specialize (Hpos Hks Hhd).
  destruct (hms_slices h m sec Hh Hm Hs) as (_ & A & B & C).
  unfold set_countdown.
  destruct (String.eqb (time_update s) "") eqn:Et;
    [apply String.eqb_eq in Et; contradiction|].
  fields. rewrite Hprev, A, B, C. cbn [bind].
  destruct ((sec >? 59) || (m >? 59))%bool eqn:Ec.
  - eexists. exists (mkTime (h + m / 60) (m mod 60 + sec / 60) (sec mod 60) (updated_deci s)).
    split; [reflexivity|]. unfold holds, stored, deciseconds. fields.
    repeat (split; try reflexivity); Z.div_mod_to_equations; lia.
  - eexists. exists (mkTime h m sec (updated_deci s)).
    split; [reflexivity|]. unfold holds, stored, deciseconds. fields.
    apply orb_false_iff in Ec. destruct Ec as (E1 & E2).
    assert (sec <= 59) by (destruct (Z.gtb_spec sec 59); [discriminate | lia]).
    assert (m <= 59) by (destruct (Z.gtb_spec m 59); [discriminate | lia]).
    repeat (split; try reflexivity); try assumption; lia.
Qed.

Lemma number_buttons_locked (num : Z) (s : State) :
  number_key s = false -> number_buttons num s = s.
Proof. intros H. unfold number_buttons. now rewrite H. Qed.

(** Whatever the button, [number_buttons] touches only the buffer, the
    preview, its label and the sound log. *)
Lemma number_buttons_frame (num : Z) (s : State) :
  number_key (number_buttons num s) = number_key s /\
  countdown_key (number_buttons num s) = countdown_key s /\
  updated_deci (number_buttons num s) = updated_deci s /\
  alarm_key (number_buttons num s) = alarm_key s /\
  set_countdown_button (number_buttons num s) = set_countdown_button s.
Proof.
  pose (s1 := with_time_update (time_update s ++ Py.str num) (sounds 2 s)).
  destruct (format_number_inputs_frame s1) as (F1 & F2 & _ & F4 & F5 & _ & F7 & _).
  unfold number_buttons. fold s1.
  repeat match goal with
         | |- context [if ?b then _ else _] => destruct b eqn:?
         end;
    try rewrite F1, F2, F4, F5, F7; repeat split; assumption.
Qed.

Lemma number_buttons_buffer (k : Key) (s : State) :
  buffer_ok s -> buffer_ok (number_buttons (key_num k) s).
Proof.
  intros Hb.
  destruct (number_key s) eqn:Hkey;
    [|now rewrite number_buttons_locked].
  destruct (Z.lt_ge_cases (Py.len (time_update s)) 6) as [Hl|Hl].
  2:{ unfold number_buttons. rewrite Hkey.
      assert (E : (Py.len (time_update s) <? 6) = false) by (apply Z.ltb_ge; lia).
      assert (E0 : (Py.len (time_update s) =? 0) = false) by (apply Z.eqb_neq; lia).
      rewrite E, E0. now destruct (key_num k =? 0). }
  assert (Hz : (k = K0 /\ time_update s = "") \/ (k <> K0 \/ time_update s <> "")).
  { destruct k; try (right; left; discriminate).
    destruct (time_update s); [left; auto | right; right; discriminate]. }
  destruct Hz as [(-> & Ee)|Hz].
  { unfold number_buttons. rewrite Hkey, Ee. exact Hb. }
  rewrite number_buttons_accept by auto.
  set (s1 := with_time_update _ _).
  destruct (format_number_inputs_frame s1) as (_ & _ & F3 & _).
  destruct Hb as (ks & Hk & Hlen & Hhd & _).
  assert (Htu : time_update s1 = keys_text (ks ++ [k])%list).
  { unfold s1. fields. rewrite Hk, keys_text_app. cbn [keys_text].
    now rewrite append_empty. }
  assert (Hl' : (List.length (ks ++ [k])%list <= 6)%nat).
  { rewrite Hk in Hl. unfold Py.len in Hl. rewrite keys_text_length in Hl.
    rewrite length_app. cbn [List.length]. lia. }
  exists (ks ++ [k])%list. rewrite F3. split; [exact Htu|]. split; [exact Hl'|].
  split.
  - destruct ks as [|k0 ks]; [|exact Hhd]. cbn [app hd].
    destruct Hz as [Hz|Hz]; [exact Hz|]. rewrite Hk in Hz. now contradiction Hz.
  - intros _. rewrite <- Htu. apply format_number_inputs_text.
    rewrite Htu. unfold Py.len. rewrite keys_text_length.
    rewrite length_app in *. cbn [List.length] in *. lia.
Qed.

(** The fold of [set_countdown] on the text of three numbers below 100: the
    seconds always end in 0..59 and the total is kept, but the minutes end at
    60 exactly when the text has 59 minutes and 60 seconds or more, because
    the minute carried out of the seconds is not passed on to the hours. *)
Lemma normalize_overflow_fields (h m s : Z) :
0 <= h <= 99 -> 0 <= m <= 99 -> 0 <= s <= 99 ->
exists h' m' s',
  normalize_overflow (hms h m s) = Ok (hms h' m' s') /\
  0 <= h' <= 100 /\ 0 <= m' <= 60 /\ 0 <= s' <= 59 /\
  (m' = 60 <-> m = 59 /\ 60 <= s) /\
  (h' * 60 + m') * 60 + s' = (h * 60 + m) * 60 + s.
Proof.
intros Hh Hm Hs. unfold normalize_overflow.
destruct (hms_slices h m s Hh Hm Hs) as (_ & A & B & C).
rewrite A, B, C. cbn [bind].
destruct ((s >? 59) || (m >? 59))%bool eqn:Ec.
- exists (h + m / 60), (m mod 60 + s / 60), (s mod 60).
  split; [reflexivity|].
  apply orb_true_iff in Ec.
  assert (59 < s \/ 59 < m)
    by (destruct Ec as [E|E]; [left|right];
        match type of E with (?a >? ?b) = true => destruct (Z.gtb_spec a b) end;
        lia || discriminate).
  repeat split; Z.div_mod_to_equations; lia.
- exists h, m, s. split; [reflexivity|].
  apply orb_false_iff in Ec. destruct Ec as (E1 & E2).
  assert (s <= 59) by (destruct (Z.gtb_spec s 59); [discriminate | lia]).
  assert (m <= 59) by (destruct (Z.gtb_spec m 59); [discriminate | lia]).
  repeat split; lia.
Qed.

(** [set_countdown] stores what [normalize_overflow] makes of the preview. *)
Lemma set_countdown_text (s : State) (u : string) :
time_update s <> "" -> normalize_overflow (updated_time s) = Ok u ->
exists s', set_countdown s = Ok s' /\ updated_time s' = u.
Proof.
intros Hne. unfold normalize_overflow, set_countdown.
destruct (String.eqb (time_update s) "") eqn:Et;
  [apply String.eqb_eq in Et; contradiction|].
fields.
destruct (py_int (Py.slice 0 2 (updated_time s))) as [h|]; [|discriminate].
destruct (py_int (Py.slice 3 5 (updated_time s))) as [m|]; [|discriminate].
destruct (py_int (Py.slice 6 8 (updated_time s))) as [sec|]; [|discriminate].
cbn [bind]. destruct ((sec >? 59) || (m >? 59))%bool; intros [= <-];
  eexists; split; reflexivity.
Qed.

End Arming.

(** ** The countdown loop *)

Section CountdownLoop.
Import CountDown.

Lemma time_text_zero (t : TimeCode) :
  holds t ->
  String.eqb (time_text t) "00:00:00" = true
  <-> hours t = 0 /\ minutes t = 0 /\ seconds t = 0.
Proof. intros (Hh & Hm & Hs & _). apply hms_zero; lia. Qed.

(** The borrow on a time the loop holds: it leaves for the alarm exactly at
    zero, and otherwise takes one decisecond off without leaving the range. *)
Lemma decrement_holds (t : TimeCode) :
  holds t ->
  match decrement (time_text t) t with
  | ReachedZero => deciseconds t = 0
  | Continue t' =>
      holds t' /\ deciseconds t' = deciseconds t - 1 /\ 0 < deciseconds t
  end.
Proof.
  intros H. pose proof (time_text_zero t H) as Hz.
  unfold holds in H. unfold decrement, deciseconds.
  destruct (Z.eqb_spec (deci_sec t - 1) (-1)) as [Hd|Hd].
  - destruct (String.eqb (time_text t) "00:00:00").
    + destruct Hz as (Hz & _). specialize (Hz eq_refl). lia.
    + assert (Hnz : ~ (hours t = 0 /\ minutes t = 0 /\ seconds t = 0))
        by (intros E; apply Hz in E; discriminate).
      destruct (Z.eqb_spec (seconds t - 1) (-1));
        [destruct (Z.eqb_spec (minutes t - 1) (-1))|];
        unfold holds; cbn [hours minutes seconds deci_sec]; lia.
  - unfold holds; cbn [hours minutes seconds deci_sec]; lia.
Qed.

Lemma time_code_eta (t : TimeCode) :
  mkTime (hours t) (minutes t) (seconds t) (deci_sec t) = t.
Proof. now destruct t. Qed.

(** Start or Cont. on a stored time: the three numbers are read back and
    the first iteration shows them. *)
Lemma start_countdown_enters (s : State) (t : TimeCode) :
  holds t -> stored s t ->
  exists s',
    start_countdown s = Ok (s', Tick t) /\
    command (set_countdown_button s') = cmd_pause_countdown /\
    countdown_key s' = true /\ number_key s' = number_key s /\
    time_update s' = time_update s /\ stored s' t /\
    alarm_key s' = alarm_key s /\ log s' = Sound 2 :: log s /\
    countdown_time_label s' = time_text t.
Proof.
  intros (Hh & Hm & Hs & Hd) (Ht & Hdeci).
  unfold start_countdown. fields. rewrite Ht, Hdeci. unfold time_text.
  destruct (Z.eq_dec (hours t) 100) as [E|E].
  - rewrite E.
    destruct (hms_slices_100 (minutes t) (seconds t)) as (L & A & B & C); try lia.
    rewrite L, A, B, C. cbn [Z.ltb Z.compare Pos.compare Pos.compare_cont bind].
    rewrite <- E, time_code_eta. unfold countdown_loop. fields.
    eexists. split; [reflexivity|]. unfold stored. fields. repeat split.
  - destruct (hms_slices (hours t) (minutes t) (seconds t)) as (L & A & B & C); try lia.
    rewrite L, A, B, C. cbn [Z.ltb Z.compare Pos.compare Pos.compare_cont bind].
    rewrite time_code_eta. unfold countdown_loop. fields.
    eexists. split; [reflexivity|]. unfold stored. fields. repeat split.
Qed.

Lemma buffer_ok_empty (s : State) : time_update s = "" -> buffer_ok s.
Proof.
  intros H. exists []. rewrite H. repeat split; cbn; try lia; congruence.
Qed.

Lemma buffer_ok_ext (s s' : State) :
  time_update s' = time_update s -> updated_time s' = updated_time s ->
  buffer_ok s -> buffer_ok s'.
Proof. unfold buffer_ok. intros -> ->. auto. Qed.

Lemma clear_countdown_entering (s : State) :
  Inv (clear_countdown s, Main).
Proof. apply inv_entering; try reflexivity. now apply buffer_ok_empty. Qed.

Lemma alarm_loop_inv (s : State) :
  updated_deci s = 0 -> buffer_ok s -> 0 <= alarm_key s ->
  (alarm_key s < 14 -> command (set_countdown_button s) = cmd_nothing) ->
  Inv (alarm_loop s).
Proof.
  intros Hd Hb Ha Hc. unfold alarm_loop.
  destruct (Z.ltb_spec (alarm_key s) 14).
  - apply inv_alarm_on; fields; auto; try lia.
  - apply inv_entering; fields; auto.
Qed.

Lemma after_update_inv (s : State) (t : TimeCode) :
  holds t -> updated_time s = time_text t -> buffer_ok s ->
  updated_deci s = 0 \/ updated_deci s = deci_sec t ->
  (countdown_key s = true ->
   command (set_countdown_button s) = cmd_pause_countdown /\
   number_key s = false /\ time_update s = "") ->
  (countdown_key s = false -> 0 < deciseconds t -> Inv (s, Main)) ->
  Inv (after_update s t).
Proof.
  intros Ht Hu Hb Hd Hrun Hstop. unfold after_update. rewrite Hu.
  pose proof (decrement_holds t Ht) as Hdec.
  destruct (decrement (time_text t) t) as [t'|].
  - destruct Hdec as (Ht' & _ & Hpos). unfold countdown_loop.
    destruct (countdown_key s) eqn:Hk.
    + destruct (Hrun eq_refl) as (Hc & Hn & Hbuf).
      apply inv_running; fields; auto. split; reflexivity.
    + now apply Hstop.
  - apply alarm_loop_inv; fields; auto; try lia.
    unfold holds, deciseconds in *. lia.
Qed.

(** Every step from a configuration of the invariant succeeds (no
    [ValueError], no loop started inside a loop) and leads to another one. *)
Lemma step_invariant (c : Config) (e : option Event) :
  Inv c -> exists c', step c e = Ok c' /\ Inv c'.
Proof.
  intros H. destruct H as
    [s Hc Hn Hd Hb | s t Hc Hn Hbuf Ht Hst Hpos Harmed | s t Hc Hk Hn Hbuf Ht Hst
     | s Hc Ha Hd Hb | s Hc Ha Hd Hb | s Hc Ha Hn Hbuf Hd].
  - (* entering *)
    cbn [step]. rewrite Hc.
    destruct e as [[k| | |]|]; cbn [serve bind]; try rewrite Hc.
    + eexists. split; [reflexivity|].
      destruct (number_buttons_frame (key_num k) s) as (F1 & _ & F3 & _ & F5).
      apply inv_entering; try congruence. now apply number_buttons_buffer.
    + destruct (String.eqb (time_update s) "") eqn:Ee.
      * apply String.eqb_eq in Ee. rewrite (set_countdown_empty s Ee). cbn [bind].
        eexists. split; [reflexivity|]. now apply inv_entering.
      * apply String.eqb_neq in Ee.
        destruct (set_countdown_arms s Hb Ee) as
          (s' & t & E & Ht & Hst & Hdt & Hsec & Hn' & Hb' & Hbtn & _); [lia|].
        rewrite E. cbn [bind]. eexists. split; [reflexivity|].
        apply (inv_ready s' t); auto; try (rewrite Hbtn; reflexivity); try lia.
    + eexists. split; [reflexivity|]. now apply clear_countdown_entering.
    + eexists. split; [reflexivity|]. now apply clear_countdown_entering.
    + eexists. split; [reflexivity|]. now apply inv_entering.
  - (* armed or paused *)
    cbn [step]. rewrite Hc.
    destruct e as [[k| | |]|]; cbn [serve bind].
    + rewrite (number_buttons_locked _ s Hn). eexists. split; [reflexivity|].
      now apply (inv_ready s t).
    + destruct (start_countdown_enters s t Ht Hst) as
        (s' & E & Hc' & Hk' & Hn' & Hb' & Hst' & _).
      rewrite E. eexists. split; [reflexivity|].
      apply inv_running; auto; congruence.
    + eexists. split; [reflexivity|]. now apply clear_countdown_entering.
    + eexists. split; [reflexivity|]. now apply clear_countdown_entering.
    + eexists. split; [reflexivity|]. now apply (inv_ready s t).
  - (* running *)
    cbn [step]. destruct Hst as (Hu & Hdeci).
    destruct e as [[k| | |]|]; cbn [serve bind]; try rewrite Hc; cbn [bind].
    + rewrite (number_buttons_locked _ s Hn). eexists. split; [reflexivity|].
      apply after_update_inv; auto using buffer_ok_empty. congruence.
    + eexists. split; [reflexivity|].
      apply after_update_inv; fields; auto using buffer_ok_empty.
      * discriminate.
      * intros _ Hp. apply (inv_ready _ t); fields; auto; try discriminate.
        split; assumption.
    + eexists. split; [reflexivity|].
      apply after_update_inv; fields; auto using buffer_ok_empty.
      * discriminate.
      * intros _ _. now apply clear_countdown_entering.
    + eexists. split; [reflexivity|].
      apply after_update_inv; fields; auto using buffer_ok_empty.
      * discriminate.
      * intros _ _. now apply clear_countdown_entering.
    + eexists. split; [reflexivity|].
      apply after_update_inv; auto using buffer_ok_empty. congruence.
  - (* alarm, labels red *)
    cbn [step].
    destruct e as [[k| | |]|]; cbn [serve bind]; try rewrite Hc; cbn [bind].
    + eexists. split; [reflexivity|].
      destruct (number_buttons_frame (key_num k) s) as (F1 & _ & F3 & F4 & F5).
      apply inv_alarm_off; fields; try congruence; try lia.
      apply (buffer_ok_ext (number_buttons (key_num k) s)); try reflexivity.
      now apply number_buttons_buffer.
    + eexists. split; [reflexivity|].
      apply inv_alarm_off; fields; auto; lia.
    + eexists. split; [reflexivity|].
      apply inv_alarm_cleared; fields; auto; lia.
    + eexists. split; [reflexivity|].
      apply inv_alarm_cleared; fields; auto; lia.
    + eexists. split; [reflexivity|].
      apply inv_alarm_off; fields; auto; lia.
  - (* alarm, labels normal *)
    cbn [step].
    destruct e as [[k| | |]|]; cbn [serve bind]; try rewrite Hc; cbn [bind].
    + eexists. split; [reflexivity|].
      destruct (number_buttons_frame (key_num k) s) as (F1 & _ & F3 & F4 & F5).
      apply alarm_loop_inv; try congruence; try lia.
      now apply number_buttons_buffer.
    + eexists. split; [reflexivity|]. apply alarm_loop_inv; auto; lia.
    + eexists. split; [reflexivity|].
      apply alarm_loop_inv; fields; auto using buffer_ok_empty; lia.
    + eexists. split; [reflexivity|].
      apply alarm_loop_inv; fields; auto using buffer_ok_empty; lia.
    + eexists. split; [reflexivity|]. apply alarm_loop_inv; auto; lia.
  - (* alarm, after Clear *)
    cbn [step].
    destruct e as [[k| | |]|]; cbn [serve bind]; try rewrite Hc; cbn [bind].
    + eexists. split; [reflexivity|].
      destruct (number_buttons_frame (key_num k) s) as (F1 & _ & F3 & F4 & F5).
      apply alarm_loop_inv; try congruence; try lia.
      now apply number_buttons_buffer, buffer_ok_empty.
    + rewrite (set_countdown_empty s Hbuf). cbn [bind].
      eexists. split; [reflexivity|].
      apply alarm_loop_inv; auto using buffer_ok_empty; lia.
    + eexists. split; [reflexivity|].
      apply alarm_loop_inv; fields; auto using buffer_ok_empty; lia.
    + eexists. split; [reflexivity|].
      apply alarm_loop_inv; fields; auto using buffer_ok_empty; lia.
    + eexists. split; [reflexivity|].
      apply alarm_loop_inv; auto using buffer_ok_empty; lia.
Qed.

Lemma init_invariant : Inv (init, Main).
Proof. apply inv_entering; try reflexivity. now apply buffer_ok_empty. Qed.

Lemma run_invariant (es : list (option Event)) :
  forall c, Inv c -> exists c', run c es = Ok c' /\ Inv c'.
Proof.
  induction es as [|e es IH]; intros c H.
  - exists c. now split.
  - destruct (step_invariant c e H) as (c1 & E1 & H1).
    destruct (IH c1 H1) as (c' & E' & H').
    exists c'. cbn [run]. rewrite E1. now split.
Qed.

End CountdownLoop.

(** ** The countdown: what every reachable configuration satisfies *)

Section CountdownReachable.
Import CountDown.

Lemma reachable_invariant (es : list (option Event)) (c : Config) :
  run (init, Main) es = Ok c -> Inv c.
Proof.
  intros E. destruct (run_invariant es _ init_invariant) as (c' & E' & H).
  congruence.
Qed.

Lemma holds_non_negative (t : TimeCode) : holds t -> non_negative t.
Proof. unfold holds, non_negative. lia. Qed.

(** One second armed, started, paused at 00:00:00.5 and continued: the loop
    is entered again with half a second. *)
Lemma resumes_below_one_second : ~ enters_running_with_a_second.
Proof.
unfold enters_running_with_a_second. intros H.
eassert (E : run (init, Main)
               (map Some [Number K1; SetButton; SetButton] ++ idle 5 ++ [Some SetButton])
             = Ok (_, Main)) by (vm_compute; reflexivity).
match type of E with
| _ = Ok (?s0, _) =>
    eassert (E' : step (s0, Main) (Some SetButton) = Ok (_, Tick (mkTime 0 0 0 5)))
      by (vm_compute; reflexivity)
end.
specialize (H _ _ _ _ E E'). unfold deciseconds in H.
cbn [hours minutes seconds deci_sec] in H. lia.
Qed.

End CountdownReachable.

(** ** The stopwatch: laps *)

Section Laps.
Import Stopwatch.


Lemma shows_range (t : TimeCode) :
  shows t ->
  0 <= hours t <= 99 /\ 0 <= minutes t <= 59 /\ 0 <= seconds t <= 59 /\
  0 <= deci_sec t <= 9.
Proof. unfold shows, normalized, deciseconds, ceiling. cbn. lia. Qed.

Lemma time_text_ceiling (t : TimeCode) :
  shows t ->
  String.eqb (time_text t) "99:59:59" = true <-> t = ceiling.
Proof.
  intros H. pose proof (shows_range t H) as R. rewrite String.eqb_eq. split.
  - intros E. change "99:59:59" with (hms 99 59 59) in E.
    apply hms_inj in E; try lia.
    destruct H as (_ & H). unfold deciseconds, ceiling in H.
    destruct t as [h m s d]. cbn [hours minutes seconds deci_sec] in *.
    unfold ceiling. f_equal; lia.
  - intros ->. reflexivity.
Qed.

(** The four numbers read back from the stored current time. *)
Lemma parse_current (nt nd : string) (t : TimeCode) :
  nt = time_text t -> nd = Py.str (deci_sec t) -> shows t ->
  py_int (Py.slice 0 2 nt) = Ok (hours t) /\
  py_int (Py.slice 3 5 nt) = Ok (minutes t) /\
  py_int (Py.slice 6 8 nt) = Ok (seconds t) /\
  py_int nd = Ok (deci_sec t).
Proof.
  intros -> -> H. pose proof (shows_range t H) as R.
  destruct (hms_slices (hours t) (minutes t) (seconds t)) as (_ & A & B & C); try lia.
  unfold time_text. rewrite A, B, C, py_int_digit by lia. auto.
Qed.

Lemma record_lap_first (s : State) :
  stopwatch_key s = true -> recorded_laps s = 0 ->
  exists s',
    record_lap s = Ok s' /\
    lap_display s' =
      lap_display s ++ Py.str 1 ++ "|     " ++ (new_time s ++ "." ++ new_deci s) ++
      "     |     " ++ (new_time s ++ "." ++ new_deci s) ++ newline /\
    recorded_laps s' = 1 /\
    old_time s' = new_time s /\ old_deci s' = new_deci s /\
    new_time s' = new_time s /\ new_deci s' = new_deci s /\
    stopwatch_key s' = true /\ HMS_key s' = HMS_key s /\
    stopwatch_time_label s' = stopwatch_time_label s /\
    stopwatch_mini_time_label s' = stopwatch_mini_time_label s /\
    start_stopwatch_button s' = start_stopwatch_button s /\
    lap_button s' = lap_button s.
Proof.
  intros Hk Hl. unfold record_lap. rewrite Hk. sw_fields. rewrite Hl.
  change (0 + 1 =? 1) with true. cbv iota. sw_fields.
  eexists. split; [reflexivity|]. sw_fields. repeat split; assumption.
Qed.

Lemma record_lap_next (s : State) (cur prev : TimeCode) :
  stopwatch_key s = true -> 1 <= recorded_laps s ->
  current s cur -> shows cur -> previous s prev -> shows prev ->
  exists s',
    record_lap s = Ok s' /\
    lap_display s' =
      lap_display s ++ Py.str (recorded_laps s + 1) ++ "|     " ++
      new_time s ++ "." ++ new_deci s ++
      "     |     " ++ lap_text (difference cur prev) ++ newline /\
    recorded_laps s' = recorded_laps s + 1 /\
    old_time s' = new_time s /\ old_deci s' = new_deci s /\
    new_time s' = new_time s /\ new_deci s' = new_deci s /\
    stopwatch_key s' = true /\ HMS_key s' = HMS_key s /\
    stopwatch_time_label s' = stopwatch_time_label s /\
    stopwatch_mini_time_label s' = stopwatch_mini_time_label s /\
    start_stopwatch_button s' = start_stopwatch_button s /\
    lap_button s' = lap_button s.
Proof.
  intros Hk Hl (Hn1 & Hn2) Hc (Ho1 & Ho2) Hp.
  destruct (parse_current _ _ cur Hn1 Hn2 Hc) as (A & B & C & D).
  destruct (parse_current _ _ prev Ho1 Ho2 Hp) as (A' & B' & C' & D').
  unfold record_lap. rewrite Hk. sw_fields.
  destruct (Z.eqb_spec (recorded_laps s + 1) 1) as [E|_]; [lia|].
  rewrite A, B, C, D, A', B', C', D'. cbn [bind]. sw_fields.
  rewrite !time_code_eta.
  eexists. split; [reflexivity|]. sw_fields. repeat split; assumption.
Qed.

End Laps.

(** ** The stopwatch loop *)

Section StopwatchLoop.
Import Stopwatch.

Lemma normalized_at_ceiling (t : TimeCode) :
  normalized t -> deciseconds t = deciseconds ceiling -> t = ceiling.
Proof.
  unfold normalized, deciseconds, ceiling. destruct t as [h m s d].
  cbn [hours minutes seconds deci_sec]. intros H E. f_equal; lia.
Qed.

Lemma increment_shows (t : TimeCode) :
  shows t -> deciseconds t < deciseconds ceiling -> shows (increment t).
Proof.
  intros (Hn & _) Hlt. split; [now apply increment_normalized|].
  rewrite increment_deciseconds. lia.
Qed.

Lemma laps_ok_ext (s s' : State) (t t' : TimeCode) :
  recorded_laps s' = recorded_laps s -> old_time s' = old_time s ->
  old_deci s' = old_deci s -> deciseconds t <= deciseconds t' ->
  laps_ok s t -> laps_ok s' t'.
Proof.
  unfold laps_ok, previous. intros -> -> -> Hle (H0 & H). split; [exact H0|].
  intros H1. destruct (H H1) as (prev & Hp & Hs & Hd). exists prev.
  repeat split; try apply Hp; try apply Hs; lia.
Qed.

Lemma stopwatch_loop_inv (s : State) (t : TimeCode) :
  stopwatch_key s = true ->
  command (start_stopwatch_button s) = cmd_pause_stopwatch ->
  command (lap_button s) = cmd_record_lap ->
  shows t -> laps_ok s t ->
  Inv (stopwatch_loop s t).
Proof.
  intros Hk Hc Hl Ht Hlaps. unfold stopwatch_loop. rewrite Hk. sw_fields.
  pose proof (time_text_ceiling t Ht) as Hceil.
  destruct (String.eqb (time_text t) "99:59:59").
  - assert (E : t = ceiling) by now apply Hceil. subst t.
    apply inv_overflowed; sw_fields; auto;
      try (split; reflexivity);
      try (apply (laps_ok_ext s _ ceiling ceiling); auto; reflexivity).
  - assert (Hne : t <> ceiling) by (intros E; apply Hceil in E; discriminate).
    assert (Hlt : deciseconds t < deciseconds ceiling).
    { destruct Ht as (Hn & Hle).
      destruct (Z.eq_dec (deciseconds t) (deciseconds ceiling)) as [E|E]; [|lia].
      now apply normalized_at_ceiling in E. }
    apply inv_running; sw_fields; auto;
      try (split; reflexivity);
      try (apply (laps_ok_ext s _ t t); auto; reflexivity || lia).
Qed.

Lemma stopwatch_loop_stopped (s : State) (t : TimeCode) :
  stopwatch_key s = false -> stopwatch_loop s t = (s, Main).
Proof. intros H. unfold stopwatch_loop. now rewrite H. Qed.

Lemma shows_zero : shows (mkTime 0 0 0 0).
Proof. unfold shows, normalized, deciseconds, ceiling. cbn. lia. Qed.

Lemma shows_ceiling : shows ceiling.
Proof. unfold shows, normalized, deciseconds, ceiling. cbn. lia. Qed.

(** Start or Cont.: the loop is entered at zero after a clear, and at the
    stored time after a pause. *)
Lemma start_stopwatch_inv (s : State) :
  (HMS_key s = true /\ recorded_laps s = 0) \/
  (HMS_key s = false /\ exists cur, current s cur /\ shows cur /\ laps_ok s cur) ->
  exists c, start_stopwatch s = Ok c /\ Inv c.
Proof.
  intros [(Hh & Hl)|(Hh & cur & Hcur & Hs & Hlaps)];
    unfold start_stopwatch; sw_fields; rewrite Hh.
  - eexists. split; [reflexivity|].
    apply stopwatch_loop_inv; sw_fields; auto using shows_zero.
    unfold laps_ok. sw_fields. split; [lia | intros; lia].
  - destruct Hcur as (E1 & E2).
    destruct (parse_current _ _ cur E1 E2 Hs) as (A & B & C & D).
    rewrite A, B, C, D. cbn [bind]. rewrite time_code_eta.
    eexists. split; [reflexivity|].
    apply stopwatch_loop_inv; sw_fields; auto.
Qed.

Lemma clear_stopwatch_idle (s : State) : Inv (clear_stopwatch s, Main).
Proof. apply inv_idle; sw_fields; auto. Qed.

(** A lap recorded at the current time [t]: it succeeds, and afterwards the
    time of the last lap is [t]. *)
Lemma record_lap_inv (s : State) (t : TimeCode) :
  stopwatch_key s = true -> current s t -> shows t -> laps_ok s t ->
  exists s',
    record_lap s = Ok s' /\ previous s' t /\ current s' t /\
    recorded_laps s' = recorded_laps s + 1 /\
    stopwatch_key s' = true /\ HMS_key s' = HMS_key s /\
    stopwatch_time_label s' = stopwatch_time_label s /\
    stopwatch_mini_time_label s' = stopwatch_mini_time_label s /\
    start_stopwatch_button s' = start_stopwatch_button s /\
    lap_button s' = lap_button s.
Proof.
  intros Hk Hcur Hs (H0 & Hprev).
  destruct (Z.eq_dec (recorded_laps s) 0) as [E|E].
  - destruct (record_lap_first s Hk E) as
      (s' & R & _ & L & O1 & O2 & N1 & N2 & K & H & T & M & B1 & B2).
    exists s'. destruct Hcur as (C1 & C2). unfold previous, current.
    rewrite O1, O2, N1, N2, L, E. repeat split; auto.
  - destruct Hprev as (prev & Hp & Hsp & _); [lia|].
    destruct (record_lap_next s t prev Hk) as
      (s' & R & _ & L & O1 & O2 & N1 & N2 & K & H & T & M & B1 & B2); auto; [lia|].
    exists s'. destruct Hcur as (C1 & C2). unfold previous, current.
    rewrite O1, O2, N1, N2, L. repeat split; auto.
Qed.

Lemma laps_ok_after_lap (s' : State) (t t' : TimeCode) (n : Z) :
  previous s' t -> shows t -> recorded_laps s' = n + 1 -> 0 <= n ->
  deciseconds t <= deciseconds t' -> laps_ok s' t'.
Proof.
  intros Hp Hs Hl Hn Hle. split; [lia|]. intros _. exists t. auto.
Qed.

Lemma step_invariant_sw (c : Config) (e : option Event) :
  Inv c -> exists c', step c e = Ok c' /\ Inv c'.
Proof.
  intros H. destruct H as
    [s Hc Hh Hl Hlap | s cur Hc Hh Hk Hcur Hs Hlaps
     | s t Hc Hk Hlap Hcur Hs Hlt Hlaps Hlabel | s Hc Hk Hlap Hcur Hlaps Hlabel].
  - (* idle *)
    cbn [step]. rewrite Hc.
    destruct e as [[| | |]|]; cbn [serve bind].
    + apply start_stopwatch_inv. now left.
    + assert (E : match command (lap_button s) with
                  | cmd_unbound => Ok s
                  | cmd_record_lap => record_lap s
                  end = Ok s).
      { destruct Hlap as [-> | Hk]; [reflexivity|].
        destruct (command (lap_button s)); [reflexivity|].
        unfold record_lap. now rewrite Hk. }
      rewrite E. eexists. split; [reflexivity|]. now apply inv_idle.
    + eexists. split; [reflexivity|]. apply clear_stopwatch_idle.
    + eexists. split; [reflexivity|]. apply clear_stopwatch_idle.
    + eexists. split; [reflexivity|]. now apply inv_idle.
  - (* paused *)
    cbn [step]. rewrite Hc.
    destruct e as [[| | |]|]; cbn [serve bind].
    + apply start_stopwatch_inv. right. eauto.
    + assert (E : match command (lap_button s) with
                  | cmd_unbound => Ok s
                  | cmd_record_lap => record_lap s
                  end = Ok s).
      { destruct (command (lap_button s)); [reflexivity|].
        unfold record_lap. now rewrite Hk. }
      rewrite E. eexists. split; [reflexivity|]. now apply (inv_paused s cur).
    + eexists. split; [reflexivity|]. apply clear_stopwatch_idle.
    + eexists. split; [reflexivity|]. apply clear_stopwatch_idle.
    + eexists. split; [reflexivity|]. now apply (inv_paused s cur).
  - (* running *)
    cbn [step]. pose proof (increment_shows t Hs Hlt) as Hs'.
    pose proof (increment_deciseconds t) as Hd'.
    destruct e as [[| | |]|]; cbn [serve bind].
    + rewrite Hc. cbn [bind]. rewrite stopwatch_loop_stopped by reflexivity.
      eexists. split; [reflexivity|].
      apply (inv_paused _ t); sw_fields; auto.
    + rewrite Hlap.
      destruct (record_lap_inv s t Hk Hcur Hs Hlaps) as
        (s' & R & P & C & L & K & _ & _ & _ & B1 & B2).
      rewrite R. cbn [bind]. eexists. split; [reflexivity|].
      apply stopwatch_loop_inv; auto; try congruence.
      apply (laps_ok_after_lap s' t _ (recorded_laps s)); auto; try lia.
      apply Hlaps.
    + rewrite stopwatch_loop_stopped by reflexivity.
      eexists. split; [reflexivity|]. apply clear_stopwatch_idle.
    + rewrite stopwatch_loop_stopped by reflexivity.
      eexists. split; [reflexivity|]. apply clear_stopwatch_idle.
    + eexists. split; [reflexivity|].
      apply stopwatch_loop_inv; auto.
      apply (laps_ok_ext s s t); auto; lia.
  - (* overflowed *)
    cbn [step]. rewrite Hc.
    destruct e as [[| | |]|]; cbn [serve bind]; try rewrite Hc.
    + eexists. split; [reflexivity|].
      apply (inv_paused _ ceiling); sw_fields; auto using shows_ceiling.
    + rewrite Hlap.
      destruct (record_lap_inv s ceiling Hk Hcur shows_ceiling Hlaps) as
        (s' & R & P & C & L & K & _ & T & _ & B1 & B2).
      rewrite R. cbn [bind]. eexists. split; [reflexivity|].
      apply inv_overflowed; auto; try congruence.
      apply (laps_ok_after_lap s' ceiling _ (recorded_laps s));
        auto using shows_ceiling; try lia.
      apply Hlaps.
    + eexists. split; [reflexivity|]. apply clear_stopwatch_idle.
    + eexists. split; [reflexivity|]. apply clear_stopwatch_idle.
    + eexists. split; [reflexivity|]. now apply inv_overflowed.
Qed.

Lemma init_invariant_sw : Inv (init, Main).
Proof. apply inv_idle; auto. Qed.

Lemma run_invariant_sw (es : list (option Event)) :
  forall c, Inv c -> exists c', run c es = Ok c' /\ Inv c'.
Proof.
  induction es as [|e es IH]; intros c H.
  - exists c. now split.
  - destruct (step_invariant_sw c e H) as (c1 & E1 & H1).
    destruct (IH c1 H1) as (c' & E' & H').
    exists c'. cbn [run]. rewrite E1. now split.
Qed.

Lemma reachable_invariant_sw (es : list (option Event)) (c : Config) :
  run (init, Main) es = Ok c -> Inv c.
Proof.
  intros E. destruct (run_invariant_sw es _ init_invariant_sw) as (c' & E' & H).
  congruence.
Qed.

End StopwatchLoop.

(** ** The stopwatch: laps and overflow in every reachable configuration *)

Section StopwatchReachable.
Import Stopwatch.



(** *** Overflow *)

Lemma step_tick_idle (s : State) (t : TimeCode) :
stopwatch_key s = true -> shows t -> deciseconds t < deciseconds ceiling ->
(increment t = ceiling /\
 step (s, Tick t) None
 = Ok (lap_caption "" (with_labels "Overflow" "" (with_new "99:59:59" "0" s)), Main)) \/
(increment t <> ceiling /\
 step (s, Tick t) None
 = Ok (with_labels (time_text (increment t)) ("." ++ Py.str (deci_sec (increment t)))
         (with_new (time_text (increment t)) (Py.str (deci_sec (increment t))) s),
       Tick (increment t))).
Proof.
intros Hk Hs Hlt. cbn [step serve bind]. unfold stopwatch_loop. rewrite Hk. sw_fields.
pose proof (time_text_ceiling (increment t) (increment_shows t Hs Hlt)) as Hceil.
destruct (String.eqb (time_text (increment t)) "99:59:59").
- left. assert (E : increment t = ceiling) by now apply Hceil.
  split; [exact E|]. rewrite E. reflexivity.
- right. split; [|reflexivity]. intros E. apply Hceil in E. discriminate.
Qed.

Lemma last_tick (t : TimeCode) :
normalized t -> (increment t = ceiling <-> t = mkTime 99 59 58 9).
Proof.
intros Hn. split.
- intros E. pose proof (increment_deciseconds t) as Hd. rewrite E in Hd.
  unfold normalized, deciseconds, ceiling in *. destruct t as [h m s d].
  cbn [hours minutes seconds deci_sec] in *. f_equal; lia.
- intros ->. reflexivity.
Qed.

(** Ticks with no button pressed count up, one decisecond each. *)
Lemma run_idle_counts (n : nat) :
forall (s : State) (t : TimeCode),
  Inv (s, Tick t) -> deciseconds t + Z.of_nat n < deciseconds ceiling ->
  exists s' t',
    run (s, Tick t) (idle n) = Ok (s', Tick t') /\
    deciseconds t' = deciseconds t + Z.of_nat n /\ Inv (s', Tick t').
Proof.
induction n as [|n IH]; intros s t HI Hlt.
- exists s, t. split; [reflexivity|]. split; [lia | exact HI].
- inversion HI as [| |s0 t0 Hc Hk Hlap Hcur Hs Hlt0 Hlaps Hlabel|]; subst.
  destruct (step_invariant_sw (s, Tick t) None HI) as (c1 & E1 & H1).
  destruct (step_tick_idle s t Hk Hs Hlt0) as [(Ec & E)|(Ec & E)].
  + pose proof (increment_deciseconds t) as Hd. rewrite Ec in Hd. lia.
  + rewrite E in E1. injection E1 as <-.
    destruct (IH _ _ H1) as (s' & t' & R & D & HI').
    { rewrite increment_deciseconds. lia. }
    exists s', t'. change (idle (S n)) with (None :: idle n).
    cbn [run]. rewrite E. cbn [bind]. split; [exact R|].
    rewrite increment_deciseconds in D. split; [lia | exact HI'].
Qed.

(** Started from rest and left alone, the stopwatch shows 99:59:58.9 after
    3,599,989 ticks. *)
Lemma reaches_last_tick :
exists s,
  run (init, Main) (Some StartButton :: idle (Z.to_nat 3599989))
  = Ok (s, Tick (mkTime 99 59 58 9)).
Proof.
eassert (E0 : step (init, Main) (Some StartButton) = Ok (_, Tick (mkTime 0 0 0 0)))
  by (vm_compute; reflexivity).
pose proof (reachable_invariant_sw [Some StartButton] _
              (eq_trans (f_equal (fun r => bind r (fun c => Ok c)) E0) eq_refl)) as HI.
destruct (run_idle_counts (Z.to_nat 3599989) _ _ HI) as (s' & t' & R & D & HI').
{ unfold deciseconds, ceiling. cbn [hours minutes seconds deci_sec]. lia. }
assert (Et : t' = mkTime 99 59 58 9).
{ inversion HI' as [| |s0 t0 Hc Hk Hlap Hcur Hs Hlt0 Hlaps Hlabel|]; subst.
  destruct Hs as (Hn & _). unfold normalized, deciseconds in *.
  destruct t' as [h m s d]. cbn [hours minutes seconds deci_sec] in *.
  f_equal; lia. }
subst t'. exists s'. cbn [run]. rewrite E0. cbn [bind]. exact R.
Qed.

(** The tick that ends the loop is the one taken at 99:59:58.9. *)
Lemma tick_overflows_iff (es : list (option Event)) (s : State) (t : TimeCode) :
run (init, Main) es = Ok (s, Tick t) ->
(t = mkTime 99 59 58 9 <->
 exists s', step (s, Tick t) None = Ok (s', Main) /\
            stopwatch_time_label s' = "Overflow").
Proof.
intros E. apply reachable_invariant_sw in E.
inversion E as [| |s0 t0 Hc Hk Hlap Hcur Hs Hlt0 Hlaps Hlabel|]; subst.
pose proof (last_tick t (proj1 Hs)) as Hlast.
destruct (step_tick_idle s t Hk Hs Hlt0) as [(Ec & Est)|(Ec & Est)].
- split; [intros _ | intros _; now apply Hlast].
  eexists. split; [exact Est | reflexivity].
- split; [intros H; apply Hlast in H; contradiction|].
  intros (s' & Es & _). rewrite Est in Es. discriminate Es.
Qed.

(** The tick that overflows is taken at 99:59:58.9, so it is not true that
    the stopwatch overflows on the tick after 99:59:59.9 and on no other. *)
Lemma overflow_is_not_after_99_59_59_9 : ~ overflows_after (mkTime 99 59 59 9).
Proof.
intros H. destruct reaches_last_tick as (s & E).
destruct (H _ _ _ E) as (_ & Hback).
destruct (tick_overflows_iff _ _ _ E) as (Hfwd & _).
specialize (Hback (Hfwd eq_refl)). discriminate Hback.
Qed.

End StopwatchReachable.

(** * Further properties *)

(** ** The home frame *)

Section HomeText.
Import Home.

Lemma strip_two_digits (n : Z) :
1 <= n <= 99 -> strip (Py.zfill 2 (Py.str n)) = Some (Py.str n).
Proof.
intros Hn.
pose (P := fun z => match strip (Py.zfill 2 (Py.str z)) with
                    | Some t => String.eqb t (Py.str z)
                    | None => false
                    end).
assert (H : P n = true)
  by (apply (upto_forallb P 1 99); [vm_compute; reflexivity | lia]).
unfold P in H. destruct (strip (Py.zfill 2 (Py.str n))); [|discriminate].
apply String.eqb_eq in H. now subst.
Qed.

(** X1. For every hour 1..12, month 1..12 and day 1..31 as [strftime] pads
    them to two digits, the text of the home frame shows the plain numbers:
    only the padding zero is removed, never a digit of the number (10, 20 and
    30 keep theirs). *)
Theorem timedate_strips_only_padding (h mo d : Z) (minutes_pm year : string) :
1 <= h <= 12 -> 1 <= mo <= 12 -> 1 <= d <= 31 ->
timedate (Py.zfill 2 (Py.str h)) minutes_pm (Py.zfill 2 (Py.str mo))
         (Py.zfill 2 (Py.str d)) year
= Some (Py.str h ++ minutes_pm ++ String (ascii_of_nat 10) "" ++
        Py.str mo ++ "/" ++ Py.str d ++ year).
Proof.
intros Hh Hm Hd. unfold timedate.
rewrite !strip_two_digits by lia. reflexivity.
Qed.

Lemma timedate_strips_only_padding_witness :
timedate "09" ":05 PM" "10" "30" "/2026"
= Some ("9" ++ ":05 PM" ++ String (ascii_of_nat 10) "" ++ "10" ++ "/" ++ "30" ++ "/2026").
Proof.
apply (timedate_strips_only_padding 9 10 30 ":05 PM" "/2026"); lia.
Defined.

End HomeText.

(** ** The stopwatch: display, counting, pausing, clearing *)

Section StopwatchFurther.
Import Stopwatch.

Lemma stopwatch_loop_running (s : State) (t : TimeCode) :
stopwatch_key s = true -> shows t -> deciseconds t < deciseconds ceiling ->
stopwatch_loop s t
= (with_labels (time_text t) ("." ++ Py.str (deci_sec t))
     (with_new (time_text t) (Py.str (deci_sec t)) s), Tick t).
Proof.
intros Hk Hs Hlt. unfold stopwatch_loop. rewrite Hk. sw_fields.
pose proof (time_text_ceiling t Hs) as Hceil.
destruct (String.eqb (time_text t) "99:59:59"); [|reflexivity].
assert (E : t = ceiling) by now apply Hceil.
subst t. lia.
Qed.

Lemma stopwatch_loop_display (s : State) (t : TimeCode) :
stopwatch_key s = true -> display_ok (stopwatch_loop s t).
Proof.
intros Hk. unfold stopwatch_loop. rewrite Hk. sw_fields.
destruct (String.eqb (time_text t) "99:59:59"); unfold display_ok; sw_fields.
- left. split; reflexivity.
- split; reflexivity.
Qed.

Lemma display_ok_labels (s s' : State) :
stopwatch_time_label s' = stopwatch_time_label s ->
stopwatch_mini_time_label s' = stopwatch_mini_time_label s ->
display_ok (s, Main) -> display_ok (s', Main).
Proof. unfold display_ok. cbn [fst snd]. intros -> ->. auto. Qed.

Lemma display_ok_zero (s : State) : display_ok (clear_stopwatch s, Main).
Proof.
unfold display_ok. sw_fields. right. exists (mkTime 0 0 0 0).
split; [apply shows_zero|]. split; [|split; reflexivity].
unfold deciseconds, ceiling. cbn [hours minutes seconds deci_sec]. lia.
Qed.

Lemma display_ok_stopped (s s' : State) (t : TimeCode) :
shows t -> deciseconds t < deciseconds ceiling ->
stopwatch_time_label s' = stopwatch_time_label s ->
stopwatch_mini_time_label s' = stopwatch_mini_time_label s ->
display_ok (s, Tick t) -> display_ok (s', Main).
Proof.
unfold display_ok. cbn [fst snd]. intros Hs Hlt -> -> (A & B).
right. exists t. auto.
Qed.

(** Lap with the loop stopped, or before the button is bound: nothing. *)
Lemma serve_lap_stopped (s : State) :
command (lap_button s) = cmd_unbound \/ stopwatch_key s = false ->
serve (Some LapButton) s = Ok s.
Proof.
intros H. cbn [serve]. destruct H as [-> | Hk]; [reflexivity|].
destruct (command (lap_button s)); [reflexivity|].
unfold record_lap. now rewrite Hk.
Qed.

Lemma step_display (c c' : Config) (e : option Event) :
Inv c -> display_ok c -> step c e = Ok c' -> display_ok c'.
Proof.
intros HI HD E. destruct HI as
  [s Hc Hh Hl Hlap | s cur Hc Hh Hk Hcur Hs Hlaps
   | s t Hc Hk Hlap Hcur Hs Hlt Hlaps Hlabel | s Hc Hk Hlap Hcur Hlaps Hlabel].
- (* idle *)
  cbn [step] in E. rewrite Hc in E. destruct e as [[| | |]|].
  + unfold start_stopwatch in E. sw_fields. rewrite Hh in E. injection E as <-.
    now apply stopwatch_loop_display.
  + rewrite serve_lap_stopped in E by exact Hlap. injection E as <-. exact HD.
  + injection E as <-. apply display_ok_zero.
  + injection E as <-. apply display_ok_zero.
  + injection E as <-. exact HD.
- (* paused *)
  cbn [step] in E. rewrite Hc in E. destruct e as [[| | |]|].
  + unfold start_stopwatch in E. sw_fields. rewrite Hh in E.
    destruct Hcur as (E1 & E2).
    destruct (parse_current _ _ cur E1 E2 Hs) as (A & B & C & D).
    rewrite A, B, C, D in E. cbn [bind] in E. injection E as <-.
    now apply stopwatch_loop_display.
  + rewrite serve_lap_stopped in E by now right. injection E as <-. exact HD.
  + injection E as <-. apply display_ok_zero.
  + injection E as <-. apply display_ok_zero.
  + injection E as <-. exact HD.
- (* running *)
  cbn [step] in E. destruct e as [[| | |]|]; cbn [serve bind] in E.
  + rewrite Hc in E. cbn [bind] in E.
    rewrite stopwatch_loop_stopped in E by reflexivity. injection E as <-.
    now apply (display_ok_stopped s _ t).
  + rewrite Hlap in E.
    destruct (record_lap_inv s t Hk Hcur Hs Hlaps) as
      (s' & R & _ & _ & _ & K & _).
    rewrite R in E. cbn [bind] in E. injection E as <-.
    now apply stopwatch_loop_display.
  + rewrite stopwatch_loop_stopped in E by reflexivity. injection E as <-.
    apply display_ok_zero.
  + rewrite stopwatch_loop_stopped in E by reflexivity. injection E as <-.
    apply display_ok_zero.
  + injection E as <-. now apply stopwatch_loop_display.
- (* overflowed *)
  cbn [step] in E. rewrite Hc in E.
  destruct e as [[| | |]|]; cbn [serve bind] in E; try rewrite Hc in E.
  + injection E as <-. now apply (display_ok_labels s).
  + rewrite Hlap in E.
    destruct (record_lap_inv s ceiling Hk Hcur shows_ceiling Hlaps) as
      (s' & R & _ & _ & _ & _ & _ & T & M & _).
    rewrite R in E. cbn [bind] in E. injection E as <-.
    now apply (display_ok_labels s).
  + injection E as <-. apply display_ok_zero.
  + injection E as <-. apply display_ok_zero.
  + injection E as <-. exact HD.
Qed.

Lemma run_display (es : list (option Event)) :
forall c c', Inv c -> display_ok c -> run c es = Ok c' -> display_ok c'.
Proof.
induction es as [|e es IH]; intros c c' HI HD E.
- injection E as <-. exact HD.
- cbn [run] in E. destruct (step_invariant_sw c e HI) as (c1 & E1 & H1).
  rewrite E1 in E. cbn [bind] in E.
  apply (IH c1 c' H1); [|exact E]. now apply (step_display c c1 e).
Qed.

Lemma init_display : display_ok (init, Main).
Proof.
unfold display_ok. cbn [fst snd]. right. exists (mkTime 0 0 0 0).
split; [apply shows_zero|]. split; [|split; reflexivity].
unfold deciseconds, ceiling. cbn [hours minutes seconds deci_sec]. lia.
Qed.

Lemma reachable_display (es : list (option Event)) (c : Config) :
run (init, Main) es = Ok c -> display_ok c.
Proof. apply run_display; [apply init_invariant_sw | apply init_display]. Qed.

Lemma run_counting (es : list (option Event)) :
forall (s : State) (t : TimeCode),
  Inv (s, Tick t) -> Forall counting es ->
  deciseconds t + Z.of_nat (List.length es) < deciseconds ceiling ->
  exists s' t',
    run (s, Tick t) es = Ok (s', Tick t') /\ Inv (s', Tick t') /\
    deciseconds t' = deciseconds t + Z.of_nat (List.length es) /\
    recorded_laps s' = recorded_laps s + lap_presses es.
Proof.
induction es as [|e es IH]; intros s t HI HF Hlt.
- exists s, t. cbn [List.length lap_presses]. split; [reflexivity|].
  split; [exact HI|]. split; lia.
- inversion HF as [|e0 es0 He HF']; subst.
  cbn [List.length] in Hlt.
  inversion HI as [| |s0 t0 Hc Hk Hlap Hcur Hs Hlt0 Hlaps Hlabel|]; subst.
  destruct (step_invariant_sw (s, Tick t) e HI) as (c1 & E1 & H1).
  pose proof (increment_shows t Hs Hlt0) as Hs'.
  pose proof (increment_deciseconds t) as Hd.
  assert (E : exists s1,
             step (s, Tick t) e = Ok (s1, Tick (increment t)) /\
             recorded_laps s1 = recorded_laps s + lap_presses [e]).
  { destruct He as [-> | ->]; cbn [step serve bind lap_presses].
    - rewrite stopwatch_loop_running by (auto; lia).
      eexists. split; [reflexivity|]. sw_fields. lia.
    - rewrite Hlap.
      destruct (record_lap_inv s t Hk Hcur Hs Hlaps) as
        (s' & R & _ & _ & L & K & _).
      rewrite R. cbn [bind]. rewrite stopwatch_loop_running by (auto; lia).
      eexists. split; [reflexivity|]. sw_fields. lia. }
  destruct E as (s1 & E & L1). rewrite E in E1. injection E1 as <-.
  destruct (IH s1 (increment t) H1 HF') as (s' & t' & R & HI' & D & L); [lia|].
  exists s', t'. cbn [run List.length]. rewrite E. cbn [bind].
  split; [exact R|]. split; [exact HI'|]. split; [lia|].
  rewrite L, L1. destruct He as [-> | ->]; cbn [lap_presses]; lia.
Qed.

(** X3. While the stopwatch runs, every iteration in which nothing or the
    Lap button is pressed adds exactly one decisecond: after such iterations,
    as long as 99:59:59.0 is not reached, the loop holds the normalized time
    that many deciseconds later, both labels show it, and the number of laps
    has grown by the number of Lap presses. Lap never stops or delays the
    count. *)
Theorem stopwatch_counts_deciseconds
  (es es' : list (option Event)) (s : State) (t : TimeCode) :
run (init, Main) es = Ok (s, Tick t) ->
Forall counting es' ->
deciseconds t + Z.of_nat (List.length es') < deciseconds ceiling ->
exists s' t',
  run (s, Tick t) es' = Ok (s', Tick t') /\
  normalized t' /\
  deciseconds t' = deciseconds t + Z.of_nat (List.length es') /\
  stopwatch_time_label s' = time_text t' /\
  stopwatch_mini_time_label s' = "." ++ Py.str (deci_sec t') /\
  recorded_laps s' = recorded_laps s + lap_presses es'.
Proof.
intros E HF Hlt. pose proof (reachable_invariant_sw es _ E) as HI.
pose proof (reachable_display es _ E) as HD.
destruct (run_counting es' s t HI HF Hlt) as (s' & t' & R & HI' & D & L).
pose proof (run_display es' _ _ HI HD R) as (A & B).
exists s', t'. split; [exact R|].
inversion HI' as [| |s0 t0 Hc Hk Hlap Hcur Hs Hlt0 Hlaps Hlabel|]; subst.
destruct Hs as (Hn & _). auto 10.
Qed.

Lemma stopwatch_counts_deciseconds_witness :
exists s s' t',
  run (init, Main) (Some StartButton :: idle 8) = Ok (s, Tick (mkTime 0 0 0 8)) /\
  run (s, Tick (mkTime 0 0 0 8)) [None; Some LapButton; None; Some LapButton; None]
  = Ok (s', Tick t') /\
  deciseconds t' = 8 + 5 /\
  stopwatch_time_label s' = time_text t' /\
  recorded_laps s' = 2.
Proof.
eassert (E0 : run (init, Main) (Some StartButton :: idle 8)
              = Ok (_, Tick (mkTime 0 0 0 8))) by (vm_compute; reflexivity).
destruct (stopwatch_counts_deciseconds _
            [None; Some LapButton; None; Some LapButton; None] _ _ E0)
  as (s' & t' & R & _ & D & A & _ & L).
- repeat constructor; (now left) || (now right).
- vm_compute. reflexivity.
- eexists. exists s', t'. split; [exact E0|]. split; [exact R|].
  split; [exact D|]. split; [exact A|]. exact L.
Defined.




(** X5. From any configuration of the stopwatch, running, paused, overflowed
    or at rest, Clear followed by Start enters the loop at 00:00:00.0 with
    both labels showing it, no laps counted and an empty lap list: nothing of
    the earlier run survives a clear. *)
Theorem stopwatch_clear_then_start (s : State) (ctl : Control) :
exists s',
  run (s, ctl) [Some ClearButton; Some StartButton] = Ok (s', Tick (mkTime 0 0 0 0)) /\
  stopwatch_time_label s' = "00:00:00" /\ stopwatch_mini_time_label s' = ".0" /\
  recorded_laps s' = 0 /\ lap_display s' = "" /\
  text (start_stopwatch_button s') = "Pause" /\
  lap_button s' = mkButton "Lap" cmd_record_lap.
Proof.
assert (E : step (s, ctl) (Some ClearButton) = Ok (clear_stopwatch s, Main)).
{ destruct ctl as [|t]; cbn [step serve bind].
  - now destruct (command (start_stopwatch_button s)).
  - now rewrite stopwatch_loop_stopped by reflexivity. }
cbn [run]. rewrite E. cbn [bind step]. sw_fields.
unfold start_stopwatch. sw_fields.
rewrite stopwatch_loop_running.
- cbn [bind]. eexists. split; [reflexivity|]. sw_fields.
  repeat split; reflexivity.
- reflexivity.
- apply shows_zero.
- unfold deciseconds, ceiling. cbn [hours minutes seconds deci_sec]. lia.
Qed.

(** X6. While the stopwatch is stopped with its button reading Start or
    Cont. (never started, cleared, or paused), the Lap button changes
    nothing: no lap is counted, no line is added, no sound is played. *)
Theorem stopwatch_lap_ignored_when_stopped (es : list (option Event)) (s : State) :
run (init, Main) es = Ok (s, Main) ->
command (start_stopwatch_button s) = cmd_start_stopwatch ->
step (s, Main) (Some LapButton) = Ok (s, Main).
Proof.
intros E Hc. pose proof (reachable_invariant_sw es _ E) as HI.
cbn [step].
inversion HI as
  [s0 _ Hh Hl Hlap | s0 cur _ Hh Hk Hcur Hs Hlaps | | s0 Hc' Hk Hlap Hcur Hlaps Hlabel];
  subst.
- now rewrite serve_lap_stopped by exact Hlap.
- now rewrite serve_lap_stopped by now right.
- congruence.
Qed.

Lemma stopwatch_lap_ignored_when_stopped_witness :
exists s,
  run (init, Main) (Some StartButton :: idle 7 ++ [Some LapButton; Some StartButton])
  = Ok (s, Main) /\
  recorded_laps s = 1 /\
  step (s, Main) (Some LapButton) = Ok (s, Main).
Proof.
eassert (E0 : run (init, Main)
                (Some StartButton :: idle 7 ++ [Some LapButton; Some StartButton])
              = Ok (_, Main)) by (vm_compute; reflexivity).
eexists. split; [exact E0|]. split; [reflexivity|].
apply (stopwatch_lap_ignored_when_stopped _ _ E0). reflexivity.
Defined.

End StopwatchFurther.

(** ** The countdown: arming, counting down, pausing, the alarm *)

Section CountdownFurther.
Import CountDown.






Lemma holds_zero (t : TimeCode) :
holds t -> deciseconds t = 0 -> t = mkTime 0 0 0 0.
Proof.
unfold holds, deciseconds. destruct t as [h m s d].
cbn [hours minutes seconds deci_sec]. intros H E. f_equal; lia.
Qed.





(** The rest of the iteration when the loop was stopped with time left. *)
Lemma after_update_stopped (s : State) (t : TimeCode) :
holds t -> updated_time s = time_text t -> 0 < deciseconds t ->
countdown_key s = false ->
after_update s t = (s, Main).
Proof.
intros Ht Hu Hpos Hk. unfold after_update. rewrite Hu.
pose proof (decrement_holds t Ht) as Hdec.
destruct (decrement (time_text t) t) as [t1|]; [|lia].
unfold countdown_loop. now rewrite Hk.
Qed.

(** X11. From the moment a time is armed until the countdown is cleared or
    its alarm starts (the Set button bound to start or to pause: armed,
    running or paused), the number buttons do nothing: the frame is left as
    it is and the iteration goes on as if nothing had been pressed. *)
Theorem countdown_digits_locked
  (es : list (option Event)) (s : State) (ctl : Control) (k : Key) :
run (init, Main) es = Ok (s, ctl) ->
command (set_countdown_button s) = cmd_start_countdown \/
command (set_countdown_button s) = cmd_pause_countdown ->
number_buttons (key_num k) s = s /\
step (s, ctl) (Some (Number k)) = step (s, ctl) None.
Proof.
intros E Hcmd. pose proof (reachable_invariant es _ E) as HI.
assert (Hn : number_key s = false).
{ inversion HI; subst; try assumption; destruct Hcmd; congruence. }
pose proof (number_buttons_locked (key_num k) s Hn) as L.
split; [exact L|].
destruct ctl as [|t| |]; cbn [step serve bind]; rewrite L; reflexivity.
Qed.

Lemma countdown_digits_locked_witness :
exists s,
  run (init, Main) (map Some [Number K5; SetButton]) = Ok (s, Main) /\
  number_buttons (key_num K7) s = s.
Proof.
eassert (E0 : run (init, Main) (map Some [Number K5; SetButton]) = Ok (_, Main))
  by (vm_compute; reflexivity).
destruct (countdown_digits_locked _ _ _ K7 E0) as (L & _).
- left. reflexivity.
- eexists. split; [exact E0 | exact L].
Defined.

(** The preview of a typed buffer, as three numbers of its value. *)
Lemma preview_value (ks : list Key) :
(List.length ks <= 6)%nat ->
colons (pad6 (keys_text ks))
= hms (key_value ks / 10000) ((key_value ks / 100) mod 100) (key_value ks mod 100) /\
0 <= key_value ks < 1000000.
Proof.
intros Hlen. rewrite pad6_keys. unfold key_value.
destruct ks as [|a [|b [|c [|d [|e [|f [|g r]]]]]]];
  cbn [List.length] in Hlen; try lia;
  cbn [List.length Nat.sub repeat app fold_left]; rewrite colons_six_keys;
  try pose proof (key_num_range a); try pose proof (key_num_range b);
  try pose proof (key_num_range c); try pose proof (key_num_range d);
  try pose proof (key_num_range e); try pose proof (key_num_range f);
  change (key_num K0) with 0;
  (split; [f_equal; Z.div_mod_to_equations; lia | lia]).
Qed.

(** Set on a preview of three numbers below 100: what is stored is a time of
    as many seconds. *)
Lemma set_countdown_total (s : State) (h m sec : Z) :
time_update s <> "" -> updated_time s = hms h m sec ->
0 <= h <= 99 -> 0 <= m <= 99 -> 0 <= sec <= 99 -> 0 <= updated_deci s <= 9 ->
exists s' t,
  set_countdown s = Ok s' /\ holds t /\ stored s' t /\
  deci_sec t = updated_deci s /\
  (hours t * 60 + minutes t) * 60 + seconds t = (h * 60 + m) * 60 + sec /\
  set_countdown_button s' = mkButton "Start" cmd_start_countdown /\
  log s' = Sound 2 :: log s.
Proof.
intros Hne Hprev Hh Hm Hs Hd.
destruct (hms_slices h m sec Hh Hm Hs) as (_ & A & B & C).
unfold set_countdown.
destruct (String.eqb (time_update s) "") eqn:Et;
  [apply String.eqb_eq in Et; contradiction|].
fields. rewrite Hprev, A, B, C. cbn [bind].
destruct ((sec >? 59) || (m >? 59))%bool eqn:Ec.
- eexists. exists (mkTime (h + m / 60) (m mod 60 + sec / 60) (sec mod 60) (updated_deci s)).
  split; [reflexivity|]. unfold holds, stored. fields.
  split; [Z.div_mod_to_equations; lia|].
  split; [split; reflexivity|]. split; [reflexivity|].
  split; [Z.div_mod_to_equations; lia|]. split; reflexivity.
- eexists. exists (mkTime h m sec (updated_deci s)).
  apply orb_false_iff in Ec. destruct Ec as (E1 & E2).
  assert (sec <= 59) by (destruct (Z.gtb_spec sec 59); [discriminate | lia]).
  assert (m <= 59) by (destruct (Z.gtb_spec m 59); [discriminate | lia]).
  split; [reflexivity|]. unfold holds, stored. fields.
  split; [lia|].
  split; [split; [exact Hprev | reflexivity]|]. repeat split.
Qed.

Lemma keys_text_nil (ks : list Key) : keys_text ks = "" -> ks = [].
Proof.
intros E. apply (f_equal String.length) in E. rewrite keys_text_length in E.
now destruct ks.
Qed.

Lemma label_ok_ext (s s' : State) :
countdown_time_label s' = countdown_time_label s ->
updated_time s' = updated_time s -> time_update s' = time_update s ->
command (set_countdown_button s') = command (set_countdown_button s) ->
label_ok s -> label_ok s'.
Proof. unfold label_ok. intros -> -> -> ->. auto. Qed.

Lemma number_buttons_label_ok (num : Z) (s : State) :
label_ok s -> label_ok (number_buttons num s).
Proof.
intros H. unfold number_buttons.
repeat match goal with
       | |- context [if ?b then _ else _] => destruct b
       end; try exact H; left; apply format_number_inputs_label.
Qed.

Lemma set_countdown_label_ok (s s' : State) :
label_ok s -> set_countdown s = Ok s' -> label_ok s'.
Proof.
intros H. unfold set_countdown.
destruct (String.eqb (time_update s) "") eqn:Et.
- intros [= <-]. exact H.
- apply String.eqb_neq in Et.
  destruct H as [H | (_ & H & _)]; [|contradiction].
  fields.
  destruct (py_int (Py.slice 0 2 (updated_time s))) as [h|]; [|discriminate].
  destruct (py_int (Py.slice 3 5 (updated_time s))) as [m|]; [|discriminate].
  destruct (py_int (Py.slice 6 8 (updated_time s))) as [sec|]; [|discriminate].
  cbn [bind]. destruct ((sec >? 59) || (m >? 59))%bool; intros [= <-]; left.
  + reflexivity.
  + exact H.
Qed.

Lemma countdown_loop_label_ok (s : State) (t : TimeCode) :
label_ok s -> label_ok (fst (countdown_loop s t)).
Proof.
intros H. unfold countdown_loop. destruct (countdown_key s); [|exact H].
left. reflexivity.
Qed.

Lemma alarm_loop_label_ok (s : State) :
label_ok s -> label_ok (fst (alarm_loop s)).
Proof.
intros H. unfold alarm_loop. destruct (alarm_key s <? 14); cbn [fst].
- now apply (label_ok_ext s).
- destruct H as [H | (A & B & _)]; [now left|].
  right. repeat split; auto.
Qed.

Lemma decrement_zero (u : string) (t : TimeCode) :
decrement u t = ReachedZero -> u = "00:00:00".
Proof.
unfold decrement. destruct (deci_sec t - 1 =? -1); [|discriminate].
destruct (String.eqb u "00:00:00") eqn:E; [intros _; now apply String.eqb_eq|].
destruct (seconds t - 1 =? -1); [|discriminate].
destruct (minutes t - 1 =? -1); discriminate.
Qed.

Lemma after_update_label_ok (s : State) (t : TimeCode) :
label_ok s -> label_ok (fst (after_update s t)).
Proof.
intros H. unfold after_update.
destruct (decrement (updated_time s) t) as [t1|] eqn:Ed.
- now apply countdown_loop_label_ok.
- apply decrement_zero in Ed. apply alarm_loop_label_ok. left. fields.
  destruct H as [H | (H & _)]; congruence.
Qed.

Lemma start_countdown_label_ok (s : State) (c : Config) :
start_countdown s = Ok c -> label_ok (fst c).
Proof.
unfold start_countdown. intros H.
destruct (Py.len _ <? 9);
  repeat match type of H with
         | context [bind ?r _] => destruct r; cbn [bind] in H
         end; try discriminate;
  match type of H with
  | Ok ?x = Ok ?y => assert (H' : x = y) by congruence
  end; rewrite <- H'; left; reflexivity.
Qed.

Lemma init_label_ok : label_ok init.
Proof. right. repeat split. now left. Qed.

End CountdownFurther.

(** * The frames under Tk's [update()] *)

(** ** The stopwatch with any number of presses per [update()] call *)

Section StopwatchNested.
Import Stopwatch.

Lemma last_cons {A : Type} (a d : A) (l : list A) : last (a :: l) d = last l a.
Proof.
revert a d. induction l as [|b l IH]; intros a d; [reflexivity|].
change (last (a :: b :: l) d) with (last (b :: l) d).
now rewrite (IH b d), (IH b a).
Qed.

Lemma lap_lines_snoc (laps : list TimeCode) :
forall (n : Z) (before : option TimeCode) (cur : TimeCode),
  lap_lines n before (laps ++ [cur])%list
  = lap_lines n before laps ++
    Py.str (n + Z.of_nat (List.length laps)) ++ "|     " ++ lap_text cur ++
    "     |     " ++
    lap_text (match last (map Some laps) before with
              | None => cur
              | Some prev => difference cur prev
              end) ++ newline.
Proof.
induction laps as [|x laps IH]; intros n before cur.
- cbn [app lap_lines List.length map last Z.of_nat]. rewrite Z.add_0_r.
  cbn [append]. now rewrite ?append_assoc, ?append_empty.
- cbn [app lap_lines List.length map]. rewrite IH, last_cons.
  replace (n + 1 + Z.of_nat (List.length laps))
    with (n + Z.of_nat (S (List.length laps))) by lia.
  now rewrite !append_assoc.
Qed.

Lemma cons_neq {A : Type} (a : A) (l : list A) : a :: l <> l.
Proof. intros E. apply (f_equal (@List.length A)) in E. cbn in E. lia. Qed.

Ltac tk_fields :=
  unfold tk_inv, started, shown, laps_shown, current, previous in *;
  cbn [push fst snd] in *; sw_fields.

(** The head of the loop, entered with the time [t]. *)
Lemma stopwatch_loop_tk (s : State) (t : TimeCode) (stk : list Control) :
shows t -> Forall frame_ok stk -> started s ->
(stopwatch_key s = false -> exists cur, current s cur /\ shows cur) ->
shown s -> laps_shown s ->
(stopwatch_key s = true ->
 command (start_stopwatch_button s) = cmd_pause_stopwatch) ->
tk_inv (push (stopwatch_loop s t) stk).
Proof.
intros Ht F St I3 Sh La I6. unfold stopwatch_loop.
destruct (stopwatch_key s) eqn:Hk.
- sw_fields. pose proof (time_text_ceiling t Ht) as Hceil.
  destruct (String.eqb (time_text t) "99:59:59").
  + tk_fields. repeat split; auto.
    intros _. exists t. auto.
  + assert (Hne : t <> ceiling) by (intros E; apply Hceil in E; discriminate).
    assert (Hlt : deciseconds t < deciseconds ceiling).
    { destruct Ht as (Hn & Hle).
      destruct (Z.eq_dec (deciseconds t) (deciseconds ceiling)) as [E|E]; [|lia].
      now apply normalized_at_ceiling in E. }
    tk_fields. repeat split; auto.
    * constructor; [split; assumption | exact F].
    * intros _. exists t. auto.
    * right. exists t. auto.
- tk_fields. repeat split; auto. congruence.
Qed.

Lemma start_stopwatch_tk (s : State) (stk : list Control) :
tk_inv (s, stk) ->
exists c, start_stopwatch s = Ok c /\ tk_inv (push c stk).
Proof.
intros (F & I1 & I2 & I3 & Sh & La & I7 & I6). cbn [fst snd] in *.
unfold start_stopwatch. sw_fields. destruct (HMS_key s) eqn:Hh.
- eexists. split; [reflexivity|].
  apply stopwatch_loop_tk; auto using shows_zero; tk_fields; auto; discriminate.
- destruct (I3 (I1 eq_refl)) as (cur & (E1 & E2) & Hs).
  destruct (parse_current _ _ cur E1 E2 Hs) as (A & B & C & D).
  rewrite A, B, C, D. cbn [bind]. rewrite time_code_eta.
  eexists. split; [reflexivity|].
  apply stopwatch_loop_tk; auto; tk_fields; auto; discriminate.
Qed.

Lemma last_some_snoc (laps : list TimeCode) :
laps <> [] -> Forall shows laps ->
exists prev, last (map Some laps) None = Some prev /\ shows prev.
Proof.
intros Hne Hf. destruct (exists_last Hne) as (l' & p & ->).
exists p. rewrite map_app. cbn [map]. rewrite last_last. split; [reflexivity|].
apply Forall_app in Hf. destruct Hf as (_ & Hp). now inversion Hp.
Qed.

(** A lap recorded while [stopwatch_key] is set: one line is added to the
    list, for the stored time. *)
Lemma record_lap_line (s : State) (cur : TimeCode) (laps : list TimeCode) :
stopwatch_key s = true -> current s cur -> shows cur ->
lap_display s = lap_lines 1 None laps ->
Z.of_nat (List.length laps) = recorded_laps s -> Forall shows laps ->
(forall prev, last (map Some laps) None = Some prev -> previous s prev) ->
exists s',
  record_lap s = Ok s' /\
  lap_display s' = lap_lines 1 None (laps ++ [cur])%list /\
  recorded_laps s' = recorded_laps s + 1 /\
  old_time s' = new_time s /\ old_deci s' = new_deci s /\
  new_time s' = new_time s /\ new_deci s' = new_deci s /\
  stopwatch_key s' = true /\ HMS_key s' = HMS_key s /\
  stopwatch_time_label s' = stopwatch_time_label s /\
  stopwatch_mini_time_label s' = stopwatch_mini_time_label s /\
  start_stopwatch_button s' = start_stopwatch_button s /\
  lap_button s' = lap_button s.
Proof.
intros Hk Hcur Hs D Len Fs Last.
rewrite lap_lines_snoc, <- D.
replace (1 + Z.of_nat (List.length laps)) with (recorded_laps s + 1) by lia.
destruct Hcur as (C1 & C2). unfold lap_text at 1. rewrite <- C1, <- C2.
destruct (Z.eq_dec (recorded_laps s) 0) as [E|E].
- assert (laps = []) by (destruct laps; [reflexivity | cbn in Len; lia]). subst laps.
  cbn [map last]. unfold lap_text. rewrite <- C1, <- C2.
  destruct (record_lap_first s Hk E) as (s' & R & D' & L' & Rest).
  exists s'. split; [exact R|]. split; [|split; [lia | exact Rest]].
  rewrite D', E. now rewrite !append_assoc.
- destruct (last_some_snoc laps) as (prev & El & Hp); auto.
  { intros ->. cbn in Len. lia. }
  rewrite El.
  destruct (record_lap_next s cur prev Hk) as (s' & R & D' & Rest); auto; try lia.
  { now split. }
  exists s'. split; [exact R|]. split; [|exact Rest].
  rewrite D'. now rewrite !append_assoc.
Qed.

(** A press of Lap once the button is bound: it never fails, it leaves the
    time labels and the buttons alone, and the lap list shows one more lap. *)
Lemma record_lap_tk (s : State) (stk : list Control) :
tk_inv (s, stk) -> started s ->
exists s',
  record_lap s = Ok s' /\ tk_inv (s', stk) /\
  new_time s' = new_time s /\ new_deci s' = new_deci s /\
  stopwatch_key s' = stopwatch_key s /\ HMS_key s' = HMS_key s /\
  stopwatch_time_label s' = stopwatch_time_label s /\
  stopwatch_mini_time_label s' = stopwatch_mini_time_label s /\
  start_stopwatch_button s' = start_stopwatch_button s /\
  lap_button s' = lap_button s.
Proof.
intros HI Hst. destruct (stopwatch_key s) eqn:Hk.
2:{ exists s. unfold record_lap. rewrite Hk.
    split; [reflexivity|]. split; [exact HI|]. repeat split. }
destruct HI as (F & I1 & I2 & I3 & Sh & La & I7 & I6). cbn [fst snd] in *.
destruct (I3 Hst) as (cur & Hcur & Hs).
destruct La as (laps & D & Len & Fs & Last).
destruct (record_lap_line s cur laps Hk Hcur Hs D Len Fs Last) as
  (s' & R & D' & L' & O1 & O2 & N1 & N2 & K & H & T & M & B1 & B2).
exists s'. split; [exact R|].
split; [|rewrite K; repeat split; assumption].
unfold tk_inv, started, shown, laps_shown, current, previous in *. cbn [fst snd].
rewrite H, B1, B2, N1, N2, T, M, O1, O2, K.
refine (conj F (conj I1 (conj I2 (conj I3 (conj Sh (conj _ (conj I7 _))))))).
- exists (laps ++ [cur])%list. split; [exact D'|].
  split; [rewrite length_app; cbn [List.length]; lia|].
  split; [apply Forall_app; split; [exact Fs | constructor; [exact Hs | constructor]]|].
  intros prev. rewrite map_app. cbn [map]. rewrite last_last.
  intros [= <-]. exact Hcur.
- intros _. now apply I6.
Qed.

Lemma laps_shown_none (s : State) :
lap_display s = "" -> recorded_laps s = 0 -> laps_shown s.
Proof.
intros D L. exists []. split; [exact D|]. split; [now rewrite L|].
split; [constructor|]. intros prev E. discriminate E.
Qed.

Lemma shown_zero (s : State) :
stopwatch_time_label s = "00:00:00" -> stopwatch_mini_time_label s = ".0" ->
shown s.
Proof.
intros A B. right. exists (mkTime 0 0 0 0). split; [apply shows_zero|].
split; [|split; assumption].
unfold deciseconds, ceiling. cbn [hours minutes seconds deci_sec]. lia.
Qed.

Lemma pause_stopwatch_tk (s : State) (stk : list Control) :
tk_inv (s, stk) -> command (start_stopwatch_button s) = cmd_pause_stopwatch ->
tk_inv (pause_stopwatch s, stk).
Proof.
intros (F & I1 & I2 & I3 & Sh & La & I7 & I6) Hc. specialize (I2 Hc).
tk_fields. repeat split; auto. discriminate.
Qed.

Lemma clear_stopwatch_tk (s : State) (stk : list Control) :
tk_inv (s, stk) -> tk_inv (clear_stopwatch s, stk).
Proof.
intros (F & I1 & I2 & I3 & Sh & La & I7 & I6). unfold tk_inv. cbn [fst snd] in *.
refine (conj F (conj _ (conj _ (conj I3 (conj _ (conj _ (conj I7 _))))))).
- discriminate.
- discriminate.
- now apply shown_zero.
- now apply laps_shown_none.
- discriminate.
Qed.

Lemma resume_tk (n : Nest) : tk_inv n -> tk_inv (resume n).
Proof.
destruct n as (s, [|[|t] stk]); intros HI; cbn [resume].
- exact HI.
- destruct HI as (F & Rest). inversion F as [|x l Hx Hl]; subst. contradiction.
- destruct HI as (F & I1 & I2 & I3 & Sh & La & I7 & I6). cbn [fst snd] in *.
  inversion F as [|x l Hx Hl]; subst. destruct Hx as (Hs & Hlt).
  assert (St : started s) by (apply I7; discriminate).
  apply stopwatch_loop_tk; auto using increment_shows.
Qed.

(** Whatever is pressed and whenever [update()] returns, no handler of the
    stopwatch fails, and the invariant is kept. *)
Lemma tk_step_inv (n : Nest) (i : Input) :
tk_inv n -> exists n', tk_step n i = Ok n' /\ tk_inv n'.
Proof.
intros HI. destruct i as [e|]; cbn [tk_step].
2:{ eexists. split; [reflexivity|]. now apply resume_tk. }
destruct n as (s, stk). cbn [press].
destruct e as [| | |].
- destruct (command (start_stopwatch_button s)) eqn:Hc.
  + destruct (start_stopwatch_tk s stk HI) as (c & E & H). rewrite E.
    eexists. split; [reflexivity | exact H].
  + eexists. split; [reflexivity|]. now apply pause_stopwatch_tk.
- destruct (command (lap_button s)) eqn:Hl.
  + eexists. split; [reflexivity | exact HI].
  + destruct (record_lap_tk s stk HI Hl) as (s' & R & H & _). rewrite R.
    eexists. split; [reflexivity | exact H].
- eexists. split; [reflexivity|]. now apply clear_stopwatch_tk.
- eexists. split; [reflexivity|]. now apply clear_stopwatch_tk.
Qed.

Lemma tk_init_inv : tk_inv (init, []).
Proof.
unfold tk_inv. cbn [fst snd].
refine (conj (Forall_nil _) (conj _ (conj _ (conj _ (conj _ (conj _ (conj _ _))))))).
- discriminate.
- discriminate.
- discriminate.
- now apply shown_zero.
- now apply laps_shown_none.
- congruence.
- discriminate.
Qed.

Lemma tk_run_inv (ins : list Input) :
forall n, tk_inv n -> exists n', tk_run n ins = Ok n' /\ tk_inv n'.
Proof.
induction ins as [|i ins IH]; intros n H.
- exists n. now split.
- destruct (tk_step_inv n i H) as (n1 & E1 & H1).
  destruct (IH n1 H1) as (n' & E' & H').
  exists n'. cbn [tk_run]. rewrite E1. now split.
Qed.

Lemma tk_reachable_inv (ins : list Input) (n : Nest) :
tk_run (init, []) ins = Ok n -> tk_inv n.
Proof.
intros E. destruct (tk_run_inv ins _ tk_init_inv) as (n' & E' & H). congruence.
Qed.

Lemma tk_run_cons (n n1 : Nest) (i : Input) (ins : list Input) :
tk_step n i = Ok n1 -> tk_run n (i :: ins) = tk_run n1 ins.
Proof. intros E. cbn [tk_run]. now rewrite E. Qed.

Lemma tk_run_app (ins ins' : list Input) :
forall n n', tk_run n ins = Ok n' -> tk_run n (ins ++ ins') = tk_run n' ins'.
Proof.
induction ins as [|i ins IH]; intros n n' E.
- injection E as <-. reflexivity.
- cbn [app tk_run] in *. destruct (tk_step n i) as [n1|]; [|discriminate].
  cbn [bind] in *. now apply IH.
Qed.

(** Every event of [step] is a press followed by the return of [update()],
    or one of the two alone: the runs of [run] are runs of [tk_run]. *)
Lemma step_is_tk_run (c c' : Config) (e : option Event) :
step c e = Ok c' ->
tk_run (fst c, frames (snd c)) (inputs_of (snd c) e) = Ok (fst c', frames (snd c')).
Proof.
destruct c as (s, [|t]); cbn [step fst snd frames inputs_of].
- destruct e as [[| | |]|]; cbn [tk_run tk_step press serve].
  + destruct (command (start_stopwatch_button s)).
    * intros E. rewrite E. cbn [bind]. now destruct c' as (s', [|t']).
    * cbn [bind]. now intros [= <-].
  + destruct (command (start_stopwatch_button s)), (command (lap_button s));
      try destruct (record_lap s); cbn [bind]; try discriminate; now intros [= <-].
  + destruct (command (start_stopwatch_button s)); cbn [bind]; now intros [= <-].
  + destruct (command (start_stopwatch_button s)); cbn [bind]; now intros [= <-].
  + destruct (command (start_stopwatch_button s)); cbn [bind]; now intros [= <-].
- assert (H : forall s1, Ok (stopwatch_loop s1 (increment t)) = Ok c' ->
            Ok (resume (s1, [Tick t])) = Ok (fst c', frames (snd c'))).
  { intros s1 [= <-]. cbn [resume]. now destruct (stopwatch_loop s1 (increment t)) as (s', [|t']). }
  destruct e as [[| | |]|]; cbn [tk_run tk_step press serve bind].
  + destruct (command (start_stopwatch_button s)); cbn [bind]; [discriminate|].
    intros E. now rewrite (H _ E).
  + destruct (command (lap_button s)); try destruct (record_lap s); cbn [bind];
      try discriminate; intros E; now rewrite (H _ E).
  + intros E. now rewrite (H _ E).
  + intros E. now rewrite (H _ E).
  + intros E. now rewrite (H _ E).
Qed.

Lemma run_is_tk_run (es : list (option Event)) :
forall c c',
  run c es = Ok c' ->
  exists ins, tk_run (fst c, frames (snd c)) ins = Ok (fst c', frames (snd c')).
Proof.
induction es as [|e es IH]; intros c c' E.
- injection E as <-. exists []. reflexivity.
- cbn [run] in E. destruct (step c e) as [c1|] eqn:E1; [|discriminate].
  cbn [bind] in E. destruct (IH c1 c' E) as (ins & R).
  exists (inputs_of (snd c) e ++ ins)%list.
  rewrite (tk_run_app _ _ _ _ (step_is_tk_run c c1 e E1)). exact R.
Qed.

(** X2. Whatever is pressed, however many presses one [update()] call
    serves and however the loops are nested, no handler of the stopwatch
    raises, and the two time labels read either Overflow with no decisecond
    or the text of a normalized time below 99:59:59.0 with its decisecond:
    the time label never reads 99:59:59.  (The lap list can: a lap recorded
    in the overflow display shows 99:59:59.0.) *)
Theorem stopwatch_always_shows_a_time (ins : list Input) :
exists (s : State) (stk : list Control),
  tk_run (init, []) ins = Ok (s, stk) /\
  stopwatch_time_label s <> "99:59:59" /\
  ((stopwatch_time_label s = "Overflow" /\ stopwatch_mini_time_label s = "") \/
   exists t, normalized t /\ deciseconds t < deciseconds ceiling /\
             stopwatch_time_label s = time_text t /\
             stopwatch_mini_time_label s = "." ++ Py.str (deci_sec t)).
Proof.
destruct (tk_run_inv ins _ tk_init_inv) as ((s, stk) & E & HI).
exists s, stk. split; [exact E|].
destruct HI as (_ & _ & _ & _ & Sh & _). cbn [fst] in Sh. split.
- destruct Sh as [(A & _)|(t & Hs & Hlt & A & _)]; rewrite A.
  + discriminate.
  + intros E'. assert (Et : t = ceiling).
    { apply time_text_ceiling; [exact Hs|]. now apply String.eqb_eq. }
    subst t. lia.
- destruct Sh as [H|(t & (Hn & _) & Hlt & A & B)]; [now left|].
  right. exists t. auto.
Qed.

(** The loop and [start_stopwatch] leave the lap list alone. *)
Lemma stopwatch_loop_laps (s : State) (t : TimeCode) (stk : list Control) :
lap_display (fst (push (stopwatch_loop s t) stk)) = lap_display s.
Proof.
unfold stopwatch_loop. destruct (stopwatch_key s); [|reflexivity].
sw_fields. destruct (String.eqb (time_text t) "99:59:59"); reflexivity.
Qed.

Lemma start_stopwatch_laps (s : State) (c : Config) (stk : list Control) :
start_stopwatch s = Ok c -> lap_display (fst (push c stk)) = lap_display s.
Proof.
unfold start_stopwatch. intros H.
destruct (HMS_key _);
  repeat match type of H with
         | context [bind ?r _] => destruct r; cbn [bind] in H
         end; try discriminate;
  match type of H with
  | Ok ?x = Ok ?y => assert (H' : x = y) by congruence
  end; rewrite <- H'; now rewrite stopwatch_loop_laps.
Qed.

(** X15. Whatever is pressed, however many presses one [update()] call
    serves and however the loops are nested, the lap list is exactly the
    text [record_lap] builds from a list of times, as many as laps are
    counted: one line per time, numbered 1, 2, 3, ..., each with its time (a
    normalized time up to 99:59:59.0) and its difference to the time before,
    the first showing its time twice.  Whatever comes next is served without
    failure, and the list changes in two ways only: a press of Lap while the
    Lap button is bound and [stopwatch_key] is set adds one line, for the
    stored time; Clear and Back empty the list.  A press of Lap otherwise, a
    press of Start, Pause or Cont. and a return of [update()] leave it as it
    is. *)
Theorem stopwatch_lap_list (ins : list Input) :
exists (s : State) (stk : list Control) (laps : list TimeCode),
  tk_run (init, []) ins = Ok (s, stk) /\
  lap_display s = lap_lines 1 None laps /\
  Z.of_nat (List.length laps) = recorded_laps s /\
  Forall shows laps /\
  forall i : Input, exists (s' : State) (stk' : list Control),
    tk_step (s, stk) i = Ok (s', stk') /\
    ((i = Press LapButton /\
      command (lap_button s) = cmd_record_lap /\ stopwatch_key s = true /\
      exists cur, current s cur /\ shows cur /\
                  lap_display s' = lap_lines 1 None (laps ++ [cur])) \/
     ((i = Press ClearButton \/ i = Press BackButton) /\ lap_display s' = "") \/
     (i <> Press ClearButton /\ i <> Press BackButton /\
      (i = Press LapButton ->
       command (lap_button s) = cmd_unbound \/ stopwatch_key s = false) /\
      lap_display s' = lap_display s)).
Proof.
destruct (tk_run_inv ins _ tk_init_inv) as ((s, stk) & E & HI).
pose proof HI as (_ & _ & _ & I3 & _ & (laps & D & Len & Fs & Last) & _).
cbn [fst] in *.
exists s, stk, laps. split; [exact E|]. split; [exact D|]. split; [exact Len|].
split; [exact Fs|].
intros i. destruct (tk_step_inv (s, stk) i HI) as ((s', stk') & E' & _).
exists s', stk'. split; [exact E'|].
destruct i as [[| | |]|]; cbn [tk_step press resume] in E'.
- (* Start, Pause, Cont. *)
  right. right. split; [discriminate|]. split; [discriminate|].
  split; [discriminate|].
  destruct (command (start_stopwatch_button s)).
  + destruct (start_stopwatch s) as [c|] eqn:Es; cbn [bind] in E'; [|discriminate].
    injection E' as E'. rewrite <- (start_stopwatch_laps s c stk Es), E'. reflexivity.
  + now injection E' as <- _.
- (* Lap *)
  destruct (command (lap_button s)) eqn:Hl.
  + right. right. split; [discriminate|]. split; [discriminate|].
    split; [intros _; now left|]. now injection E' as <- _.
  + destruct (stopwatch_key s) eqn:Hk.
    * left. split; [reflexivity|]. split; [reflexivity|]. split; [reflexivity|].
      destruct (I3 Hl) as (cur & Hcur & Hs).
      destruct (record_lap_line s cur laps Hk Hcur Hs D Len Fs Last) as (s1 & R & D1 & _).
      rewrite R in E'. cbn [bind] in E'. injection E' as <- _.
      exists cur. auto.
    * right. right. split; [discriminate|]. split; [discriminate|].
      split; [intros _; now right|].
      unfold record_lap in E'. rewrite Hk in E'. cbn [bind] in E'.
      now injection E' as <- _.
- (* Clear *)
  right. left. split; [now left|]. now injection E' as <- _.
- (* Back *)
  right. left. split; [now right|]. now injection E' as <- _.
- (* a return of [update()] *)
  right. right. split; [discriminate|]. split; [discriminate|].
  split; [discriminate|].
  destruct stk as [|[|t] stk0].
  + now injection E' as <- _.
  + now injection E' as <- _.
  + injection E' as E'. rewrite <- (stopwatch_loop_laps s (increment t) stk0), E'.
    reflexivity.
Qed.

(** *** Overflow *)

(** The innermost loop, not stopped, when its [update()] returns. *)
Lemma resume_running (s : State) (t : TimeCode) (stk : list Control) :
stopwatch_key s = true -> shows t -> deciseconds t < deciseconds ceiling ->
(increment t = ceiling /\
 resume (s, Tick t :: stk)
 = (lap_caption "" (with_labels "Overflow" "" (with_new "99:59:59" "0" s)), stk)) \/
(increment t <> ceiling /\
 resume (s, Tick t :: stk)
 = (with_labels (time_text (increment t)) ("." ++ Py.str (deci_sec (increment t)))
      (with_new (time_text (increment t)) (Py.str (deci_sec (increment t))) s),
    Tick (increment t) :: stk)).
Proof.
intros Hk Hs Hlt.
destruct (step_tick_idle s t Hk Hs Hlt) as [(Ec & E)|(Ec & E)];
  cbn [step serve bind] in E; [left|right]; (split; [exact Ec|]);
  cbn [resume]; injection E as ->; reflexivity.
Qed.

(** With no loop suspended, the overflow display survives every input but
    Clear and Back. *)
Lemma tk_overflowed_step (n : Nest) (i : Input) :
tk_inv n -> tk_overflowed n -> tk_quiet i ->
exists n', tk_step n i = Ok n' /\ tk_overflowed n'.
Proof.
intros HI (Hstk & Hl & Hm & Hcur & Hcmd) (Hq1 & Hq2).
destruct n as (s, stk). cbn [fst snd] in *. subst stk.
destruct i as [[| | |]|]; cbn [tk_step press resume]; try congruence.
- destruct (command (start_stopwatch_button s)) eqn:Hc.
  + destruct Hcmd as [Hcmd|Hh]; [discriminate|].
    unfold start_stopwatch. sw_fields. rewrite Hh.
    destruct Hcur as (A & B).
    destruct (parse_current _ _ ceiling A B shows_ceiling) as (P1 & P2 & P3 & P4).
    rewrite P1, P2, P3, P4. cbn [bind].
    change (mkTime (hours ceiling) (minutes ceiling) (seconds ceiling) (deci_sec ceiling))
      with ceiling.
    unfold stopwatch_loop. sw_fields.
    change (String.eqb (time_text ceiling) "99:59:59") with true. cbv iota.
    eexists. split; [reflexivity|]. unfold tk_overflowed, current. cbn [push fst snd].
    sw_fields. repeat split; auto.
  + eexists. split; [reflexivity|]. unfold tk_overflowed, current in *.
    cbn [fst snd]. sw_fields. repeat split; auto; apply Hcur.
- destruct (command (lap_button s)) eqn:Hlap.
  + eexists. split; [reflexivity|]. unfold tk_overflowed. cbn [fst snd]. auto.
  + destruct (record_lap_tk s [] HI Hlap) as
      (s' & R & _ & N1 & N2 & _ & H & T & M & B1 & _).
    rewrite R. cbn [bind]. eexists. split; [reflexivity|].
    unfold tk_overflowed, current in *. cbn [fst snd].
    rewrite N1, N2, H, T, M, B1. auto.
- eexists. split; [reflexivity|]. unfold tk_overflowed. cbn [fst snd]. auto.
Qed.

Lemma tk_overflowed_run (ins : list Input) :
forall n, tk_inv n -> tk_overflowed n -> Forall tk_quiet ins ->
  exists n', tk_run n ins = Ok n' /\ tk_overflowed n'.
Proof.
induction ins as [|i ins IH]; intros n HI Ho Hq.
- exists n. now split.
- inversion Hq as [|i0 l Hi Hl]; subst.
  destruct (tk_overflowed_step n i HI Ho Hi) as (n1 & E1 & Ho1).
  destruct (tk_step_inv n i HI) as (n1' & E1' & HI1).
  rewrite E1 in E1'. injection E1' as <-.
  destruct (IH n1 HI1 Ho1 Hl) as (n' & E' & Ho').
  exists n'. cbn [tk_run]. rewrite E1. now split.
Qed.

(** Iterations with nothing pressed count up, one decisecond each. *)
Lemma tk_returns_count (k : nat) :
forall (s : State) (t : TimeCode),
  stopwatch_key s = true -> shows t ->
  deciseconds t + Z.of_nat k < deciseconds ceiling ->
  exists s' t',
    tk_run (s, [Tick t]) (returns k) = Ok (s', [Tick t']) /\
    stopwatch_key s' = true /\ shows t' /\
    deciseconds t' = deciseconds t + Z.of_nat k.
Proof.
induction k as [|k IH]; intros s t Hk Hs Hlt.
- exists s, t. split; [reflexivity|]. repeat split; try apply Hs; auto; lia.
- destruct (resume_running s t [] Hk Hs) as [(Ec & E)|(Ec & E)]; [lia| |].
  + pose proof (increment_deciseconds t) as Hd. rewrite Ec in Hd. lia.
  + set (s1 := with_labels _ _ _) in E.
    destruct (IH s1 (increment t)) as (s' & t' & R & K & Hs' & D).
    { exact Hk. }
    { apply increment_shows; [exact Hs | lia]. }
    { rewrite increment_deciseconds. lia. }
    exists s', t'. change (returns (S k)) with (Return :: returns k).
    cbn [tk_run tk_step bind]. rewrite E. split; [exact R|].
    rewrite increment_deciseconds in D. repeat split; try apply Hs'; auto; lia.
Qed.

(** Started from rest and left alone, the stopwatch shows 99:59:58.9 after
    3,599,989 iterations. *)
Lemma tk_reaches_last_tick :
exists s,
  tk_run (init, []) (Press StartButton :: returns (Z.to_nat 3599989))
  = Ok (s, [Tick (mkTime 99 59 58 9)]) /\
  stopwatch_key s = true.
Proof.
eassert (E0 : tk_step (init, []) (Press StartButton) = Ok (_, [Tick (mkTime 0 0 0 0)]))
  by (vm_compute; reflexivity).
match type of E0 with _ = Ok (?s0, _) =>
  destruct (tk_returns_count (Z.to_nat 3599989) s0 (mkTime 0 0 0 0))
    as (s' & t' & R & K & Hs & D)
end.
- reflexivity.
- apply shows_zero.
- unfold deciseconds, ceiling. cbn [hours minutes seconds deci_sec]. lia.
- assert (Et : t' = mkTime 99 59 58 9).
  { destruct Hs as (Hn & _). unfold normalized, deciseconds in *.
    destruct t' as [h m sec d]. cbn [hours minutes seconds deci_sec] in *.
    f_equal; lia. }
  subst t'. exists s'. rewrite (tk_run_cons _ _ _ _ E0). split; [exact R | exact K].
Qed.

(** C2, as the code has it. In every run, whatever was pressed before and
    however the loops are nested, when the [update()] call of the innermost
    loop returns and the loop has not been stopped, the loop ends with the
    Overflow display exactly when it holds 99:59:58.9, the iteration that
    brings the text to 99:59:59; from any other time it shows the next time.
    The overflow display shows no deciseconds.  When no other loop is
    suspended beneath, it stays through every later input other than Clear
    and Back, with no loop running; Clear brings back 00:00:00.0. *)
Theorem stopwatch_overflows_at_99_59_59
  (ins : list Input) (s : State) (t : TimeCode) (stk : list Control) :
tk_run (init, []) ins = Ok (s, Tick t :: stk) -> stopwatch_key s = true ->
(t = mkTime 99 59 58 9 <->
 exists s', resume (s, Tick t :: stk) = (s', stk) /\
            stopwatch_time_label s' = "Overflow") /\
(t <> mkTime 99 59 58 9 ->
 exists s', resume (s, Tick t :: stk) = (s', Tick (increment t) :: stk) /\
            stopwatch_time_label s' = time_text (increment t) /\
            stopwatch_mini_time_label s' = "." ++ Py.str (deci_sec (increment t))) /\
(t = mkTime 99 59 58 9 -> stk = [] ->
 forall js, Forall tk_quiet js ->
   exists s',
     tk_run (s, [Tick t]) (Return :: js) = Ok (s', []) /\
     stopwatch_time_label s' = "Overflow" /\
     stopwatch_mini_time_label s' = "" /\
     new_time s' = "99:59:59" /\ new_deci s' = "0" /\
     exists s'',
       tk_step (s', []) (Press ClearButton) = Ok (s'', []) /\
       stopwatch_time_label s'' = "00:00:00" /\
       stopwatch_mini_time_label s'' = ".0" /\ lap_display s'' = "").
Proof.
intros E Hk. pose proof (tk_reachable_inv ins _ E) as HI.
assert (Hf : frame_ok (Tick t)).
{ destruct HI as (F & _). cbn [snd] in F. now inversion F. }
destruct Hf as (Hs & Hlt).
pose proof (last_tick t (proj1 Hs)) as Hlast.
pose proof (resume_tk _ HI) as HI1.
destruct (resume_running s t stk Hk Hs Hlt) as [(Ec & Er)|(Ec & Er)].
- (* the last iteration *)
  assert (Et : t = mkTime 99 59 58 9) by now apply Hlast.
  split; [|split].
  + split; [intros _ | intros _; exact Et].
    eexists. split; [exact Er | reflexivity].
  + intros Hne. contradiction.
  + intros _ -> js Hq. rewrite Er in HI1.
    set (s1 := lap_caption "" (with_labels "Overflow" "" (with_new "99:59:59" "0" s))) in *.
    assert (Hc : command (start_stopwatch_button s) = cmd_pause_stopwatch).
    { destruct HI as (_ & _ & _ & _ & _ & _ & I7 & I6). cbn [fst snd] in *.
      apply I6; [exact Hk|]. apply I7. discriminate. }
    assert (Ho : tk_overflowed (s1, [])).
    { unfold tk_overflowed, current. cbn [fst snd]. repeat split; auto. }
    destruct (tk_overflowed_run js _ HI1 Ho Hq) as ((s', stk') & R & Ho').
    destruct Ho' as (Hstk & Hl & Hmini & (A & B) & _). cbn [fst snd] in *. subst stk'.
    exists s'. cbn [tk_run tk_step bind]. rewrite Er.
    split; [exact R|]. split; [exact Hl|]. split; [exact Hmini|].
    split; [exact A|]. split; [exact B|].
    eexists. split; [reflexivity|]. repeat split.
- (* any other iteration *)
  assert (Et : t <> mkTime 99 59 58 9) by (intros H; apply Hlast in H; contradiction).
  split; [|split].
  + split; [intros H; contradiction|].
    intros (s' & Es & _). rewrite Er in Es. injection Es as _ Es.
    now apply cons_neq in Es.
  + intros _. eexists. split; [exact Er|]. split; reflexivity.
  + intros H. contradiction.
Qed.

Lemma stopwatch_overflows_at_99_59_59_witness :
exists s s',
  tk_run (init, []) (Press StartButton :: returns (Z.to_nat 3599989))
  = Ok (s, [Tick (mkTime 99 59 58 9)]) /\
  stopwatch_key s = true /\
  resume (s, [Tick (mkTime 99 59 58 9)]) = (s', []) /\
  stopwatch_time_label s' = "Overflow".
Proof.
destruct tk_reaches_last_tick as (s & E & K).
destruct (stopwatch_overflows_at_99_59_59 _ _ _ _ E K) as ((H & _) & _).
destruct (H eq_refl) as (s' & Es & L).
exists s, s'. auto.
Defined.

End StopwatchNested.

(** ** The countdown with any number of presses per [update()] call *)

Section CountdownNested.
Import CountDown.

Lemma tk_run_app_cd (ins ins' : list Input) :
forall n n', tk_run n ins = Ok n' -> tk_run n (ins ++ ins') = tk_run n' ins'.
Proof.
induction ins as [|i ins IH]; intros n n' E.
- injection E as <-. reflexivity.
- cbn [app tk_run] in *. destruct (tk_step n i) as [n1|]; [|discriminate].
  cbn [bind] in *. now apply IH.
Qed.

Lemma flat_app (ins ins' : list Input) :
forall n n', tk_run n ins = Ok n' ->
  flat n (ins ++ ins') = (flat n ins && flat n' ins')%bool.
Proof.
induction ins as [|i ins IH]; intros n n' E.
- injection E as <-. reflexivity.
- cbn [app tk_run flat] in *. destruct (tk_step n i) as [n1|]; [|discriminate].
  cbn [bind] in E. rewrite (IH n1 n' E). now rewrite andb_assoc.
Qed.

(** The rest of an iteration once [update()] has returned: the alarm
    begins when the stored text is 00:00:00 and the deciseconds of the loop
    are used up; otherwise the loop is at its test again. *)
Lemma after_update_cases (s : State) (t : TimeCode) :
(exists t', decrement (updated_time s) t = Continue t' /\
            after_update s t = countdown_loop s t') \/
(decrement (updated_time s) t = ReachedZero /\
 updated_time s = "00:00:00" /\ deci_sec t = 0 /\
 after_update s t
 = (emit (Flash true)
      (sounds 3 (with_set_button (mkButton "" cmd_nothing) (with_alarm_key 0 s))),
    AlarmOn)).
Proof.
unfold after_update. destruct (decrement (updated_time s) t) as [t'|] eqn:E.
- left. eauto.
- right. split; [reflexivity|]. split; [now apply (decrement_zero _ t)|].
  split; [|reflexivity].
  unfold decrement in E. destruct (Z.eqb_spec (deci_sec t - 1) (-1)); [lia | discriminate].
Qed.

Lemma countdown_loop_stopped (s : State) (t : TimeCode) :
countdown_key s = false -> countdown_loop s t = (s, Main).
Proof. intros H. unfold countdown_loop. now rewrite H. Qed.

Lemma alarm_begins_tk (s : State) :
updated_deci s = 0 -> buffer_ok s ->
tk_inv (emit (Flash true)
          (sounds 3 (with_set_button (mkButton "" cmd_nothing) (with_alarm_key 0 s))),
        [AlarmOn]).
Proof.
intros Hd Hb. apply tk_alarm_on; fields; auto; lia.
Qed.

Lemma alarm_over_tk (s : State) :
14 <= alarm_key s -> updated_deci s = 0 -> buffer_ok s ->
push (alarm_loop s) []
= (with_set_button (mkButton "Set" cmd_set_countdown) (with_number_key true s), []) /\
tk_inv (with_set_button (mkButton "Set" cmd_set_countdown) (with_number_key true s), []).
Proof.
intros Ha Hd Hb. unfold alarm_loop.
destruct (Z.ltb_spec (alarm_key s) 14); [lia|]. split; [reflexivity|].
apply tk_entering; fields; auto. now left.
Qed.

(** A frame no loop counts for, when the innermost [update()] returns:
    [rebuild] makes the invariant again from the fields the loops leave
    alone. *)
Lemma resume_stopped (s : State) (stk : list Control)
  (rebuild : forall s' stk',
     set_countdown_button s' = set_countdown_button s ->
     number_key s' = number_key s -> time_update s' = time_update s ->
     updated_time s' = updated_time s -> updated_deci s' = updated_deci s ->
     stopped_under s' stk' -> tk_inv (s', stk')) :
stopped_under s stk -> updated_deci s = 0 -> buffer_ok s ->
tk_inv (resume (s, stk)).
Proof.
intros [-> | [(t & -> & Ht & Hk) | ([-> | ->] & Ha)]] Hd Hb; cbn [resume].
- apply rebuild; auto. now left.
- destruct (after_update_cases s t) as [(t' & _ & ->)|(_ & _ & _ & ->)].
  + rewrite countdown_loop_stopped by exact Hk. cbn [push fst snd].
    apply rebuild; auto. now left.
  + cbn [push fst snd]. now apply alarm_begins_tk.
- apply rebuild; auto. right. right. split; [now right|]. fields. lia.
- destruct (alarm_over_tk s Ha Hd Hb) as (-> & H). exact H.
Qed.

Lemma resume_tk_cd (n : Nest) : tk_inv n -> tk_inv (resume n).
Proof.
intros HI. destruct HI as
  [s stk Hc Hn Hd Hb Hu | s stk t Hbtn Hn Hbuf Ht Hst Hd0 Hsec Hu
   | s t Hc Hn Hbuf Ht Hst Hpos | s t Hc Hn Hbuf Hk Ht Hst
   | s t Hc Hk Hn Hbuf Ht Hst | s Hc Ha Hd Hb | s Hc Ha Hd Hb].
- (* entering *)
  apply resume_stopped; auto.
  intros s' stk' B N T U D Hu'. apply tk_entering; try congruence.
  now apply (buffer_ok_ext s).
- (* armed *)
  destruct Hst as (U0 & D0).
  apply resume_stopped; auto using buffer_ok_empty; [|congruence].
  intros s' stk' B N T U D Hu'. apply (tk_armed s' stk' t); try congruence.
  split; congruence.
- (* paused, in the main loop *)
  cbn [resume]. now apply (tk_paused s t).
- (* paused, the loop not yet left *)
  cbn [resume]. destruct Hst as (U0 & D0).
  destruct (after_update_cases s t) as [(t' & E & ->)|(E & _ & Hz & ->)].
  + rewrite countdown_loop_stopped by exact Hk. cbn [push fst snd].
    pose proof (decrement_holds t Ht) as Hdec. rewrite U0 in E. rewrite E in Hdec.
    apply (tk_paused s t); auto. now split. apply Hdec.
  + cbn [push fst snd]. apply alarm_begins_tk; [congruence | now apply buffer_ok_empty].
- (* running *)
  cbn [resume]. destruct Hst as (U0 & D0).
  destruct (after_update_cases s t) as [(t' & E & ->)|(E & _ & Hz & ->)].
  + pose proof (decrement_holds t Ht) as Hdec. rewrite U0 in E. rewrite E in Hdec.
    unfold countdown_loop. rewrite Hk. cbn [push fst snd].
    apply tk_running; fields; auto; try apply Hdec. split; reflexivity.
  + cbn [push fst snd]. apply alarm_begins_tk; [congruence | now apply buffer_ok_empty].
- (* alarm, labels red *)
  cbn [resume]. apply tk_alarm_off; fields; auto. lia.
- (* alarm, labels normal *)
  cbn [resume]. destruct (Z.eq_dec (alarm_key s) 14) as [E|E].
  + destruct (alarm_over_tk s) as (-> & H); auto. lia.
  + unfold alarm_loop. destruct (Z.ltb_spec (alarm_key s) 14); [|lia].
    cbn [push fst snd]. apply tk_alarm_on; fields; auto. lia.
Qed.

Lemma stopped_under_ext (s s' : State) (stk : list Control) :
countdown_key s' = countdown_key s -> alarm_key s' = alarm_key s ->
stopped_under s stk -> stopped_under s' stk.
Proof. unfold stopped_under. intros -> ->. auto. Qed.

(** The loops a frame of the invariant can be under. *)
Lemma stack_shape (s : State) (stk : list Control) :
tk_inv (s, stk) ->
stk = [] \/ (exists t, stk = [Tick t] /\ holds t) \/ stk = [AlarmOn] \/ stk = [AlarmOff].
Proof.
intros HI. inversion HI as
  [s0 stk0 Hc Hn Hd Hb Hu | s0 stk0 t Hbtn Hn Hbuf Ht Hst Hd0 Hsec Hu
   | s0 t Hc Hn Hbuf Ht Hst Hpos | s0 t Hc Hn Hbuf Hk Ht Hst
   | s0 t Hc Hk Hn Hbuf Ht Hst | s0 Hc Ha Hd Hb | s0 Hc Ha Hd Hb]; subst; eauto;
  destruct Hu as [-> | [(t' & -> & Ht' & _) | ([-> | ->] & _)]]; eauto.
Qed.

Lemma clear_countdown_tk (s : State) (stk : list Control) :
tk_inv (s, stk) -> tk_inv (clear_countdown s, stk).
Proof.
intros HI. apply tk_entering; try reflexivity; [now apply buffer_ok_empty|].
destruct (stack_shape s stk HI) as [-> | [(t & -> & Ht) | [-> | ->]]].
- now left.
- right. left. exists t. auto.
- right. right. split; [now left | cbn; lia].
- right. right. split; [now right | cbn; lia].
Qed.

Lemma number_buttons_tk (k : Key) (s : State) (stk : list Control) :
tk_inv (s, stk) -> tk_inv (number_buttons (key_num k) s, stk).
Proof.
intros HI.
destruct (number_buttons_frame (key_num k) s) as (F1 & F2 & F3 & F4 & F5).
inversion HI as
  [s0 stk0 Hc Hn Hd Hb Hu | s0 stk0 t Hbtn Hn Hbuf Ht Hst Hd0 Hsec Hu
   | s0 t Hc Hn Hbuf Ht Hst Hpos | s0 t Hc Hn Hbuf Hk Ht Hst
   | s0 t Hc Hk Hn Hbuf Ht Hst | s0 Hc Ha Hd Hb | s0 Hc Ha Hd Hb]; subst;
  try (rewrite (number_buttons_locked _ s Hn); exact HI).
- apply tk_entering; try congruence.
  + now apply number_buttons_buffer.
  + now apply (stopped_under_ext s).
- apply tk_alarm_on; try congruence. now apply number_buttons_buffer.
- apply tk_alarm_off; try congruence. now apply number_buttons_buffer.
Qed.

(** A press that starts no loop inside a loop: the handler does not fail and
    the invariant is kept. *)
Lemma press_tk (e : Event) (n : Nest) :
tk_inv n -> nested_start n (Press e) = false ->
exists n', press e n = Ok n' /\ tk_inv n'.
Proof.
intros HI Hflat. destruct n as (s, stk). destruct e as [k| | |]; cbn [press].
- eexists. split; [reflexivity|]. now apply number_buttons_tk.
- inversion HI as
    [s0 stk0 Hc Hn Hd Hb Hu | s0 stk0 t Hbtn Hn Hbuf Ht Hst Hd0 Hsec Hu
     | s0 t Hc Hn Hbuf Ht Hst Hpos | s0 t Hc Hn Hbuf Hk Ht Hst
     | s0 t Hc Hk Hn Hbuf Ht Hst | s0 Hc Ha Hd Hb | s0 Hc Ha Hd Hb]; subst.
  + (* entering *)
    rewrite Hc. destruct (String.eqb (time_update s) "") eqn:Ee.
    * apply String.eqb_eq in Ee. rewrite (set_countdown_empty s Ee). cbn [bind].
      eexists. split; [reflexivity | exact HI].
    * apply String.eqb_neq in Ee.
      destruct (set_countdown_arms s Hb Ee) as
        (s' & t & E & Ht & Hst & Hdt & Hsec & Hn' & Hb' & Hbtn & K' & A' & _); [lia|].
      rewrite E. cbn [bind]. eexists. split; [reflexivity|].
      apply (tk_armed s' stk t); auto; try lia.
      now apply (stopped_under_ext s).
  + (* armed *)
    rewrite Hbtn. cbn [command].
    assert (stk = []).
    { destruct stk; [reflexivity|]. cbn [nested_start fst snd] in Hflat.
      rewrite Hbtn in Hflat. discriminate. }
    subst stk.
    destruct (start_countdown_enters s t Ht Hst) as
      (s' & E & Hc' & Hk' & Hn' & Hb' & Hst' & _).
    rewrite E. cbn [bind push fst snd]. eexists. split; [reflexivity|].
    apply tk_running; auto; congruence.
  + (* paused *)
    rewrite Hc. cbn [command].
    destruct (start_countdown_enters s t Ht Hst) as
      (s' & E & Hc' & Hk' & Hn' & Hb' & Hst' & _).
    rewrite E. cbn [bind push fst snd]. eexists. split; [reflexivity|].
    apply tk_running; auto; congruence.
  + (* paused, the loop not yet left: Cont. would start a loop in a loop *)
    cbn [nested_start fst snd] in Hflat. rewrite Hc in Hflat. discriminate.
  + (* running *)
    rewrite Hc. eexists. split; [reflexivity|].
    apply tk_pausing; fields; auto.
  + rewrite Hc. eexists. split; [reflexivity | exact HI].
  + rewrite Hc. eexists. split; [reflexivity | exact HI].
- eexists. split; [reflexivity|]. now apply clear_countdown_tk.
- eexists. split; [reflexivity|]. now apply clear_countdown_tk.
Qed.

Lemma tk_step_inv_cd (n : Nest) (i : Input) :
tk_inv n -> nested_start n i = false ->
exists n', tk_step n i = Ok n' /\ tk_inv n'.
Proof.
intros HI Hflat. destruct i as [e|]; cbn [tk_step].
- now apply press_tk.
- eexists. split; [reflexivity|]. now apply resume_tk_cd.
Qed.

Lemma tk_init_inv_cd : tk_inv (init, []).
Proof.
apply tk_entering; try reflexivity; [now apply buffer_ok_empty | now left].
Qed.

(** In a run that starts no loop inside a loop no handler fails, and the
    invariant is kept. *)
Lemma tk_run_inv_cd (ins : list Input) :
forall n, tk_inv n -> flat n ins = true ->
  exists n', tk_run n ins = Ok n' /\ tk_inv n'.
Proof.
induction ins as [|i ins IH]; intros n H Hf.
- exists n. now split.
- cbn [flat] in Hf. apply andb_true_iff in Hf. destruct Hf as (Hn & Hf).
  apply negb_true_iff in Hn.
  destruct (tk_step_inv_cd n i H Hn) as (n1 & E1 & H1).
  rewrite E1 in Hf. destruct (IH n1 H1 Hf) as (n' & E' & H').
  exists n'. cbn [tk_run]. rewrite E1. now split.
Qed.

Lemma tk_reachable_inv_cd (ins : list Input) (n : Nest) :
tk_run (init, []) ins = Ok n -> flat (init, []) ins = true -> tk_inv n.
Proof.
intros E Hf. destruct (tk_run_inv_cd ins _ tk_init_inv_cd Hf) as (n' & E' & H).
congruence.
Qed.

(** Every event of [step] is a press followed by the return of [update()],
    or one of the two alone: the runs of [run] are runs of [tk_run], and
    they start no loop inside a loop. *)
Lemma step_is_tk_run_cd (c c' : Config) (e : option Event) :
step c e = Ok c' ->
tk_run (fst c, frames (snd c)) (inputs_of (snd c) e) = Ok (fst c', frames (snd c')) /\
flat (fst c, frames (snd c)) (inputs_of (snd c) e) = true.
Proof.
assert (Hpush : forall c1 : Config, push c1 [] = (fst c1, frames (snd c1)))
  by (intros (s1, [|t1| |]); reflexivity).
assert (Hserve : forall s s1 e0 stk,
          serve (Some e0) s = Ok s1 ->
          press e0 (s, stk) = Ok (s1, stk) /\
          nested_start (s, stk) (Press e0) = false).
{ intros s s1 e0 stk. destruct e0 as [k| | |]; cbn [serve press].
  - intros [= <-]. split; [reflexivity | now destruct stk].
  - cbn [nested_start fst snd].
    destruct (command (set_countdown_button s)); intros E; try discriminate;
      try rewrite E; try injection E as <-; (split; [reflexivity | now destruct stk]).
  - intros [= <-]. split; [reflexivity | now destruct stk].
  - intros [= <-]. split; [reflexivity | now destruct stk]. }
assert (Hloop : forall s ctl, ctl <> Main ->
          (forall s1, exists c1, step (s1, ctl) None = Ok c1 /\
                                 resume (s1, [ctl]) = (fst c1, frames (snd c1))) ->
          step (s, ctl) e = Ok c' ->
          tk_run (s, [ctl]) (inputs_of ctl e) = Ok (fst c', frames (snd c')) /\
          flat (s, [ctl]) (inputs_of ctl e) = true).
{ intros s ctl Hctl Hres E.
  assert (Es : exists s1, serve e s = Ok s1 /\ step (s1, ctl) None = Ok c').
  { destruct ctl; [contradiction| | |]; cbn [step] in E |- *;
      destruct (serve e s) as [s1|]; cbn [bind] in E; try discriminate;
      exists s1; (split; [reflexivity | exact E]). }
  destruct Es as (s1 & Es & E1). destruct (Hres s1) as (c1 & E1' & Hr).
  rewrite E1 in E1'. injection E1' as <-.
  destruct e as [e0|].
  - destruct (Hserve _ _ e0 [ctl] Es) as (P & N).
    replace (inputs_of ctl (Some e0)) with [Press e0; Return] by now destruct ctl.
    cbn [tk_run flat tk_step]. rewrite P, N. cbn [bind negb andb nested_start].
    now rewrite Hr.
  - injection Es as <-.
    replace (inputs_of ctl None) with [Return] by now destruct ctl.
    cbn [tk_run flat tk_step bind negb andb nested_start]. now rewrite Hr. }
destruct c as (s, [|t| |]); cbn [fst snd frames]; intros E.
- (* the main loop *)
  destruct e as [e0|].
  + cbn [inputs_of tk_run flat tk_step nested_start fst snd negb andb].
    assert (H : press e0 (s, []) = Ok (fst c', frames (snd c'))).
    { cbn [step] in E. destruct e0 as [k| | |]; cbn [press serve] in *;
        try (injection E as <-; reflexivity).
      destruct (command (set_countdown_button s)).
      - destruct (set_countdown s); cbn [bind] in *; [|discriminate].
        now injection E as <-.
      - rewrite E. cbn [bind]. now rewrite Hpush.
      - now injection E as <-.
      - now injection E as <-. }
    rewrite H. cbn [bind flat tk_run]. split; [reflexivity | now destruct e0].
  + cbn [step serve bind] in E. destruct (command (set_countdown_button s));
      injection E as <-; now split.
- apply Hloop; [discriminate | | exact E].
  intros s1. eexists. split; [reflexivity|]. cbn [resume]. apply Hpush.
- apply Hloop; [discriminate | | exact E].
  intros s1. eexists. split; [reflexivity|]. reflexivity.
- apply Hloop; [discriminate | | exact E].
  intros s1. eexists. split; [reflexivity|]. cbn [resume]. apply Hpush.
Qed.

Lemma run_is_tk_run_cd (es : list (option Event)) :
forall c c',
  run c es = Ok c' ->
  exists ins,
    tk_run (fst c, frames (snd c)) ins = Ok (fst c', frames (snd c')) /\
    flat (fst c, frames (snd c)) ins = true.
Proof.
induction es as [|e es IH]; intros c c' E.
- injection E as <-. exists []. now split.
- cbn [run] in E. destruct (step c e) as [c1|] eqn:E1; [|discriminate].
  cbn [bind] in E. destruct (IH c1 c' E) as (ins & R & F).
  destruct (step_is_tk_run_cd c c1 e E1) as (R1 & F1).
  exists (inputs_of (snd c) e ++ ins)%list.
  rewrite (tk_run_app_cd _ _ _ _ R1), (flat_app _ _ _ _ R1), F1, F. now split.
Qed.

(** *** Arming *)

(** C10, as the code has it. In every run that starts no loop inside a
    loop, whenever the Set button is bound to [set_countdown]: on a typed
    buffer its first digit is not 0, and Set stores a time of at least one
    second with zero deciseconds, binds the button to Start and clears the
    buffer; pressed in the main loop, Start then enters the loop with that
    time.  On an empty buffer Set does nothing.  Cont. after a pause, in the
    main loop, enters the loop with the stored time, which is more than zero
    but need not be a second. *)
Theorem arm_gives_at_least_one_second
  (ins : list Input) (s : State) (stk : list Control) :
tk_run (init, []) ins = Ok (s, stk) -> flat (init, []) ins = true ->
(command (set_countdown_button s) = cmd_set_countdown -> time_update s <> "" ->
 (exists k ks, time_update s = keys_text (k :: ks) /\ k <> K0) /\
 exists s1 t,
   press SetButton (s, stk) = Ok (s1, stk) /\
   set_countdown_button s1 = mkButton "Start" cmd_start_countdown /\
   time_update s1 = "" /\
   stored s1 t /\ non_negative t /\ deci_sec t = 0 /\ 10 <= deciseconds t /\
   (stk = [] ->
    exists s2, press SetButton (s1, []) = Ok (s2, [Tick t]) /\ stored s2 t)) /\
(command (set_countdown_button s) = cmd_set_countdown -> time_update s = "" ->
 press SetButton (s, stk) = Ok (s, stk)) /\
(command (set_countdown_button s) = cmd_start_countdown -> stk = [] ->
 exists s2 t,
   press SetButton (s, []) = Ok (s2, [Tick t]) /\
   stored s t /\ stored s2 t /\ 0 < deciseconds t /\
   (text (set_countdown_button s) = "Start" -> 10 <= deciseconds t)).
Proof.
intros E Hf. pose proof (tk_reachable_inv_cd ins _ E Hf) as HI.
assert (Hstart : forall t, holds t -> stored s t ->
          command (set_countdown_button s) = cmd_start_countdown ->
          exists s2, press SetButton (s, []) = Ok (s2, [Tick t]) /\ stored s2 t).
{ intros t Ht Hst Hc.
  destruct (start_countdown_enters s t Ht Hst) as (s2 & E2 & _ & _ & _ & _ & Hst2 & _).
  exists s2. cbn [press]. rewrite Hc, E2. now split. }
split; [|split].
- intros Hc Hne.
  inversion HI as
    [s0 stk0 _ Hn Hd Hb Hu | s0 stk0 t Hbtn | s0 t Hbtn | s0 t Hbtn
     | s0 t Hc' | s0 Hc' | s0 Hc']; subst;
    try (rewrite Hbtn in Hc; discriminate); try congruence.
  split.
  + destruct Hb as (ks & Hk & _ & Hhd & _).
    destruct ks as [|k ks]; [now contradiction Hne|]. exists k, ks. auto.
  + destruct (set_countdown_arms s Hb Hne) as
      (s1 & t & E1 & Ht & Hst & Hdt & Hsec & Hn' & Hb' & Hbtn & _); [lia|].
    exists s1, t. cbn [press]. rewrite Hc, E1. cbn [bind].
    split; [reflexivity|]. split; [exact Hbtn|]. split; [exact Hb'|].
    split; [exact Hst|]. split; [now apply holds_non_negative|].
    split; [lia|]. split; [lia|].
    intros ->.
    destruct (start_countdown_enters s1 t Ht Hst) as (s2 & E2 & _ & _ & _ & _ & Hst2 & _).
    exists s2. cbn [press]. rewrite Hbtn. cbn [command]. rewrite E2. now split.
- intros Hc Hempty. cbn [press]. rewrite Hc. now rewrite set_countdown_empty.
- intros Hc ->.
  inversion HI as
    [s0 stk0 Hc' | s0 stk0 t Hbtn Hn Hbuf Ht Hst Hd0 Hsec Hu
     | s0 t Hbtn Hn Hbuf Ht Hst Hpos | | | | ]; subst; try congruence.
  + destruct (Hstart t Ht Hst Hc) as (s2 & E2 & Hst2).
    exists s2, t. repeat split; try apply Hst; try apply Hst2; auto; lia.
  + destruct (Hstart t Ht Hst Hc) as (s2 & E2 & Hst2).
    exists s2, t. split; [exact E2|]. split; [exact Hst|]. split; [exact Hst2|].
    split; [exact Hpos|]. rewrite Hbtn. cbn [text]. discriminate.
Qed.

Lemma arm_gives_at_least_one_second_witness :
exists s s1 s2 t,
  tk_run (init, []) (presses [Number K9; Number K0]) = Ok (s, []) /\
  press SetButton (s, []) = Ok (s1, []) /\
  stored s1 t /\ 10 <= deciseconds t /\
  press SetButton (s1, []) = Ok (s2, [Tick t]).
Proof.
eassert (E0 : tk_run (init, []) (presses [Number K9; Number K0]) = Ok (_, []))
  by (vm_compute; reflexivity).
destruct (arm_gives_at_least_one_second _ _ _ E0)
  as ((_ & s1 & t & H1 & _ & _ & H2 & _ & _ & H3 & H4) & _).
- vm_compute. reflexivity.
- reflexivity.
- vm_compute. discriminate.
- destruct (H4 eq_refl) as (s2 & H5 & _).
  eexists. exists s1, s2, t. split; [exact E0|]. auto.
Defined.

(** *** What a start inside a loop leads to *)

(** C3. Five seconds armed and counted down to 00:00:00.0; in that
    iteration Pause and Cont. are served by the same [update()] call, so that
    [start_countdown] runs inside the suspended loop.  The inner loop alarms
    fourteen times and returns; the frame then looks ready for a new entry
    (number buttons unlocked, the button reading Set) while the outer loop
    is still suspended, and when its [update()] returns it finds 00:00:00
    and alarms fourteen times more: 28 alarm sounds in all. *)
Theorem pause_and_continue_at_zero_alarm_twice :
exists s s1 s',
  tk_run (init, []) (presses [Number K5; SetButton; SetButton] ++ returns 50)
  = Ok (s, [Tick (mkTime 0 0 0 0)]) /\
  countdown_time_label s = "00:00:00" /\ pulses s = 0%nat /\
  tk_run (s, [Tick (mkTime 0 0 0 0)]) (presses [SetButton; SetButton] ++ returns 29)
  = Ok (s1, [Tick (mkTime 0 0 0 0)]) /\
  pulses s1 = 14%nat /\ number_key s1 = true /\
  set_countdown_button s1 = mkButton "Set" cmd_set_countdown /\
  tk_run (s1, [Tick (mkTime 0 0 0 0)]) (returns 29) = Ok (s', []) /\
  pulses s' = 28%nat.
Proof.
eassert (E0 : tk_run (init, [])
                (presses [Number K5; SetButton; SetButton] ++ returns 50)
              = Ok (_, [Tick (mkTime 0 0 0 0)])) by (vm_compute; reflexivity).
match type of E0 with _ = Ok (?s0, _) =>
  eassert (E1 : tk_run (s0, [Tick (mkTime 0 0 0 0)])
                  (presses [SetButton; SetButton] ++ returns 29)
                = Ok (_, [Tick (mkTime 0 0 0 0)])) by (vm_compute; reflexivity)
end.
match type of E1 with _ = Ok (?s1, _) =>
  eassert (E2 : tk_run (s1, [Tick (mkTime 0 0 0 0)]) (returns 29) = Ok (_, []))
    by (vm_compute; reflexivity)
end.
do 3 eexists. split; [exact E0|]. split; [reflexivity|]. split; [reflexivity|].
split; [exact E1|]. split; [reflexivity|]. split; [reflexivity|].
split; [reflexivity|]. split; [exact E2|]. reflexivity.
Qed.

(** C4. Five seconds armed and counted down to 00:00:00.0; Clear is served
    in that iteration.  [clear_countdown] sets [alarm_key] to 14, the button
    to Set and the labels to 00:00:00.0, but the loop, when [update()]
    returns, still finds 00:00:00 stored, sets [alarm_key] back to 0 and the
    button blank, and sounds all fourteen alarms before it hands the frame
    back. *)
Theorem clear_at_zero_still_alarms :
exists s s1 s',
  tk_run (init, []) (presses [Number K5; SetButton; SetButton] ++ returns 50)
  = Ok (s, [Tick (mkTime 0 0 0 0)]) /\
  countdown_time_label s = "00:00:00" /\ pulses s = 0%nat /\
  tk_step (s, [Tick (mkTime 0 0 0 0)]) (Press ClearButton)
  = Ok (clear_countdown s, [Tick (mkTime 0 0 0 0)]) /\
  alarm_key (clear_countdown s) = 14 /\
  tk_step (clear_countdown s, [Tick (mkTime 0 0 0 0)]) Return = Ok (s1, [AlarmOn]) /\
  alarm_key s1 = 0 /\ set_countdown_button s1 = mkButton "" cmd_nothing /\
  pulses s1 = 1%nat /\
  tk_run (s1, [AlarmOn]) (returns 28) = Ok (s', []) /\
  pulses s' = 14%nat.
Proof.
eassert (E0 : tk_run (init, [])
                (presses [Number K5; SetButton; SetButton] ++ returns 50)
              = Ok (_, [Tick (mkTime 0 0 0 0)])) by (vm_compute; reflexivity).
match type of E0 with _ = Ok (?s0, _) =>
  eassert (E1 : tk_step (clear_countdown s0, [Tick (mkTime 0 0 0 0)]) Return
                = Ok (_, [AlarmOn])) by (vm_compute; reflexivity)
end.
match type of E1 with _ = Ok (?s1, _) =>
  eassert (E2 : tk_run (s1, [AlarmOn]) (returns 28) = Ok (_, []))
    by (vm_compute; reflexivity)
end.
do 3 eexists. split; [exact E0|]. split; [reflexivity|]. split; [reflexivity|].
split; [reflexivity|]. split; [reflexivity|]. split; [exact E1|].
split; [reflexivity|]. split; [reflexivity|]. split; [reflexivity|].
split; [exact E2|]. reflexivity.
Qed.

(** C8. One second armed and counted down to 00:00:00.5; Pause and Cont.
    are served by the same [update()] call, so that [start_countdown] runs
    inside the suspended loop.  The inner loop counts down to zero, alarms
    and returns, leaving the number buttons unlocked; the outer loop goes on
    from 00:00:00.5.  A digit typed in the iteration in which it shows
    00:00:00.0 replaces the stored text, the test for zero fails, and the
    borrow runs through seconds, minutes and hours: the loop stores and
    shows -1:59:59. *)
Theorem countdown_goes_below_zero :
exists s,
  tk_run (init, [])
    (presses [Number K1; SetButton; SetButton] ++ returns 5 ++
     presses [SetButton; SetButton] ++ returns 5 ++ returns 29 ++
     returns 5 ++ presses [Number K7] ++ returns 1)
  = Ok (s, [Tick (mkTime (-1) 59 59 9)]) /\
  updated_time s = "-1:59:59" /\ updated_deci s = 9 /\
  countdown_time_label s = "-1:59:59" /\
  countdown_mini_time_label s = ".9".
Proof.
eexists. split; [vm_compute; reflexivity|]. repeat split.
Qed.

(** *** The display *)

Lemma push_fst (c : Config) (stk : list Control) : fst (push c stk) = fst c.
Proof. now destruct c as (s, [|t| |]). Qed.

Lemma number_buttons_mini (num : Z) (s : State) :
countdown_mini_time_label (number_buttons num s) = countdown_mini_time_label s.
Proof.
unfold number_buttons.
repeat match goal with
       | |- context [if ?b then _ else _] => destruct b
       end; try reflexivity;
  match goal with
  | |- countdown_mini_time_label (format_number_inputs ?x) = _ =>
      destruct (format_number_inputs_frame x) as (_ & _ & _ & _ & _ & -> & _)
  end; reflexivity.
Qed.

Lemma set_countdown_mini (s s' : State) :
set_countdown s = Ok s' ->
countdown_mini_time_label s' = countdown_mini_time_label s /\
updated_deci s' = updated_deci s.
Proof.
unfold set_countdown. destruct (String.eqb (time_update s) ""); [now intros [= <-]|].
fields.
destruct (py_int (Py.slice 0 2 (updated_time s))) as [h|]; [|discriminate].
destruct (py_int (Py.slice 3 5 (updated_time s))) as [m|]; [|discriminate].
destruct (py_int (Py.slice 6 8 (updated_time s))) as [sec|]; [|discriminate].
cbn [bind]. destruct ((sec >? 59) || (m >? 59))%bool; intros [= <-]; now split.
Qed.

Lemma countdown_loop_mini (s : State) (t : TimeCode) :
mini_ok s -> mini_ok (fst (countdown_loop s t)).
Proof.
intros H. unfold countdown_loop. destruct (countdown_key s); [reflexivity | exact H].
Qed.

Lemma alarm_loop_mini (s : State) : mini_ok s -> mini_ok (fst (alarm_loop s)).
Proof. intros H. unfold alarm_loop. destruct (alarm_key s <? 14); exact H. Qed.

Lemma start_countdown_mini (s : State) (c : Config) :
start_countdown s = Ok c -> mini_ok (fst c).
Proof.
unfold start_countdown. intros H.
destruct (Py.len _ <? 9);
  repeat match type of H with
         | context [bind ?r _] => destruct r; cbn [bind] in H
         end; try discriminate;
  match type of H with
  | Ok ?x = Ok ?y => assert (H' : x = y) by congruence
  end; rewrite <- H'; reflexivity.
Qed.

(** Whatever is pressed and however the loops are nested, as long as no
    handler fails the two labels show the stored time. *)
Lemma tk_step_display (n n' : Nest) (i : Input) :
label_ok (fst n) -> mini_ok (fst n) -> tk_step n i = Ok n' ->
label_ok (fst n') /\ mini_ok (fst n').
Proof.
destruct n as (s, stk). cbn [fst]. intros HL HM.
destruct i as [[k| | |]|]; cbn [tk_step press resume].
- intros [= <-]. cbn [fst]. split; [now apply number_buttons_label_ok|].
  unfold mini_ok. rewrite number_buttons_mini.
  destruct (number_buttons_frame (key_num k) s) as (_ & _ & -> & _). exact HM.
- destruct (command (set_countdown_button s)) eqn:Hc.
  + destruct (set_countdown s) as [s1|] eqn:E1; cbn [bind]; [|discriminate].
    intros [= <-]. cbn [fst]. split; [now apply (set_countdown_label_ok s)|].
    destruct (set_countdown_mini s s1 E1) as (A & B). unfold mini_ok. now rewrite A, B.
  + destruct (start_countdown s) as [c|] eqn:E1; cbn [bind]; [|discriminate].
    intros [= <-]. rewrite push_fst.
    split; [now apply (start_countdown_label_ok s) | now apply (start_countdown_mini s)].
  + intros [= <-]. cbn [fst]. split; [|exact HM]. left.
    destruct HL as [H | (_ & _ & [H | H])]; [exact H | congruence | congruence].
  + intros [= <-]. now split.
- intros [= <-]. cbn [fst]. split; [|reflexivity]. right. repeat split. now left.
- intros [= <-]. cbn [fst]. split; [|reflexivity]. right. repeat split. now left.
- intros [= <-]. destruct stk as [|[|t| |] stk]; try rewrite push_fst; cbn [fst].
  + now split.
  + now split.
  + split; [now apply after_update_label_ok|].
    unfold after_update. destruct (decrement (updated_time s) t).
    * now apply countdown_loop_mini.
    * now apply alarm_loop_mini.
  + split; [|exact HM]. now apply (label_ok_ext s).
  + split; [now apply alarm_loop_label_ok | now apply alarm_loop_mini].
Qed.

Lemma tk_run_display (ins : list Input) :
forall n n',
  label_ok (fst n) -> mini_ok (fst n) -> tk_run n ins = Ok n' ->
  label_ok (fst n') /\ mini_ok (fst n').
Proof.
induction ins as [|i ins IH]; intros n n' HL HM E.
- injection E as <-. now split.
- cbn [tk_run] in E. destruct (tk_step n i) as [n1|] eqn:E1; [|discriminate].
  cbn [bind] in E. destruct (tk_step_display n n1 i HL HM E1) as (HL1 & HM1).
  now apply (IH n1 n').
Qed.

Lemma tk_reachable_display (ins : list Input) (s : State) (stk : list Control) :
tk_run (init, []) ins = Ok (s, stk) -> label_ok s /\ mini_ok s.
Proof.
intros E. apply (tk_run_display ins (init, []) (s, stk)); auto.
- apply init_label_ok.
- reflexivity.
Qed.

(** The labels while a time is armed, running or paused. *)
Lemma display_of_stored (s : State) (t : TimeCode) :
label_ok s -> mini_ok s -> stored s t ->
command (set_countdown_button s) = cmd_start_countdown \/
command (set_countdown_button s) = cmd_pause_countdown ->
countdown_time_label s = time_text t /\
countdown_mini_time_label s = "." ++ Py.str (deci_sec t).
Proof.
intros HL HM (U & D) Hc. unfold mini_ok in HM. rewrite HM, D, <- U.
split; [|reflexivity].
destruct HL as [H | (_ & _ & [H | H])]; [exact H | |]; destruct Hc; congruence.
Qed.

(** X16. In every run that starts no loop inside a loop, whatever is
    pressed and however many presses one [update()] call serves, no handler
    of the countdown raises (every [int()] call gets a text it can read); the
    digit buffer is the text of at most six number keys of which the first
    is not 0; whenever a time is armed, running or paused (the Set button
    bound to start or pause) both labels show the stored time, which has no
    negative field; and the time held by a loop suspended in [update()] has
    no negative field. *)
Theorem countdown_always_consistent (ins : list Input) :
flat (init, []) ins = true ->
exists (s : State) (stk : list Control),
  tk_run (init, []) ins = Ok (s, stk) /\
  (exists ks : list Key,
     time_update s = keys_text ks /\ (List.length ks <= 6)%nat /\ hd K1 ks <> K0) /\
  (command (set_countdown_button s) = cmd_start_countdown \/
   command (set_countdown_button s) = cmd_pause_countdown ->
   exists t, stored s t /\ non_negative t /\
             countdown_time_label s = time_text t /\
             countdown_mini_time_label s = "." ++ Py.str (deci_sec t)) /\
  (forall t, In (Tick t) stk -> non_negative t).
Proof.
intros Hf. destruct (tk_run_inv_cd ins _ tk_init_inv_cd Hf) as ((s, stk) & E & HI).
exists s, stk. split; [exact E|].
assert (Hstk : forall t, In (Tick t) stk -> non_negative t).
{ destruct (stack_shape s stk HI) as [-> | [(t0 & -> & Ht) | [-> | ->]]];
    intros t Hin; cbn [In] in Hin; try contradiction;
    destruct Hin as [H | H]; try contradiction; try discriminate H.
  injection H as <-. now apply holds_non_negative. }
cut ((exists ks : list Key,
        time_update s = keys_text ks /\ (List.length ks <= 6)%nat /\ hd K1 ks <> K0) /\
     (command (set_countdown_button s) = cmd_start_countdown \/
      command (set_countdown_button s) = cmd_pause_countdown ->
      exists t, stored s t /\ non_negative t /\
                countdown_time_label s = time_text t /\
                countdown_mini_time_label s = "." ++ Py.str (deci_sec t))).
{ intros (A & B). auto. }
destruct (tk_reachable_display ins s stk E) as (HL & HM).
assert (Hempty : time_update s = "" ->
          exists ks : list Key,
            time_update s = keys_text ks /\ (List.length ks <= 6)%nat /\ hd K1 ks <> K0).
{ intros ->. exists []. cbn. repeat split; [lia | discriminate]. }
assert (Hbuf : buffer_ok s ->
          exists ks : list Key,
            time_update s = keys_text ks /\ (List.length ks <= 6)%nat /\ hd K1 ks <> K0).
{ intros (ks & A & B & C & _). eauto. }
assert (Hshow : forall t, holds t -> stored s t ->
          command (set_countdown_button s) = cmd_start_countdown \/
          command (set_countdown_button s) = cmd_pause_countdown ->
          exists t, stored s t /\ non_negative t /\
                    countdown_time_label s = time_text t /\
                    countdown_mini_time_label s = "." ++ Py.str (deci_sec t)).
{ intros t Ht Hst Hcmd. exists t. split; [exact Hst|].
  split; [now apply holds_non_negative|]. now apply display_of_stored. }
inversion HI as
  [s0 stk0 Hc Hn Hd Hb Hu | s0 stk0 t Hbtn Hn Hbuf0 Ht Hst Hd0 Hsec Hu
   | s0 t Hbtn Hn Hbuf0 Ht Hst Hpos | s0 t Hbtn Hn Hbuf0 Hk Ht Hst
   | s0 t Hc Hk Hn Hbuf0 Ht Hst | s0 Hc Ha Hd Hb | s0 Hc Ha Hd Hb]; subst;
  (split; [auto|]); eauto;
  intros [Hcmd | Hcmd]; congruence.
Qed.

Lemma countdown_always_consistent_witness :
exists s t,
  tk_run (init, [])
    (presses [Number K7; Number K5; SetButton; SetButton] ++ returns 4 ++
     presses [SetButton; Number K3] ++ returns 2)
  = Ok (s, []) /\
  stored s t /\ countdown_time_label s = time_text t /\
  countdown_mini_time_label s = "." ++ Py.str (deci_sec t).
Proof.
destruct (countdown_always_consistent
            (presses [Number K7; Number K5; SetButton; SetButton] ++ returns 4 ++
             presses [SetButton; Number K3] ++ returns 2))
  as (s & stk & E & _ & H & _).
- vm_compute. reflexivity.
- assert (Es : stk = [] /\ command (set_countdown_button s) = cmd_start_countdown).
  { vm_compute in E. injection E as <- <-. now split. }
  destruct Es as (-> & Hc). destruct (H (or_introl Hc)) as (t & A & _ & B & C).
  exists s, t. auto.
Defined.

(** *** Arming the time typed *)

(** Set on the digits typed with the keys [ks], the button bound to
    [set_countdown]. *)
Lemma arm_typed_tk (s : State) (stk : list Control) (ks : list Key) :
tk_inv (s, stk) -> command (set_countdown_button s) = cmd_set_countdown ->
time_update s = keys_text ks -> ks <> [] ->
exists s1 t,
  press SetButton (s, stk) = Ok (s1, stk) /\
  holds t /\ stored s1 t /\ deciseconds t = 10 * typed_seconds ks /\
  set_countdown_button s1 = mkButton "Start" cmd_start_countdown /\
  time_update s1 = "" /\ pulses s1 = pulses s.
Proof.
intros HI Hc Hk Hks.
assert (Hne : time_update s <> "").
{ rewrite Hk. intros E0. now apply keys_text_nil in E0. }
assert (Hb : buffer_ok s /\ updated_deci s = 0).
{ inversion HI as
    [s0 stk0 _ Hn Hd Hb Hu | s0 stk0 t Hbtn | s0 t Hbtn | s0 t Hbtn
     | s0 t Hc' | s0 Hc' | s0 Hc']; subst;
    try (rewrite Hbtn in Hc; discriminate); try congruence. now split. }
destruct Hb as ((ks' & Hk' & Hlen & _ & Hprev) & Hd).
assert (Hlen' : (List.length ks <= 6)%nat).
{ rewrite <- keys_text_length, <- Hk, Hk', keys_text_length. exact Hlen. }
assert (Hks' : ks' <> []) by (intros ->; now apply Hne).
specialize (Hprev Hks'). rewrite <- Hk', Hk in Hprev.
destruct (preview_value ks Hlen') as (Ev & Hv). rewrite Ev in Hprev.
destruct (set_countdown_total s _ _ _ Hne Hprev)
  as (s1 & t & E1 & Ht & Hst & Hdt & Htot & Hbtn & Hlog);
  try (Z.div_mod_to_equations; lia).
exists s1, t. cbn [press]. rewrite Hc, E1. cbn [bind].
split; [reflexivity|]. split; [exact Ht|]. split; [exact Hst|].
split; [unfold deciseconds, typed_seconds; rewrite Hdt, Hd; lia|].
split; [exact Hbtn|]. split.
- revert E1. unfold set_countdown.
  destruct (String.eqb (time_update s) "") eqn:Et;
    [apply String.eqb_eq in Et; contradiction|].
  fields.
  destruct (py_int (Py.slice 0 2 (updated_time s))) as [h|]; [|discriminate].
  destruct (py_int (Py.slice 3 5 (updated_time s))) as [m|]; [|discriminate].
  destruct (py_int (Py.slice 6 8 (updated_time s))) as [sec|]; [|discriminate].
  cbn [bind]. destruct ((sec >? 59) || (m >? 59))%bool; intros [= <-]; reflexivity.
- unfold pulses. rewrite Hlog. reflexivity.
Qed.

(** X12. In every run that starts no loop inside a loop, a frame that holds
    typed digits has its Set button bound to [set_countdown] or, during the
    alarm, to nothing.  In the first case Set arms exactly the time typed:
    with the last two digits read as seconds, the two before as minutes and
    the rest as hours, the stored time has as many seconds in total, also
    when the fold moves seconds or minutes above 59 into the next field, and
    zero deciseconds; the buffer is emptied and the button reads Start.  In
    the second case Set does nothing. *)
Theorem set_countdown_keeps_typed_seconds
  (ins : list Input) (s : State) (stk : list Control) (ks : list Key) :
tk_run (init, []) ins = Ok (s, stk) -> flat (init, []) ins = true ->
time_update s = keys_text ks -> ks <> [] ->
(command (set_countdown_button s) = cmd_set_countdown /\
 exists s1 t,
   press SetButton (s, stk) = Ok (s1, stk) /\
   stored s1 t /\ non_negative t /\
   deciseconds t = 10 * typed_seconds ks /\
   set_countdown_button s1 = mkButton "Start" cmd_start_countdown /\
   time_update s1 = "" /\ pulses s1 = pulses s) \/
(command (set_countdown_button s) = cmd_nothing /\
 (stk = [AlarmOn] \/ stk = [AlarmOff]) /\
 press SetButton (s, stk) = Ok (s, stk)).
Proof.
intros E Hf Hk Hks. pose proof (tk_reachable_inv_cd ins _ E Hf) as HI.
assert (Hne : time_update s <> "").
{ rewrite Hk. intros E0. now apply keys_text_nil in E0. }
assert (Hcases :
          command (set_countdown_button s) = cmd_set_countdown \/
          (command (set_countdown_button s) = cmd_nothing /\
           (stk = [AlarmOn] \/ stk = [AlarmOff]))).
{ inversion HI; subst; try contradiction; auto. }
destruct Hcases as [Hc | (Hc & Hstk)].
- left. split; [exact Hc|].
  destruct (arm_typed_tk s stk ks HI Hc Hk Hks)
    as (s1 & t & P & Ht & Hst & D & B & T & L).
  exists s1, t. split; [exact P|]. split; [exact Hst|].
  split; [now apply holds_non_negative|]. auto.
- right. split; [exact Hc|]. split; [exact Hstk|]. cbn [press]. now rewrite Hc.
Qed.

Lemma set_countdown_keeps_typed_seconds_witness :
exists s s1 t,
  tk_run (init, []) (presses [Number K5; Number K9; Number K6; Number K0]) = Ok (s, []) /\
  press SetButton (s, []) = Ok (s1, []) /\
  stored s1 t /\ deciseconds t = 10 * (59 * 60 + 60).
Proof.
eassert (E0 : tk_run (init, []) (presses [Number K5; Number K9; Number K6; Number K0])
              = Ok (_, [])) by (vm_compute; reflexivity).
destruct (set_countdown_keeps_typed_seconds _ _ _ [K5; K9; K6; K0] E0)
  as [(_ & s1 & t & R & S1 & _ & D & _) | (C & _)].
- vm_compute. reflexivity.
- reflexivity.
- discriminate.
- eexists. exists s1, t. split; [exact E0|]. split; [exact R|].
  split; [exact S1 | exact D].
- discriminate C.
Defined.

(** *** The running loop *)

(** The frame while a loop counts for it, in a run that starts no loop
    inside a loop: no other loop is suspended beneath, the button is bound
    to Pause, and the time the loop holds is stored and shown. *)
Lemma running_frame
  (ins : list Input) (s : State) (t : TimeCode) (stk : list Control) :
tk_run (init, []) ins = Ok (s, Tick t :: stk) -> flat (init, []) ins = true ->
countdown_key s = true \/ command (set_countdown_button s) = cmd_pause_countdown ->
stk = [] /\ countdown_key s = true /\
command (set_countdown_button s) = cmd_pause_countdown /\
number_key s = false /\ time_update s = "" /\ holds t /\ stored s t /\
label_ok s /\ mini_ok s /\
countdown_time_label s = time_text t /\
countdown_mini_time_label s = "." ++ Py.str (deci_sec t).
Proof.
intros E Hf Hrun. pose proof (tk_reachable_inv_cd ins _ E Hf) as HI.
destruct (tk_reachable_display ins _ _ E) as (HL & HM).
assert (Hstop : stopped_under s (Tick t :: stk) -> countdown_key s = false).
{ intros [H | [(t' & _ & _ & H) | ([H | H] & _)]]; try discriminate H. exact H. }
inversion HI as
  [s0 stk0 Hc Hn Hd Hb Hu | s0 stk0 t0 Hbtn Hn Hbuf Ht Hst Hd0 Hsec Hu
   | s0 t0 Hbtn Hn Hbuf Ht Hst Hpos | s0 t0 Hbtn Hn Hbuf Hk Ht Hst
   | s0 t0 Hc Hk Hn Hbuf Ht Hst | s0 Hc Ha Hd Hb | s0 Hc Ha Hd Hb]; subst.
- apply Hstop in Hu. destruct Hrun; congruence.
- apply Hstop in Hu. rewrite Hbtn in Hrun. destruct Hrun; [congruence | discriminate].
- rewrite Hbtn in Hrun. destruct Hrun; [congruence | discriminate].
- destruct (display_of_stored s t HL HM Hst (or_intror Hc)) as (A & B).
  repeat (split; [assumption || reflexivity|]). exact B.
Qed.

Lemma start_countdown_button (s : State) (c : Config) :
start_countdown s = Ok c ->
set_countdown_button (fst c) = mkButton "Pause" cmd_pause_countdown.
Proof.
unfold start_countdown. intros H.
destruct (Py.len _ <? 9);
  repeat match type of H with
         | context [bind ?r _] => destruct r; cbn [bind] in H
         end; try discriminate;
  match type of H with
  | Ok ?x = Ok ?y => assert (H' : x = y) by congruence
  end; rewrite <- H'; reflexivity.
Qed.

(** X10. In a run that starts no loop inside a loop, while the loop counts
    with time left: Clear or Back, served by [update()] with nothing after
    it, ends the countdown at once.  When [update()] returns the loop is
    left without a further iteration, the frame is exactly the one
    [clear_countdown] makes, showing 00:00:00.0 with the button reading Set,
    and no alarm sounds. *)
Theorem countdown_clear_stops_running
  (ins : list Input) (s : State) (t : TimeCode) (stk : list Control) (e : Event) :
tk_run (init, []) ins = Ok (s, Tick t :: stk) -> flat (init, []) ins = true ->
countdown_key s = true -> 0 < deciseconds t ->
e = ClearButton \/ e = BackButton ->
stk = [] /\
tk_run (s, [Tick t]) [Press e; Return] = Ok (clear_countdown s, []) /\
pulses (clear_countdown s) = pulses s /\
countdown_key (clear_countdown s) = false /\
time_update (clear_countdown s) = "" /\
countdown_time_label (clear_countdown s) = "00:00:00" /\
countdown_mini_time_label (clear_countdown s) = ".0" /\
set_countdown_button (clear_countdown s) = mkButton "Set" cmd_set_countdown.
Proof.
intros E Hf Hk Hpos He.
destruct (running_frame ins s t stk E Hf (or_introl Hk))
  as (-> & _ & Hc & Hn & Hbuf & Ht & (Hu & Hd) & _).
split; [reflexivity|]. split; [|repeat split].
assert (P : press e (s, [Tick t]) = Ok (clear_countdown s, [Tick t]))
  by (destruct He as [-> | ->]; reflexivity).
cbn [tk_run tk_step]. rewrite P. cbn [bind resume].
rewrite (after_update_stopped (clear_countdown s) t Ht Hu Hpos eq_refl).
reflexivity.
Qed.

Lemma countdown_clear_stops_running_witness :
exists s,
  tk_run (init, []) (presses [Number K5; SetButton; SetButton] ++ returns 20)
  = Ok (s, [Tick (mkTime 0 0 3 0)]) /\
  tk_run (s, [Tick (mkTime 0 0 3 0)]) [Press ClearButton; Return]
  = Ok (clear_countdown s, []).
Proof.
eassert (E0 : tk_run (init, [])
                (presses [Number K5; SetButton; SetButton] ++ returns 20)
              = Ok (_, [Tick (mkTime 0 0 3 0)])) by (vm_compute; reflexivity).
destruct (countdown_clear_stops_running _ _ _ _ ClearButton E0) as (_ & R & _).
- vm_compute. reflexivity.
- reflexivity.
- vm_compute. reflexivity.
- now left.
- eexists. split; [exact E0 | exact R].
Defined.

(** X8. In a run that starts no loop inside a loop, while the loop counts
    with time left at the time [t]: Pause, served by [update()] with nothing
    after it, ends the loop when [update()] returns, with [t] stored and
    shown and the button reading Cont.; returns of [update()] while paused
    change nothing; Cont. then enters the loop at exactly [t], stored and
    shown, the button reading Pause.  The decisecond being counted when
    Pause was pressed is not taken off, and no alarm sounds. *)
Theorem countdown_pause_then_continue
  (ins : list Input) (s : State) (t : TimeCode) (stk : list Control) :
tk_run (init, []) ins = Ok (s, Tick t :: stk) -> flat (init, []) ins = true ->
command (set_countdown_button s) = cmd_pause_countdown -> 0 < deciseconds t ->
exists s2,
  stk = [] /\
  tk_run (s, [Tick t]) [Press SetButton; Return] = Ok (pause_countdown s, []) /\
  set_countdown_button (pause_countdown s) = mkButton "Cont." cmd_start_countdown /\
  stored (pause_countdown s) t /\
  countdown_time_label (pause_countdown s) = time_text t /\
  countdown_mini_time_label (pause_countdown s) = "." ++ Py.str (deci_sec t) /\
  (forall k, tk_run (pause_countdown s, []) (returns k) = Ok (pause_countdown s, [])) /\
  tk_step (pause_countdown s, []) (Press SetButton) = Ok (s2, [Tick t]) /\
  set_countdown_button s2 = mkButton "Pause" cmd_pause_countdown /\
  stored s2 t /\
  countdown_time_label s2 = time_text t /\
  countdown_mini_time_label s2 = "." ++ Py.str (deci_sec t) /\
  pulses s2 = pulses s.
Proof.
intros E Hf Hc Hpos.
destruct (running_frame ins s t stk E Hf (or_intror Hc))
  as (-> & Hk & _ & Hn & Hbuf & Ht & Hst & _ & _ & A & B).
assert (Hst' : stored (pause_countdown s) t) by exact Hst.
destruct (start_countdown_enters (pause_countdown s) t Ht Hst')
  as (s2 & E2 & C2 & _ & _ & _ & S2 & _ & L2 & A2).
pose proof (start_countdown_button _ _ E2) as B2.
pose proof (start_countdown_mini _ _ E2) as M2.
cbn [fst] in B2, M2.
exists s2. split; [reflexivity|]. split.
{ cbn [tk_run tk_step press]. rewrite Hc. cbn [bind resume].
  rewrite (after_update_stopped (pause_countdown s) t Ht (proj1 Hst) Hpos eq_refl).
  reflexivity. }
split; [reflexivity|]. split; [exact Hst'|]. split; [exact A|]. split; [exact B|].
split.
{ intros k. induction k as [|k IH]; [reflexivity|].
  change (returns (S k)) with (Return :: returns k).
  cbn [tk_run tk_step bind resume]. exact IH. }
split.
{ cbn [tk_step press]. change (command (set_countdown_button (pause_countdown s)))
    with cmd_start_countdown. cbv iota. rewrite E2. reflexivity. }
split; [exact B2|]. split; [exact S2|]. split; [exact A2|].
split.
{ unfold mini_ok in M2. rewrite M2. now rewrite (proj2 S2). }
unfold pulses. rewrite L2. reflexivity.
Qed.

Lemma countdown_pause_then_continue_witness :
exists s s2,
  tk_run (init, []) (presses [Number K5; SetButton; SetButton] ++ returns 45)
  = Ok (s, [Tick (mkTime 0 0 0 5)]) /\
  tk_run (s, [Tick (mkTime 0 0 0 5)]) [Press SetButton; Return]
  = Ok (pause_countdown s, []) /\
  stored (pause_countdown s) (mkTime 0 0 0 5) /\
  tk_step (pause_countdown s, []) (Press SetButton) = Ok (s2, [Tick (mkTime 0 0 0 5)]).
Proof.
eassert (E0 : tk_run (init, [])
                (presses [Number K5; SetButton; SetButton] ++ returns 45)
              = Ok (_, [Tick (mkTime 0 0 0 5)])) by (vm_compute; reflexivity).
destruct (countdown_pause_then_continue _ _ _ _ E0)
  as (s2 & _ & P & _ & S1 & _ & _ & _ & R & _).
- vm_compute. reflexivity.
- reflexivity.
- vm_compute. reflexivity.
- eexists. exists s2. split; [exact E0|]. split; [exact P|].
  split; [exact S1 | exact R].
Defined.

(** *** Counting down to the alarm *)

(** The return of [update()] in a loop that has not been stopped, with
    time left. *)
Lemma resume_counts_down (s : State) (t : TimeCode) (stk : list Control) :
countdown_key s = true -> holds t -> updated_time s = time_text t ->
0 < deciseconds t ->
exists s1 t1,
  resume (s, Tick t :: stk) = (s1, Tick t1 :: stk) /\
  countdown_key s1 = true /\ holds t1 /\ stored s1 t1 /\
  deciseconds t1 = deciseconds t - 1 /\ pulses s1 = pulses s /\
  countdown_time_label s1 = time_text t1 /\
  countdown_mini_time_label s1 = "." ++ Py.str (deci_sec t1).
Proof.
intros Hk Ht Hu Hpos. cbn [resume]. unfold after_update. rewrite Hu.
pose proof (decrement_holds t Ht) as Hdec.
destruct (decrement (time_text t) t) as [t1|]; [|lia].
unfold countdown_loop. rewrite Hk. cbn [push fst snd].
do 2 eexists. split; [reflexivity|]. fields.
split; [exact Hk|]. split; [apply Hdec|]. split; [split; reflexivity|].
split; [apply Hdec|]. repeat split.
Qed.

(** The return of [update()] in a loop that holds no decisecond while the
    stored text is 00:00:00: the alarm begins. *)
Lemma resume_at_zero (s : State) (t : TimeCode) (stk : list Control) :
updated_time s = "00:00:00" -> deci_sec t = 0 ->
resume (s, Tick t :: stk)
= (emit (Flash true)
     (sounds 3 (with_set_button (mkButton "" cmd_nothing) (with_alarm_key 0 s))),
   AlarmOn :: stk).
Proof.
intros Hu Hd. cbn [resume]. unfold after_update, decrement. rewrite Hu, Hd.
reflexivity.
Qed.

Lemma tk_returns_count_down (n : nat) :
forall (s : State) (t : TimeCode) (stk : list Control),
  countdown_key s = true -> holds t -> stored s t ->
  countdown_time_label s = time_text t ->
  countdown_mini_time_label s = "." ++ Py.str (deci_sec t) ->
  Z.of_nat n <= deciseconds t ->
  exists s' t',
    tk_run (s, Tick t :: stk) (returns n) = Ok (s', Tick t' :: stk) /\
    countdown_key s' = true /\ holds t' /\ stored s' t' /\
    deciseconds t' = deciseconds t - Z.of_nat n /\ pulses s' = pulses s /\
    countdown_time_label s' = time_text t' /\
    countdown_mini_time_label s' = "." ++ Py.str (deci_sec t').
Proof.
induction n as [|n IH]; intros s t stk Hk Ht Hst A B Hle.
- exists s, t. split; [reflexivity|]. repeat (split; [assumption || lia|]). exact B.
- destruct (resume_counts_down s t stk Hk Ht (proj1 Hst))
    as (s1 & t1 & E & K1 & Ht1 & Hst1 & D1 & P1 & A1 & B1); [lia|].
  destruct (IH s1 t1 stk K1 Ht1 Hst1 A1 B1) as (s' & t' & R & K' & Ht' & Hst' & D' & P' & AB');
    [lia|].
  exists s', t'. change (returns (S n)) with (Return :: returns n).
  cbn [tk_run tk_step bind]. rewrite E.
  split; [exact R|]. split; [exact K'|]. split; [exact Ht'|]. split; [exact Hst'|].
  split; [lia|]. split; [congruence | exact AB'].
Qed.

(** X13. In a run that starts no loop inside a loop, from the main loop with
    the digits of the keys [ks] typed: Set, Start and nothing pressed
    afterwards hold a positive time for every number of iterations below ten
    per typed second, show 00:00:00.0 after exactly ten iterations per typed
    second with no alarm sound before, and the return of [update()] in that
    iteration enters the alarm loop with the first alarm sound. *)
Theorem countdown_runs_for_typed_seconds
  (ins : list Input) (s : State) (ks : list Key) :
tk_run (init, []) ins = Ok (s, []) -> flat (init, []) ins = true ->
command (set_countdown_button s) = cmd_set_countdown ->
time_update s = keys_text ks -> ks <> [] ->
(forall n : nat, Z.of_nat n < 10 * typed_seconds ks ->
   exists s1 t1,
     tk_run (s, []) (presses [SetButton; SetButton] ++ returns n)
     = Ok (s1, [Tick t1]) /\
     0 < deciseconds t1) /\
exists s' s'',
  tk_run (s, [])
    (presses [SetButton; SetButton] ++ returns (Z.to_nat (10 * typed_seconds ks)))
  = Ok (s', [Tick (mkTime 0 0 0 0)]) /\
  countdown_time_label s' = "00:00:00" /\ countdown_mini_time_label s' = ".0" /\
  pulses s' = pulses s /\
  tk_step (s', [Tick (mkTime 0 0 0 0)]) Return = Ok (s'', [AlarmOn]) /\
  alarm_key s'' = 0 /\ pulses s'' = S (pulses s).
Proof.
intros E Hf Hc Hk Hks. pose proof (tk_reachable_inv_cd ins _ E Hf) as HI.
destruct (arm_typed_tk s [] ks HI Hc Hk Hks) as (s1 & t & E1 & Ht & Hst & D & B & _ & P1).
destruct (start_countdown_enters s1 t Ht Hst)
  as (s2 & E2 & _ & K2 & _ & _ & Hst2 & _ & L2 & A2).
pose proof (start_countdown_mini _ _ E2) as M2. cbn [fst] in M2.
assert (B2 : countdown_mini_time_label s2 = "." ++ Py.str (deci_sec t)).
{ unfold mini_ok in M2. rewrite M2. now rewrite (proj2 Hst2). }
assert (E2' : press SetButton (s1, []) = Ok (s2, [Tick t])).
{ cbn [press]. rewrite B. cbn [command]. rewrite E2. reflexivity. }
assert (P2 : pulses s2 = pulses s).
{ rewrite <- P1. unfold pulses. rewrite L2. reflexivity. }
assert (R0 : forall n,
          tk_run (s, []) (presses [SetButton; SetButton] ++ returns n)
          = tk_run (s2, [Tick t]) (returns n)).
{ intros n. cbn [presses map app tk_run tk_step]. rewrite E1. cbn [bind].
  rewrite E2'. reflexivity. }
assert (Hpos : 0 <= deciseconds t) by (unfold holds, deciseconds in *; lia).
split.
- intros n Hn.
  destruct (tk_returns_count_down n s2 t [] K2 Ht Hst2 A2 B2)
    as (s' & t' & R & _ & _ & _ & D' & _); [lia|].
  exists s', t'. rewrite R0. split; [exact R | lia].
- destruct (tk_returns_count_down (Z.to_nat (10 * typed_seconds ks)) s2 t [] K2 Ht Hst2 A2 B2)
    as (s' & t' & R & _ & Ht' & Hst' & D' & P' & A' & B'); [lia|].
  assert (Et : t' = mkTime 0 0 0 0) by (apply holds_zero; [exact Ht' | lia]).
  subst t'.
  pose proof (resume_at_zero s' (mkTime 0 0 0 0) [] (proj1 Hst') eq_refl) as Ea.
  eexists s', _. rewrite R0. split; [exact R|]. split; [exact A'|]. split; [exact B'|].
  split; [congruence|]. cbn [tk_step]. rewrite Ea.
  split; [reflexivity|]. split; [reflexivity|].
  change (pulses (emit (Flash true)
                    (sounds 3 (with_set_button (mkButton "" cmd_nothing)
                                 (with_alarm_key 0 s')))))
    with (S (pulses s')).
  congruence.
Qed.

Lemma countdown_runs_for_typed_seconds_witness :
exists s s' s'',
  tk_run (init, []) (presses [Number K3]) = Ok (s, []) /\
  tk_run (s, []) (presses [SetButton; SetButton] ++ returns 30)
  = Ok (s', [Tick (mkTime 0 0 0 0)]) /\
  tk_step (s', [Tick (mkTime 0 0 0 0)]) Return = Ok (s'', [AlarmOn]).
Proof.
eassert (E0 : tk_run (init, []) (presses [Number K3]) = Ok (_, []))
  by (vm_compute; reflexivity).
destruct (countdown_runs_for_typed_seconds _ _ [K3] E0)
  as (_ & s' & s'' & R & _ & _ & _ & A & _).
- vm_compute. reflexivity.
- reflexivity.
- reflexivity.
- discriminate.
- eexists. exists s', s''. split; [exact E0|]. split; [exact R | exact A].
Defined.

(** *** The alarm *)

(** Presses of Set, Clear and Back served while the stored text is 00:00:00
    and the buffer is empty, none of them starting a loop inside a loop. *)
Lemma control_presses_at_zero (es : list Event) :
forall (s : State) (stk : list Control),
  updated_time s = "00:00:00" -> time_update s = "" -> stk <> [] ->
  Forall control_press es -> flat (s, stk) (presses es) = true ->
  exists s1,
    tk_run (s, stk) (presses es) = Ok (s1, stk) /\
    updated_time s1 = "00:00:00" /\ time_update s1 = "" /\ pulses s1 = pulses s.
Proof.
induction es as [|e es IH]; intros s stk Hu Hb Hstk Hes Hf.
- exists s. now repeat split.
- inversion Hes as [|e0 l He Hes']; subst.
  assert (Hstep : exists s0,
            press e (s, stk) = Ok (s0, stk) /\
            updated_time s0 = "00:00:00" /\ time_update s0 = "" /\
            pulses s0 = pulses s).
  { destruct He as [-> | [-> | ->]].
    - cbn [press]. destruct (command (set_countdown_button s)) eqn:Hc.
      + rewrite (set_countdown_empty s Hb). cbn [bind]. exists s. now repeat split.
      + cbn [presses map flat nested_start fst snd] in Hf. rewrite Hc in Hf.
        destruct stk; [now contradiction Hstk | discriminate Hf].
      + exists (pause_countdown s). now repeat split.
      + exists s. now repeat split.
    - exists (clear_countdown s). now repeat split.
    - exists (clear_countdown s). now repeat split. }
  destruct Hstep as (s0 & P & Hu0 & Hb0 & P0).
  cbn [presses map flat tk_step] in Hf. rewrite P in Hf.
  apply andb_true_iff in Hf. destruct Hf as (_ & Hf).
  destruct (IH s0 stk Hu0 Hb0 Hstk Hes' Hf) as (s1 & R & Hu1 & Hb1 & P1).
  exists s1. cbn [presses map tk_run tk_step]. rewrite P. cbn [bind].
  split; [exact R|]. split; [exact Hu1|]. split; [exact Hb1 | congruence].
Qed.

(** X9. Whenever the innermost loop is in [update()] with no decisecond
    left, the stored text 00:00:00 and no digit typed (the state of a
    countdown that has just run down to 00:00:00.0), no press of Set (under
    its caption Pause), Clear or Back served by that [update()] call prevents
    the alarm, as long as none of them starts a loop inside the loop: when
    [update()] returns, the loop enters the alarm with [alarm_key] reset to
    0, the button blank and bound to nothing, and the first alarm sound. *)
Theorem countdown_zero_always_alarms
  (s : State) (t : TimeCode) (stk : list Control) (es : list Event) :
updated_time s = "00:00:00" -> time_update s = "" -> deci_sec t = 0 ->
Forall control_press es -> flat (s, Tick t :: stk) (presses es) = true ->
exists s1 s',
  tk_run (s, Tick t :: stk) (presses es) = Ok (s1, Tick t :: stk) /\
  tk_step (s1, Tick t :: stk) Return = Ok (s', AlarmOn :: stk) /\
  alarm_key s' = 0 /\
  set_countdown_button s' = mkButton "" cmd_nothing /\
  pulses s' = S (pulses s).
Proof.
intros Hu Hb Hd Hes Hf.
destruct (control_presses_at_zero es s (Tick t :: stk) Hu Hb) as (s1 & R & Hu1 & _ & P1);
  [discriminate | exact Hes | exact Hf |].
eexists s1, _. split; [exact R|]. cbn [tk_step].
rewrite (resume_at_zero s1 t stk Hu1 Hd).
split; [reflexivity|]. split; [reflexivity|]. split; [reflexivity|].
change (pulses (emit (Flash true)
                  (sounds 3 (with_set_button (mkButton "" cmd_nothing)
                               (with_alarm_key 0 s1)))))
  with (S (pulses s1)).
now rewrite P1.
Qed.

Lemma countdown_zero_always_alarms_witness :
exists s s1 s',
  tk_run (init, []) (presses [Number K5; SetButton; SetButton] ++ returns 50)
  = Ok (s, [Tick (mkTime 0 0 0 0)]) /\
  tk_run (s, [Tick (mkTime 0 0 0 0)]) (presses [SetButton; ClearButton; SetButton])
  = Ok (s1, [Tick (mkTime 0 0 0 0)]) /\
  tk_step (s1, [Tick (mkTime 0 0 0 0)]) Return = Ok (s', [AlarmOn]) /\
  pulses s' = S (pulses s).
Proof.
eassert (E0 : tk_run (init, [])
                (presses [Number K5; SetButton; SetButton] ++ returns 50)
              = Ok (_, [Tick (mkTime 0 0 0 0)])) by (vm_compute; reflexivity).
match type of E0 with _ = Ok (?s0, _) =>
  destruct (countdown_zero_always_alarms s0 (mkTime 0 0 0 0) []
              [SetButton; ClearButton; SetButton])
    as (s1 & s' & R & A & _ & _ & P)
end.
- reflexivity.
- reflexivity.
- reflexivity.
- repeat (apply Forall_cons; [unfold control_press; auto|]). apply Forall_nil.
- vm_compute. reflexivity.
- eexists. exists s1, s'. split; [exact E0|]. split; [exact R|].
  split; [exact A | exact P].
Defined.

Lemma flat_prefix (ins ins' : list Input) :
forall n, flat n (ins ++ ins') = true -> flat n ins = true.
Proof.
induction ins as [|i ins IH]; intros n Hf; [reflexivity|].
cbn [app flat] in *. apply andb_true_iff in Hf. destruct Hf as (Hn & Hf).
rewrite Hn. cbn [andb]. destruct (tk_step n i) as [n1|]; [now apply IH | reflexivity].
Qed.

(** Presses other than Clear and Back served while the number buttons are
    locked and the button is bound to Pause, to Cont. or to nothing, none of
    them starting a loop inside a loop: at most Pause is carried out. *)
Lemma quiet_presses (es : list Event) :
forall (s : State) (stk : list Control),
  number_key s = false -> stk <> [] ->
  command (set_countdown_button s) <> cmd_set_countdown ->
  Forall keeps_alarm es -> flat (s, stk) (presses es) = true ->
  exists s1,
    tk_run (s, stk) (presses es) = Ok (s1, stk) /\
    number_key s1 = false /\
    command (set_countdown_button s1) <> cmd_set_countdown /\
    (command (set_countdown_button s) = cmd_nothing -> s1 = s) /\
    updated_time s1 = updated_time s /\ alarm_key s1 = alarm_key s /\
    time_update s1 = time_update s /\ updated_deci s1 = updated_deci s /\
    countdown_time_label s1 = countdown_time_label s /\
    countdown_mini_time_label s1 = countdown_mini_time_label s /\
    pulses s1 = pulses s /\
    (forall red, flashes red s1 = flashes red s).
Proof.
induction es as [|e es IH]; intros s stk Hn Hstk Hc Hes Hf.
- exists s. now repeat split.
- inversion Hes as [|e0 l (He1 & He2) Hes']; subst.
  assert (Hstep : exists s0,
            press e (s, stk) = Ok (s0, stk) /\
            number_key s0 = false /\
            command (set_countdown_button s0) <> cmd_set_countdown /\
            (command (set_countdown_button s) = cmd_nothing -> s0 = s) /\
            updated_time s0 = updated_time s /\ alarm_key s0 = alarm_key s /\
            time_update s0 = time_update s /\ updated_deci s0 = updated_deci s /\
            countdown_time_label s0 = countdown_time_label s /\
            countdown_mini_time_label s0 = countdown_mini_time_label s /\
            pulses s0 = pulses s /\
            (forall red, flashes red s0 = flashes red s)).
  { destruct e as [k| | |]; try congruence.
    - exists s. cbn [press]. rewrite (number_buttons_locked _ s Hn). now repeat split.
    - cbn [press]. destruct (command (set_countdown_button s)) eqn:Hcmd.
      + congruence.
      + cbn [presses map flat nested_start fst snd] in Hf. rewrite Hcmd in Hf.
        destruct stk; [now contradiction Hstk | discriminate Hf].
      + exists (pause_countdown s). repeat split; fields; try discriminate; auto.
      + exists s. repeat split; auto; congruence. }
  destruct Hstep as (s0 & P & Hn0 & Hc0 & Hsame & U0 & A0 & T0 & D0 & L0 & M0 & P0 & F0).
  cbn [presses map flat tk_step] in Hf. rewrite P in Hf.
  apply andb_true_iff in Hf. destruct Hf as (_ & Hf).
  destruct (IH s0 stk Hn0 Hstk Hc0 Hes' Hf)
    as (s1 & R & Hn1 & Hc1 & Hsame1 & U1 & A1 & T1 & D1 & L1 & M1 & P1 & F1).
  exists s1. cbn [presses map tk_run tk_step]. rewrite P. cbn [bind].
  split; [exact R|]. split; [exact Hn1|]. split; [exact Hc1|].
  split.
  { intros Hnone. specialize (Hsame Hnone). subst s0. now apply Hsame1. }
  repeat (split; [congruence|]). intros red. now rewrite F1, F0.
Qed.

(** One [update()] call of the innermost loop that serves such presses. *)
Lemma quiet_update (es : list Event) (rest : list Input) (s : State) (stk : list Control) :
number_key s = false -> stk <> [] ->
command (set_countdown_button s) <> cmd_set_countdown ->
Forall keeps_alarm es ->
flat (s, stk) ((presses es ++ [Return]) ++ rest) = true ->
exists s1,
  tk_run (s, stk) ((presses es ++ [Return]) ++ rest) = tk_run (resume (s1, stk)) rest /\
  flat (resume (s1, stk)) rest = true /\
  number_key s1 = false /\
  (command (set_countdown_button s) = cmd_nothing -> s1 = s) /\
  updated_time s1 = updated_time s /\ alarm_key s1 = alarm_key s /\
  time_update s1 = time_update s /\ updated_deci s1 = updated_deci s /\
  countdown_time_label s1 = countdown_time_label s /\
  countdown_mini_time_label s1 = countdown_mini_time_label s /\
  pulses s1 = pulses s /\
  (forall red, flashes red s1 = flashes red s).
Proof.
intros Hn Hstk Hc Hes Hf.
rewrite <- app_assoc in Hf |- *.
pose proof (flat_prefix _ _ _ Hf) as Hf0.
destruct (quiet_presses es s stk Hn Hstk Hc Hes Hf0)
  as (s1 & R & Hn1 & _ & Hsame & Hrest).
exists s1. rewrite (tk_run_app_cd _ _ _ _ R).
rewrite (flat_app _ _ _ _ R), Hf0 in Hf. cbn [andb app flat tk_step] in Hf.
apply andb_true_iff in Hf. destruct Hf as (_ & Hf).
cbn [app tk_run tk_step bind].
split; [reflexivity|]. split; [exact Hf|]. split; [exact Hn1|].
split; [exact Hsame | exact Hrest].
Qed.

(** The alarm loop with its labels red and [k] pulses still to come after
    the one sounding: two [update()] calls per pulse. *)
Lemma alarm_sounds (k : nat) :
forall (s : State) (stk : list Control) (ess : list (list Event)),
  number_key s = false -> command (set_countdown_button s) = cmd_nothing ->
  alarm_key s = 13 - Z.of_nat k -> (k <= 13)%nat ->
  List.length ess = (2 * (k + 1))%nat ->
  Forall (Forall keeps_alarm) ess ->
  exists s',
    tk_run (s, AlarmOn :: stk) (updates ess) = Ok (s', stk) /\
    pulses s' = (pulses s + k)%nat /\
    flashes true s' = (flashes true s + k)%nat /\
    flashes false s' = (flashes false s + k + 1)%nat /\
    number_key s' = true /\
    set_countdown_button s' = mkButton "Set" cmd_set_countdown /\
    time_update s' = time_update s /\ updated_time s' = updated_time s /\
    updated_deci s' = updated_deci s /\
    countdown_time_label s' = countdown_time_label s /\
    countdown_mini_time_label s' = countdown_mini_time_label s.
Proof.
assert (Hflat : forall (s : State) (stk : list Control) (es : list Event),
          number_key s = false -> command (set_countdown_button s) = cmd_nothing ->
          Forall keeps_alarm es -> stk <> [] ->
          tk_run (s, stk) (presses es) = Ok (s, stk)).
{ intros s stk es Hn Hc. induction es as [|e es IH]; intros Hes Hstk; [reflexivity|].
  inversion Hes as [|e0 l (He1 & He2) Hes']; subst.
  cbn [presses map tk_run tk_step]. destruct e as [k0| | |]; try congruence; cbn [press].
  - rewrite (number_buttons_locked _ s Hn). cbn [bind]. now apply IH.
  - rewrite Hc. cbn [bind]. now apply IH. }
assert (Hupd : forall (s : State) (stk : list Control) (es : list Event) rest,
          number_key s = false -> command (set_countdown_button s) = cmd_nothing ->
          Forall keeps_alarm es -> stk <> [] ->
          tk_run (s, stk) ((presses es ++ [Return]) ++ rest)
          = tk_run (resume (s, stk)) rest).
{ intros s stk es rest Hn Hc Hes Hstk. rewrite <- app_assoc.
  rewrite (tk_run_app_cd _ _ _ _ (Hflat s stk es Hn Hc Hes Hstk)). reflexivity. }
induction k as [|k IH]; intros s stk ess Hn Hc Ha Hk Hlen Hes.
- destruct ess as [|es1 [|es2 [|es3 ess]]]; try discriminate Hlen.
  inversion Hes as [|? ? H1 Hes1]; subst. inversion Hes1 as [|? ? H2 _]; subst.
  cbn [updates flat_map]. rewrite Hupd by (auto; discriminate). cbn [resume].
  rewrite Hupd by (fields; auto; discriminate).
  cbn [resume]. unfold alarm_loop. fields. rewrite Ha.
  change (13 - Z.of_nat 0 + 1 <? 14) with false. cbv iota. cbn [push fst snd tk_run app].
  eexists. split; [reflexivity|]. fields.
  split; [unfold pulses; fields; cbn [filter]; lia|].
  split; [unfold flashes; fields; cbn [filter Bool.eqb]; lia|].
  split; [unfold flashes; fields; cbn [filter Bool.eqb List.length]; lia|].
  repeat split.
- destruct ess as [|es1 [|es2 ess]]; try (cbn [List.length] in Hlen; lia).
  inversion Hes as [|? ? H1 Hes1]; subst. inversion Hes1 as [|? ? H2 Hes2]; subst.
  cbn [updates flat_map]. rewrite Hupd by (auto; discriminate). cbn [resume].
  rewrite Hupd by (fields; auto; discriminate).
  cbn [resume]. unfold alarm_loop. fields. rewrite Ha.
  assert (Hlt : (13 - Z.of_nat (S k) + 1 <? 14) = true) by (apply Z.ltb_lt; lia).
  rewrite Hlt. cbn [push fst snd].
  set (s2 := emit (Flash true) _).
  destruct (IH s2 stk ess) as (s' & R & P & F1 & F2 & Hrest).
  + unfold s2. fields. exact Hn.
  + unfold s2. fields. exact Hc.
  + unfold s2. fields. lia.
  + lia.
  + cbn [List.length] in Hlen. lia.
  + exact Hes2.
  + exists s'. fold (updates ess). split; [exact R|].
    assert (P2 : pulses s2 = S (pulses s)) by reflexivity.
    assert (F21 : flashes true s2 = S (flashes true s)) by reflexivity.
    assert (F22 : flashes false s2 = S (flashes false s)) by reflexivity.
    split; [lia|]. split; [lia|]. split; [lia|]. exact Hrest.
Qed.

(** X14. In a run that starts no loop inside a loop, once the loop has run
    down to 00:00:00.0: whatever number buttons and presses of the Set
    button the next 29 [update()] calls serve (no Clear, no Back, no start
    of a loop inside the loop), exactly fourteen alarm sounds are played and
    the labels turn red and back fourteen times; with the 29th return the
    loop is left and the frame is ready for a new entry: number buttons
    unlocked, the button reading Set, no digit typed, 00:00:00.0 shown. *)
Theorem alarm_sounds_fourteen_times
  (ins : list Input) (s : State) (t : TimeCode) (stk : list Control)
  (ess : list (list Event)) :
tk_run (init, []) ins = Ok (s, Tick t :: stk) -> flat (init, []) ins = true ->
countdown_key s = true -> deciseconds t = 0 ->
List.length ess = 29%nat -> Forall (Forall keeps_alarm) ess ->
flat (s, Tick t :: stk) (updates ess) = true ->
exists s',
  tk_run (s, Tick t :: stk) (updates ess) = Ok (s', []) /\
  pulses s' = (pulses s + 14)%nat /\
  flashes true s' = (flashes true s + 14)%nat /\
  flashes false s' = (flashes false s + 14)%nat /\
  number_key s' = true /\
  set_countdown_button s' = mkButton "Set" cmd_set_countdown /\
  time_update s' = "" /\
  countdown_time_label s' = "00:00:00" /\ countdown_mini_time_label s' = ".0".
Proof.
intros E Hf Hk Hz Hlen Hes Hfl.
destruct (running_frame ins s t stk E Hf (or_introl Hk))
  as (-> & _ & Hc & Hn & Hbuf & Ht & (Hu & Hd) & _ & _ & A & B).
assert (Et : t = mkTime 0 0 0 0) by now apply holds_zero.
subst t.
destruct ess as [|es0 ess]; [discriminate Hlen|].
inversion Hes as [|? ? H0 Hes']; subst.
cbn [updates flat_map] in Hfl |- *. fold (updates ess) in Hfl |- *.
destruct (quiet_update es0 (updates ess) s [Tick (mkTime 0 0 0 0)])
  as (s1 & R & _ & Hn1 & _ & U1 & _ & T1 & _ & L1 & M1 & P1 & F1); auto;
  try discriminate; try congruence.
rewrite R.
assert (Hu1 : updated_time s1 = "00:00:00") by (rewrite U1; exact Hu).
rewrite (resume_at_zero s1 (mkTime 0 0 0 0) [] Hu1 eq_refl).
set (s2 := emit (Flash true) _).
destruct (alarm_sounds 13 s2 [] ess) as (s' & R' & P' & F1' & F2' & K' & B' & T' & _ & _ & L' & M').
- exact Hn1.
- reflexivity.
- reflexivity.
- lia.
- cbn [List.length] in Hlen. lia.
- exact Hes'.
- exists s'. split; [exact R'|].
  assert (P2 : pulses s2 = S (pulses s1)) by reflexivity.
  assert (F21 : flashes true s2 = S (flashes true s1)) by reflexivity.
  assert (F22 : flashes false s2 = flashes false s1) by reflexivity.
  pose proof (F1 true) as Ft. pose proof (F1 false) as Ff.
  split; [lia|]. split; [lia|]. split; [lia|]. split; [exact K'|]. split; [exact B'|].
  split; [rewrite T'; unfold s2; fields; congruence|].
  split.
  + rewrite L'. unfold s2. fields. rewrite L1, A. reflexivity.
  + rewrite M'. unfold s2. fields. rewrite M1, B. reflexivity.
Qed.

Lemma alarm_sounds_fourteen_times_witness :
exists s s',
  tk_run (init, []) (presses [Number K5; SetButton; SetButton] ++ returns 50)
  = Ok (s, [Tick (mkTime 0 0 0 0)]) /\
  tk_run (s, [Tick (mkTime 0 0 0 0)])
    (updates ([SetButton; Number K7] :: repeat [Number K3; SetButton] 28))
  = Ok (s', []) /\
  pulses s' = (pulses s + 14)%nat.
Proof.
eassert (E0 : tk_run (init, [])
                (presses [Number K5; SetButton; SetButton] ++ returns 50)
              = Ok (_, [Tick (mkTime 0 0 0 0)])) by (vm_compute; reflexivity).
destruct (alarm_sounds_fourteen_times _ _ _ _
            ([SetButton; Number K7] :: repeat [Number K3; SetButton] 28) E0)
  as (s' & R & P & _).
- vm_compute. reflexivity.
- reflexivity.
- reflexivity.
- reflexivity.
- repeat constructor; discriminate.
- vm_compute. reflexivity.
- eexists. exists s'. split; [exact E0|]. split; [exact R | exact P].
Defined.



End CountdownNested.
